(** * ISOBUS implement model of tractor_isobus

    A shallow embedding of the three example programs of the repository:
    the section-control sprayer simulator (class
    [SectionControlImplementSimulator] and its [main]), and the two HASHTAG
    sensor clients (sentence parser, request callbacks, DDOP builders and
    polling loops).  Machine integers are [Z] with their wrap-around written
    out, [std::vector<bool>] is [list bool], [std::string] is a list of
    characters, C++ exceptions and null dereferences are explicit outcomes. *)

From Stdlib Require Import ZArith QArith Lia Bool Ascii String List.
From stdpp Require Import base list.
Import ListNotations.

(** ** Machine integers *)

(** Conversion to [std::uint8_t], [std::uint32_t] and [std::int32_t]. *)
Definition to_uint8 (z : Z) : Z := (z mod 256)%Z.
Definition to_uint32 (z : Z) : Z := (z mod 2 ^ 32)%Z.
Definition to_int32 (z : Z) : Z := ((z + 2 ^ 31) mod 2 ^ 32 - 2 ^ 31)%Z.

Definition in_int32 (z : Z) : Prop := (- 2 ^ 31 <= z < 2 ^ 31)%Z.

Definition Z_of_bool (b : bool) : Z := if b then 1%Z else 0%Z.

(** ** Outcomes of a call

    A call returns, throws a C++ exception, or stops the program: a null
    pointer dereferenced or an assertion failed ([Crash]). *)

Inductive exception : Type :=
| std_out_of_range
| std_invalid_argument.

Inductive result (A : Type) : Type :=
| Ok (a : A)
| Throw (e : exception)
| Crash.

Arguments Ok {A} a.
Arguments Throw {A} e.
Arguments Crash {A}.

Definition bind {A B : Type} (m : result A) (k : A -> result B) : result B :=
  match m with
  | Ok a => k a
  | Throw e => Throw e
  | Crash => Crash
  end.

Notation "x <- m ;; k" := (bind m (fun x => k))
  (at level 100, m at next level, right associativity).

(** [v.at(i)] of a [std::vector]: read and write, throwing out of range. *)
Definition at_get {A : Type} (v : list A) (i : nat) : result A :=
  match v !! i with
  | Some x => Ok x
  | None => Throw std_out_of_range
  end.

Definition at_put {A : Type} (v : list A) (i : nat) (x : A) : result (list A) :=
  if i <? length v then Ok (<[i := x]> v) else Throw std_out_of_range.

(** ** Data description indices

    The enumerators of [isobus::DataDescriptionIndex] that the programs name.
    Their numeric values live in a header of the ISOBUS stack, outside the
    repository, so the value table is a parameter of the model. *)

Inductive DataDescriptionIndex : Type :=
| SetpointVolumePerAreaApplicationRate
| ActualVolumePerAreaApplicationRate
| ActualWorkingWidth
| ActualVolumeContent
| MaximumVolumeContent
| EffectiveTotalTime
| DeviceElementOffsetX
| DeviceElementOffsetY
| ActualWorkState
| ConnectorType
| PrescriptionControlState
| SectionControlState
| ActualCondensedWorkState1_16
| SetpointCondensedWorkState1_16
| SetpointWorkState
| RequestDefaultProcessData.

Class DDITable : Type := { code : DataDescriptionIndex -> Z }.

(** The case labels of a [switch] are pairwise distinct (the compiler rejects
    a duplicate), and no standard index is the proprietary 65432. *)
Definition distinct_labels (T : DDITable) : Prop :=
  (forall a b, code a = code b -> a = b) /\ (forall a, code a <> 65432%Z).

(** The numbers of the ISO 11783-11 data dictionary, one table that satisfies
    [distinct_labels]. *)
Definition iso11783 : DDITable :=
  {| code := fun d =>
       match d with
       | SetpointVolumePerAreaApplicationRate => 1
       | ActualVolumePerAreaApplicationRate => 2
       | ActualWorkingWidth => 67
       | ActualVolumeContent => 72
       | MaximumVolumeContent => 73
       | EffectiveTotalTime => 119
       | DeviceElementOffsetX => 134
       | DeviceElementOffsetY => 135
       | ActualWorkState => 141
       | ConnectorType => 157
       | PrescriptionControlState => 158
       | SectionControlState => 160
       | ActualCondensedWorkState1_16 => 161
       | SetpointCondensedWorkState1_16 => 290
       | SetpointWorkState => 289
       | RequestDefaultProcessData => 57343
       end%Z |}.


(** ** The device descriptor object pool

    [isobus::DeviceDescriptorObjectPool] belongs to the ISOBUS stack, not to
    the repository: the builders are modelled over any implementation of the
    calls they make. *)

(** [DeviceElementObject::Type], the two enumerators the builders use. *)
Inductive DeviceElementType : Type :=
| TypeDevice
| TypeConnector.

(** One [add_...] call with its arguments. *)
Inductive AddCall : Type :=
| add_device (deviceDesignator deviceSoftwareVersion deviceSerialNumber
              deviceStructureLabel : string)
             (deviceLocalizationLabel deviceExtendedStructureLabel : list Z)
             (clientIsoNAME : Z)
| add_device_element (deviceElementDesignator : string)
                     (deviceElementNumber parentObjectID : Z)
                     (deviceElementType : DeviceElementType) (uniqueID : Z)
| add_device_process_data (processDataDesignator : string)
                          (processDataDDI deviceValuePresentationObjectID : Z)
                          (processDataProperties processDataTriggerMethods : Z)
                          (uniqueID : Z)
| add_device_property (propertyDesignator : string) (propertyValue : Z)
                      (propertyDDI valuePresentationObject uniqueID : Z)
| add_device_value_presentation (unitDesignator : string) (offsetValue : Z)
                                (scaleFactor : Q) (numberDecimals : Z)
                                (uniqueID : Z).

(** The calls of a pool: [clear], the five adds, [get_object_by_id] (a null
    pointer is [None]) and, on the element a pointer leads to,
    [add_reference_to_child_object]. *)
Class ObjectPool (Pool Handle : Type) : Type := {
  pool_clear : Pool -> Pool;
  pool_add : AddCall -> Pool -> bool * Pool;
  pool_get_object_by_id : Z -> Pool -> option Handle;
  pool_add_reference_to_child_object : Handle -> Z -> Pool -> Pool
}.

(** Constants of the stack's headers that the builders pass along. *)
Class PoolConstants : Type := {
  NULL_OBJECT_ID : Z;
  MemberOfDefaultSet : Z;
  Settable : Z;
  OnChange : Z;
  Total : Z
}.

(** The values of ISO 11783-10. *)
Definition iso_pool_constants : PoolConstants :=
  {| NULL_OBJECT_ID := 65535; MemberOfDefaultSet := 1; Settable := 2;
     OnChange := 8; Total := 16 |}.

(** A run of a builder: the adds it made, each with what the pool answered,
    and how the run ended. *)
Record Run (Pool A : Type) : Type := {
  adds : list (AddCall * bool);
  outcome : result (A * Pool)
}.

Arguments adds {Pool A} r.
Arguments outcome {Pool A} r.

Definition Build (Pool A : Type) : Type := Pool -> Run Pool A.

Definition build_ret {Pool A : Type} (a : A) : Build Pool A :=
  fun pool => {| adds := []; outcome := Ok (a, pool) |}.

Definition build_bind {Pool A B : Type} (m : Build Pool A) (k : A -> Build Pool B)
  : Build Pool B :=
  fun pool =>
    match m pool with
    | {| adds := made; outcome := Ok (a, pool') |} =>
        match k a pool' with
        | {| adds := made'; outcome := o |} =>
            {| adds := made ++ made'; outcome := o |}
        end
    | {| adds := made; outcome := Throw e |} => {| adds := made; outcome := Throw e |}
    | {| adds := made; outcome := Crash |} => {| adds := made; outcome := Crash |}
    end.

Notation "x <~ m ;; k" := (build_bind m (fun x => k))
  (at level 100, m at next level, right associativity).

Section PoolCalls.
Context {Pool Handle : Type} {OP : ObjectPool Pool Handle}.

(** [pool->clear()]. *)
Definition clear : Build Pool unit :=
  fun pool => {| adds := []; outcome := Ok (tt, pool_clear pool) |}.

(** [ok &= pool->add_...(...)]: the add runs, then its answer is and-ed into
    the flag. *)
Definition and_add (ok : bool) (call : AddCall) : Build Pool bool :=
  fun pool =>
    let r := pool_add call pool in
    {| adds := [(call, fst r)]; outcome := Ok (ok && fst r, snd r) |}.

(** [pool->get_object_by_id(id)], cast to an element pointer. *)
Definition get_object_by_id (id : Z) : Build Pool (option Handle) :=
  fun pool => {| adds := []; outcome := Ok (pool_get_object_by_id id pool, pool) |}.

(** [element->add_reference_to_child_object(child)]: a null [element] is
    dereferenced. *)
Definition add_reference_to_child_object (element : option Handle) (child : Z)
  : Build Pool unit :=
  fun pool =>
    match element with
    | Some h =>
        {| adds := [];
           outcome := Ok (tt, pool_add_reference_to_child_object h child pool) |}
    | None => {| adds := []; outcome := Crash |}
    end.

End PoolCalls.

(** A builder called through a pool pointer that may be null: [if_null] is
    what happens then; otherwise [body] runs on the pool behind the pointer,
    and the run ends with that pool as the call left it. *)
Definition on_pool {Pool A : Type} (pool : option Pool)
    (if_null : result A) (body : Build Pool A) : Run (option Pool) A :=
  match pool with
  | None => {| adds := []; outcome := (a <- if_null ;; Ok (a, None)) |}
  | Some p =>
      let r := body p in
      {| adds := adds r;
         outcome := (x <- outcome r ;; Ok (fst x, Some (snd x))) |}
  end.


(** ** The section-control simulator (sprayer client) *)

Module Sprayer.

Definition MAX_NUMBER_SECTIONS_SUPPORTED : Z := 256.
Definition NUMBER_SECTIONS_PER_CONDENSED_MESSAGE : nat := 16.
Definition BOOM_WIDTH : Z := 9144.

Record SectionControlImplementSimulator : Type := {
  sectionSetpointStates : list bool;
  sectionSwitchStates : list bool;
  targetRate : Z;            (* std::uint32_t *)
  setpointWorkState : bool;
  isAutoMode : bool
}.

Abbreviation Sim := SectionControlImplementSimulator.

(** The constructor: both vectors of [numberOfSections] (a [std::uint8_t])
    entries, all false. *)
Definition new_simulator (numberOfSections : Z) : Sim :=
  let n := Z.to_nat (to_uint8 numberOfSections) in
  {| sectionSetpointStates := replicate n false;
     sectionSwitchStates := replicate n false;
     targetRate := 100000;
     setpointWorkState := true;
     isAutoMode := true |}.

Definition with_setpoints (sim : Sim) (v : list bool) : Sim :=
  {| sectionSetpointStates := v;
     sectionSwitchStates := sectionSwitchStates sim;
     targetRate := targetRate sim;
     setpointWorkState := setpointWorkState sim;
     isAutoMode := isAutoMode sim |}.

Definition with_switches (sim : Sim) (v : list bool) : Sim :=
  {| sectionSetpointStates := sectionSetpointStates sim;
     sectionSwitchStates := v;
     targetRate := targetRate sim;
     setpointWorkState := setpointWorkState sim;
     isAutoMode := isAutoMode sim |}.

Definition with_target_rate (sim : Sim) (r : Z) : Sim :=
  {| sectionSetpointStates := sectionSetpointStates sim;
     sectionSwitchStates := sectionSwitchStates sim;
     targetRate := r;
     setpointWorkState := setpointWorkState sim;
     isAutoMode := isAutoMode sim |}.

Definition with_setpoint_work_state (sim : Sim) (b : bool) : Sim :=
  {| sectionSetpointStates := sectionSetpointStates sim;
     sectionSwitchStates := sectionSwitchStates sim;
     targetRate := targetRate sim;
     setpointWorkState := b;
     isAutoMode := isAutoMode sim |}.

Definition set_is_mode_auto (sim : Sim) (isAuto : bool) : Sim :=
  {| sectionSetpointStates := sectionSetpointStates sim;
     sectionSwitchStates := sectionSwitchStates sim;
     targetRate := targetRate sim;
     setpointWorkState := setpointWorkState sim;
     isAutoMode := isAuto |}.

(** [static_cast<std::uint8_t>(sectionSetpointStates.size())], as an index
    bound. *)
Definition get_number_of_sections (sim : Sim) : nat :=
  Z.to_nat (to_uint8 (Z.of_nat (length (sectionSetpointStates sim)))).

Definition get_section_actual_state (sim : Sim) (index : nat) : result bool :=
  if isAutoMode sim then at_get (sectionSetpointStates sim) index
  else at_get (sectionSwitchStates sim) index.

Definition get_section_setpoint_state (sim : Sim) (index : nat) : result bool :=
  at_get (sectionSetpointStates sim) index.

Definition set_section_switch_state (sim : Sim) (index : nat) (value : bool)
  : result Sim :=
  v <- at_put (sectionSwitchStates sim) index value ;;
  Ok (with_switches sim v).

Definition get_section_switch_state (sim : Sim) (index : nat) : result bool :=
  at_get (sectionSwitchStates sim) index.

(** The counting loop of [get_actual_number_of_sections_on]: [i] runs from
    [i] on for [todo] more rounds, [count] is a [std::uint8_t]. *)
Fixpoint count_sections_on (sim : Sim) (todo i : nat) (count : Z) : result Z :=
  match todo with
  | O => Ok count
  | S todo' =>
      b <- get_section_actual_state sim i ;;
      count_sections_on sim todo' (S i)
        (if b then to_uint8 (count + 1) else count)
  end.

Definition get_actual_number_of_sections_on (sim : Sim) : result Z :=
  count_sections_on sim (get_number_of_sections sim) 0 0.

Definition get_actual_rate (sim : Sim) : result Z :=
  n <- get_actual_number_of_sections_on sim ;;
  let anySectionOn := (0 <? n)%Z in
  Ok (to_uint32 (targetRate sim * (if anySectionOn then 1 else 0))).

Definition get_target_rate (sim : Sim) : Z := targetRate sim.
Definition get_setpoint_work_state (sim : Sim) : bool := setpointWorkState sim.
Definition get_is_mode_auto (sim : Sim) : bool := isAutoMode sim.
Definition get_prescription_control_state (sim : Sim) : Z :=
  Z_of_bool (get_is_mode_auto sim).
Definition get_section_control_state (sim : Sim) : Z :=
  Z_of_bool (get_is_mode_auto sim).

(** The loops that pack a condensed work state: sixteen rounds, two bits per
    section, [0x03] for a section the simulator does not have.  [value] is the
    [std::int32_t] being filled: or-ing in a section state is on [int]
    (the state shifted by at most 30 bits), or-ing in [0x03] is on
    [std::uint32_t] and converted back. *)
Definition not_installed (value : Z) (i : nat) : Z :=
  to_int32 (Z.lor (to_uint32 value)
                  (to_uint32 (Z.shiftl 3 (2 * Z.of_nat i)))).

Fixpoint pack_condensed (get : nat -> result bool) (n : nat)
    (todo i : nat) (value : Z) : result Z :=
  match todo with
  | O => Ok value
  | S todo' =>
      if i <? n then
        sectionState <- get i ;;
        pack_condensed get n todo' (S i)
          (Z.lor value (Z.shiftl (Z_of_bool sectionState) (2 * Z.of_nat i)))
      else
        pack_condensed get n todo' (S i) (not_installed value i)
  end.

(** The loop that unpacks a condensed setpoint word; it stops at the first
    index the simulator does not have. *)
Fixpoint unpack_condensed (processVariableValue : Z) (todo i : nat) (sim : Sim)
  : result Sim :=
  match todo with
  | O => Ok sim
  | S todo' =>
      if i <? get_number_of_sections sim then
        let sectionState :=
          (Z.land (Z.shiftr processVariableValue (2 * Z.of_nat i)) 3 =? 1)%Z in
        v <- at_put (sectionSetpointStates sim) i sectionState ;;
        unpack_condensed processVariableValue todo' (S i) (with_setpoints sim v)
      else Ok sim
  end.

Section Callbacks.
Context {T : DDITable}.

(** [auth_status] is the program's global; [value] is the caller's variable
    the callback writes through its reference.  The result is the new
    [value] and the returned flag. *)
Definition request_value_command_callback (auth_status : Z)
    (elementNumber DDI : Z) (value : Z) (parentPointer : option Sim)
  : result (Z * bool) :=
  match parentPointer with
  | None => Ok (value, true)
  | Some sim =>
      if (DDI =? code MaximumVolumeContent)%Z then Ok (4000000%Z, true)
      else if (DDI =? code ActualVolumeContent)%Z then Ok (3000000%Z, true)
      else if (DDI =? code SectionControlState)%Z then
        Ok (to_int32 (get_section_control_state sim), true)
      else if (DDI =? code PrescriptionControlState)%Z then
        Ok (to_int32 (get_prescription_control_state sim), true)
      else if (DDI =? code ActualCondensedWorkState1_16)%Z then
        v <- pack_condensed (get_section_actual_state sim)
               (get_number_of_sections sim)
               NUMBER_SECTIONS_PER_CONDENSED_MESSAGE 0 0 ;;
        Ok (v, true)
      else if (DDI =? code ActualVolumePerAreaApplicationRate)%Z then
        r <- get_actual_rate sim ;;
        Ok (to_int32 r, true)
      else if (DDI =? code ActualWorkState)%Z then
        n <- get_actual_number_of_sections_on sim ;;
        Ok (if (0 <? n)%Z then 1%Z else 0%Z, true)
      else if ((DDI =? code DeviceElementOffsetX)
               || (DDI =? code DeviceElementOffsetY)
               || (DDI =? code RequestDefaultProcessData))%Z then
        Ok (0%Z, true)
      else if (DDI =? code ActualWorkingWidth)%Z then Ok (BOOM_WIDTH, true)
      else if (DDI =? code SetpointCondensedWorkState1_16)%Z then
        v <- pack_condensed (get_section_setpoint_state sim)
               (get_number_of_sections sim)
               NUMBER_SECTIONS_PER_CONDENSED_MESSAGE 0 0 ;;
        Ok (v, true)
      else if (DDI =? code SetpointVolumePerAreaApplicationRate)%Z then
        Ok (to_int32 (get_target_rate sim), true)
      else if (DDI =? 65432)%Z then
        Ok (to_int32 (to_uint32 auth_status), true)
      else Ok (0%Z, true)
  end.

(** The result is the simulator behind [parentPointer] after the call and
    the returned flag. *)
Definition value_command_callback (elementNumber DDI : Z)
    (processVariableValue : Z) (parentPointer : option Sim)
  : result (option Sim * bool) :=
  match parentPointer with
  | None => Ok (None, true)
  | Some sim =>
      if (DDI =? code SetpointCondensedWorkState1_16)%Z then
        sim' <- unpack_condensed processVariableValue
                  NUMBER_SECTIONS_PER_CONDENSED_MESSAGE 0 sim ;;
        Ok (Some sim', true)
      else if (DDI =? code SetpointVolumePerAreaApplicationRate)%Z then
        Ok (Some (with_target_rate sim (to_uint32 processVariableValue)), true)
      else if (DDI =? code SetpointWorkState)%Z then
        Ok (Some (with_setpoint_work_state sim (1 =? processVariableValue)%Z),
            true)
      else if ((DDI =? code PrescriptionControlState)
               || (DDI =? code SectionControlState))%Z then
        Ok (Some (set_is_mode_auto sim (negb (processVariableValue =? 0)%Z)),
            true)
      else Ok (Some sim, true)
  end.
End Callbacks.

(** The object identifiers of the pool ([enum class ImplementDDOPObjectIDs]). *)
Module ImplementDDOPObjectIDs.
Definition Device : Z := 0.
Definition MainDeviceElement : Z := 1.
Definition DeviceActualWorkState : Z := 2.
Definition RequestDefaultProcessData : Z := 3.
Definition DeviceTotalTime : Z := 4.
Definition Connector : Z := 5.
Definition ConnectorXOffset : Z := 6.
Definition ConnectorYOffset : Z := 7.
Definition ConnectorType : Z := 8.
Definition SprayBoom : Z := 9.
Definition ActualWorkState : Z := 10.
Definition ActualWorkingWidth : Z := 11.
Definition AreaTotal : Z := 12.
Definition SetpointWorkState : Z := 13.
Definition SectionControlState : Z := 14.
Definition BoomXOffset : Z := 15.
Definition BoomYOffset : Z := 16.
Definition BoomZOffset : Z := 17.
Definition Section1 : Z := 18.
Definition SectionMax : Z := Section1 + (MAX_NUMBER_SECTIONS_SUPPORTED - 1).
Definition Section1XOffset : Z := SectionMax + 1.
Definition SectionXOffsetMax : Z := Section1XOffset + (MAX_NUMBER_SECTIONS_SUPPORTED - 1).
Definition Section1YOffset : Z := SectionXOffsetMax + 1.
Definition SectionYOffsetMax : Z := Section1YOffset + (MAX_NUMBER_SECTIONS_SUPPORTED - 1).
Definition Section1Width : Z := SectionYOffsetMax + 1.
Definition SectionWidthMax : Z := Section1Width + (MAX_NUMBER_SECTIONS_SUPPORTED - 1).
Definition ActualCondensedWorkingState1To16 : Z := SectionWidthMax + 1.
Definition SetpointCondensedWorkingState1To16 : Z := SectionWidthMax + 2.
Definition LiquidProduct : Z := SectionWidthMax + 3.
Definition TankCapacity : Z := SectionWidthMax + 4.
Definition TankVolume : Z := SectionWidthMax + 5.
Definition LifetimeApplicationVolumeTotal : Z := SectionWidthMax + 6.
Definition PrescriptionControlState : Z := SectionWidthMax + 7.
Definition ActualCulturalPractice : Z := SectionWidthMax + 8.
Definition TargetRate : Z := SectionWidthMax + 9.
Definition TimePresentation : Z := SectionWidthMax + 10.
Definition ShortWidthPresentation : Z := SectionWidthMax + 11.
Definition HashtagParameter : Z := SectionWidthMax + 12.
End ImplementDDOPObjectIDs.

Section Builder.
Context {T : DDITable} {C : PoolConstants}.
Context {Pool Handle : Type} {OP : ObjectPool Pool Handle}.

(** The last wiring line names [ImplementDDOPObjectIDs::ActualRate], which
    the enumeration does not declare: its value is a parameter. *)
Variable ActualRate : Z.

Definition localizationData : list Z := [101; 110; 80; 0; 85; 85; 255]%Z.

(** The wiring block under [if (retVal)]: four lookups, then the references,
    each through the pointer its lookup returned. *)
Definition wire_children : Build Pool unit :=
  sprayer <~ get_object_by_id ImplementDDOPObjectIDs.MainDeviceElement ;;
  connector <~ get_object_by_id ImplementDDOPObjectIDs.Connector ;;
  boom <~ get_object_by_id ImplementDDOPObjectIDs.SprayBoom ;;
  product <~ get_object_by_id ImplementDDOPObjectIDs.LiquidProduct ;;
  _ <~ add_reference_to_child_object sprayer ImplementDDOPObjectIDs.DeviceActualWorkState ;;
  _ <~ add_reference_to_child_object sprayer ImplementDDOPObjectIDs.SetpointWorkState ;;
  _ <~ add_reference_to_child_object sprayer ImplementDDOPObjectIDs.DeviceTotalTime ;;
  _ <~ add_reference_to_child_object sprayer ImplementDDOPObjectIDs.RequestDefaultProcessData ;;
  _ <~ add_reference_to_child_object sprayer ImplementDDOPObjectIDs.HashtagParameter ;;
  _ <~ add_reference_to_child_object connector ImplementDDOPObjectIDs.ConnectorXOffset ;;
  _ <~ add_reference_to_child_object connector ImplementDDOPObjectIDs.ConnectorYOffset ;;
  _ <~ add_reference_to_child_object connector ImplementDDOPObjectIDs.ConnectorType ;;
  _ <~ add_reference_to_child_object boom ImplementDDOPObjectIDs.BoomXOffset ;;
  _ <~ add_reference_to_child_object boom ImplementDDOPObjectIDs.BoomYOffset ;;
  _ <~ add_reference_to_child_object boom ImplementDDOPObjectIDs.BoomZOffset ;;
  _ <~ add_reference_to_child_object boom ImplementDDOPObjectIDs.ActualWorkingWidth ;;
  _ <~ add_reference_to_child_object boom ImplementDDOPObjectIDs.SectionControlState ;;
  _ <~ add_reference_to_child_object boom ImplementDDOPObjectIDs.AreaTotal ;;
  _ <~ add_reference_to_child_object boom ImplementDDOPObjectIDs.ActualCondensedWorkingState1To16 ;;
  _ <~ add_reference_to_child_object boom ImplementDDOPObjectIDs.SetpointCondensedWorkingState1To16 ;;
  _ <~ add_reference_to_child_object product ImplementDDOPObjectIDs.TankCapacity ;;
  _ <~ add_reference_to_child_object product ImplementDDOPObjectIDs.TankVolume ;;
  _ <~ add_reference_to_child_object product ImplementDDOPObjectIDs.LifetimeApplicationVolumeTotal ;;
  _ <~ add_reference_to_child_object product ImplementDDOPObjectIDs.PrescriptionControlState ;;
  _ <~ add_reference_to_child_object product ImplementDDOPObjectIDs.ActualCulturalPractice ;;
  _ <~ add_reference_to_child_object product ImplementDDOPObjectIDs.TargetRate ;;
  add_reference_to_child_object product ActualRate.

(** The body of [create_ddop] once [poolToPopulate] is dereferenced. *)
Definition populate (clientName : Z) : Build Pool bool :=
  let retVal := true in
  let elementCounter := 0%Z in
  _ <~ clear ;;
  retVal <~ and_add retVal
    (add_device "HASHTAG" "1.42.0" "WAZZZAAAAAA" "SP1.11" localizationData []
       clientName) ;;
  retVal <~ and_add retVal
    (add_device_element "Sprayer" elementCounter 0 TypeDevice
       ImplementDDOPObjectIDs.MainDeviceElement) ;;
  retVal <~ and_add retVal
    (add_device_process_data "Actual Work State" (code ActualWorkState)
       NULL_OBJECT_ID MemberOfDefaultSet OnChange
       ImplementDDOPObjectIDs.DeviceActualWorkState) ;;
  retVal <~ and_add retVal
    (add_device_process_data "Hashtag" 65432
       ImplementDDOPObjectIDs.ShortWidthPresentation MemberOfDefaultSet OnChange
       ImplementDDOPObjectIDs.HashtagParameter) ;;
  retVal <~ and_add retVal
    (add_device_process_data "Request Default PD" (code RequestDefaultProcessData)
       NULL_OBJECT_ID 0 Total
       ImplementDDOPObjectIDs.RequestDefaultProcessData) ;;
  retVal <~ and_add retVal
    (add_device_process_data "Total Time" (code EffectiveTotalTime)
       ImplementDDOPObjectIDs.TimePresentation
       (Z.lor MemberOfDefaultSet Settable) Total
       ImplementDDOPObjectIDs.DeviceTotalTime) ;;
  let elementCounter := (elementCounter + 1)%Z in
  retVal <~ and_add retVal
    (add_device_element "Connector" elementCounter
       ImplementDDOPObjectIDs.MainDeviceElement TypeConnector
       ImplementDDOPObjectIDs.Connector) ;;
  retVal <~ and_add retVal
    (add_device_process_data "Connector X" (code DeviceElementOffsetX)
       ImplementDDOPObjectIDs.ShortWidthPresentation Settable 0
       ImplementDDOPObjectIDs.ConnectorXOffset) ;;
  retVal <~ and_add retVal
    (add_device_process_data "Connector Y" (code DeviceElementOffsetY)
       ImplementDDOPObjectIDs.ShortWidthPresentation Settable 0
       ImplementDDOPObjectIDs.ConnectorYOffset) ;;
  retVal <~ and_add retVal
    (add_device_property "Type" 9 (code ConnectorType) NULL_OBJECT_ID
       ImplementDDOPObjectIDs.ConnectorType) ;;
  retVal <~ and_add retVal
    (add_device_value_presentation "mm" 0 1 0
       ImplementDDOPObjectIDs.ShortWidthPresentation) ;;
  retVal <~ and_add retVal
    (add_device_value_presentation "minutes" 0 1 1
       ImplementDDOPObjectIDs.TimePresentation) ;;
  if retVal then
    _ <~ wire_children ;;
    build_ret retVal
  else build_ret retVal.

(** [create_ddop]: the [assert] on the number of sections (and the division
    for [SECTION_WIDTH] behind it) comes first; the pool pointer is
    dereferenced without a test. *)
Definition create_ddop (sim : Sim) (poolToPopulate : option Pool) (clientName : Z)
  : Run (option Pool) bool :=
  if get_number_of_sections sim =? 0 then {| adds := []; outcome := Crash |}
  else on_pool poolToPopulate Crash (populate clientName).

End Builder.

(** ** The loop of [main] *)

Section Main.
Context {T : DDITable} {C : PoolConstants}.
Context {Pool Handle : Type} {OP : ObjectPool Pool Handle}.

Variable ActualRate : Z.

(** [TestInternalECU->get_NAME()]. *)
Variable clientName : Z.

Definition NUMBER_OF_SECTIONS : Z := 6.

(** The variables the loop changes: the local [counter], the global
    [auth_status], the local [tcClientStarted] and the pool behind
    [myDDOP]. *)
Record MainState : Type := {
  counter : Z;               (* int *)
  auth_status : Z;           (* std::int32_t *)
  tcClientStarted : bool;
  myDDOP : option Pool
}.

(** How one pass through the body of the loop ends: at the sleep that closes
    it, with the triggers it called, or at the [break]. *)
Inductive Pass : Type :=
| Sleeps (s : MainState) (triggers : list (Z * Z))
| Breaks (s : MainState).

(** One pass through the body of [while (running)].  The counter goes up.
    While the client has not started, [create_ddop] runs on [myDDOP]: when
    it returns true the client is configured and initialised (calls of the
    stack, which leave the variables alone) and [tcClientStarted] is set;
    when it returns false the loop is left at once.  Then every tenth round
    flips [auth_status], and the trigger for element 0 and index 65432 is
    called whatever happened. *)
Definition main_loop_round (rateController : Sim) (s : MainState) : result Pass :=
  let counter := to_int32 (counter s + 1) in
  created <-
    (if negb (tcClientStarted s)
     then outcome (create_ddop ActualRate rateController (myDDOP s) clientName)
     else Ok (true, myDDOP s)) ;;
  if fst created then
    let auth_status :=
      if (Z.rem counter 10 =? 0)%Z
      then (if negb (auth_status s =? 0)%Z then 0%Z else 1%Z)
      else auth_status s in
    Ok (Sleeps {| counter := counter; auth_status := auth_status;
                  tcClientStarted := true; myDDOP := snd created |}
          [(0%Z, 65432%Z)])
  else
    Ok (Breaks {| counter := counter; auth_status := auth_status s;
                  tcClientStarted := false; myDDOP := snd created |}).

(** The loop, for at most [rounds] rounds before [running] goes false: the
    value of [auth_status] and the triggers of every round that reached its
    end, and the variables when the loop is left (or the way the run
    broke off). *)
Fixpoint main_loop (rounds : nat) (rateController : Sim) (s : MainState)
  : list (Z * list (Z * Z)) * result MainState :=
  match rounds with
  | O => ([], Ok s)
  | S rounds' =>
      match main_loop_round rateController s with
      | Ok (Sleeps s' triggers) =>
          let run := main_loop rounds' rateController s' in
          ((auth_status s', triggers) :: fst run, snd run)
      | Ok (Breaks s') => ([], Ok s')
      | Throw e => ([], Throw e)
      | Crash => ([], Crash)
      end
  end.

(** [main] from the point where the hardware interface runs: the variables
    at their initial values, [myDDOP] pointing to the new pool, the
    simulator constructed with [NUMBER_OF_SECTIONS]; then the loop, and
    [return (!tcClientStarted)]. *)
Definition main (rounds : nat) (pool : Pool)
  : list (Z * list (Z * Z)) * result Z :=
  let rateController := new_simulator NUMBER_OF_SECTIONS in
  let run :=
    main_loop rounds rateController
      {| counter := 0; auth_status := 0; tcClientStarted := false;
         myDDOP := Some pool |} in
  (fst run, s <- snd run ;; Ok (if tcClientStarted s then 0%Z else 1%Z)).

End Main.

End Sprayer.


(** ** The sentence parser (both sensor clients carry the same text) *)

Module Nmea.

(** A [std::string] is the list of its characters; a literal is written
    [str "..."]. *)
Definition str (s : string) : list ascii := list_ascii_of_string s.

(** [static_cast<std::uint8_t>(c)]. *)
Definition byte_of (c : ascii) : Z := Z.of_N (N_of_ascii c).

(** [s.find(c)]: the index of the first [c], [None] for [npos]. *)
Fixpoint find (c : ascii) (s : list ascii) : option nat :=
  match s with
  | [] => None
  | x :: s' => if Ascii.eqb x c then Some 0 else option_map S (find c s')
  end.

(** [s.substr(pos, n)]. *)
Definition substr (s : list ascii) (pos n : nat) : result (list ascii) :=
  if length s <? pos then Throw std_out_of_range else Ok (take n (drop pos s)).

(** [a == b] on strings. *)
Fixpoint string_eqb (a b : list ascii) : bool :=
  match a, b with
  | [], [] => true
  | x :: a', y :: b' => Ascii.eqb x y && string_eqb a' b'
  | _, _ => false
  end.

(** *** [std::stoi]: [strtol] and the range check on its result *)

Definition isspace (c : ascii) : bool :=
  let n := byte_of c in ((n =? 32) || ((9 <=? n) && (n <=? 13)))%Z.

Fixpoint skip_spaces (s : list ascii) : list ascii :=
  match s with
  | c :: s' => if isspace c then skip_spaces s' else s
  | [] => []
  end.

(** The value of a digit or letter, whatever the base. *)
Definition digit_value (c : ascii) : option Z :=
  let n := byte_of c in
  if ((48 <=? n) && (n <=? 57))%Z then Some (n - 48)%Z
  else if ((97 <=? n) && (n <=? 122))%Z then Some (n - 97 + 10)%Z
  else if ((65 <=? n) && (n <=? 90))%Z then Some (n - 65 + 10)%Z
  else None.

Definition digit_in (base : Z) (c : ascii) : option Z :=
  match digit_value c with
  | Some d => if (d <? base)%Z then Some d else None
  | None => None
  end.

(** The longest run of digits at the head of [s]; [acc] is [None] until a
    digit has been read. *)
Fixpoint read_digits (base : Z) (s : list ascii) (acc : option Z) : option Z :=
  match s with
  | c :: s' =>
      match digit_in base c with
      | Some d => read_digits base s' (Some (default 0%Z acc * base + d)%Z)
      | None => acc
      end
  | [] => acc
  end.

(** The magnitude [strtol] reads after the sign: with base 16 a leading
    [0x] or [0X] is skipped, and counts as the number 0 when no hexadecimal
    digit follows it. *)
Definition read_magnitude (base : Z) (s : list ascii) : option Z :=
  match s with
  | c :: x :: s' =>
      if (Ascii.eqb c "0" && (base =? 16)%Z
          && (Ascii.eqb x "x" || Ascii.eqb x "X"))%bool then
        match read_digits base s' None with
        | Some v => Some v
        | None => Some 0%Z
        end
      else read_digits base s None
  | _ => read_digits base s None
  end.

(** The optional sign: whether it is a minus, and what follows it. *)
Definition split_sign (s : list ascii) : bool * list ascii :=
  match s with
  | c :: s' =>
      if Ascii.eqb c "-" then (true, s')
      else if Ascii.eqb c "+" then (false, s')
      else (false, s)
  | [] => (false, [])
  end.

Definition stoi (s : list ascii) (base : Z) : result Z :=
  let '(negative, digits) := split_sign (skip_spaces s) in
  match read_magnitude base digits with
  | None => Throw std_invalid_argument
  | Some m =>
      let v := (if negative then - m else m)%Z in
      if ((v <? - 2 ^ 31) || (2 ^ 31 - 1 <? v))%Z then Throw std_out_of_range
      else Ok v
  end.

(** *** Checksum *)

(** [sentence[i]] as a byte (the loop never leaves the string). *)
Definition byte_at (sentence : list ascii) (i : nat) : Z :=
  match sentence !! i with
  | Some c => byte_of c
  | None => 0%Z
  end.

(** The loop [for (i = ...; i < star_pos; i++) calc_cs ^= sentence[i]]. *)
Fixpoint xor_loop (sentence : list ascii) (todo i : nat) (calc_cs : Z) : Z :=
  match todo with
  | O => calc_cs
  | S todo' => xor_loop sentence todo' (S i) (Z.lxor calc_cs (byte_at sentence i))
  end.

Definition validate_checksum (sentence : list ascii) : result bool :=
  match find "*" sentence with
  | None => Ok false
  | Some star_pos =>
      if length sentence <=? star_pos + 2 then Ok false
      else
        let calc_cs := xor_loop sentence (star_pos - 1) 1 0 in
        cs_str <- substr sentence (star_pos + 1) 2 ;;
        recv_cs <- stoi cs_str 16 ;;
        Ok (calc_cs =? recv_cs)%Z
  end.

(** *** Fields *)

Record PHTGData : Type := {
  date : list ascii;
  time : list ascii;
  system : list ascii;
  service : list ascii;
  auth_result : Z;
  warning : Z
}.

Definition empty_PHTGData : PHTGData :=
  {| date := []; time := []; system := []; service := [];
     auth_result := 0; warning := 0 |}.

(** The tokens the loop [while (std::getline(ss, token, delim))] sees: a
    token ends at each delimiter, and a last token is read only when
    characters are left after the last delimiter. *)
Fixpoint getline_tokens (delim : ascii) (s : list ascii) : list (list ascii) :=
  match s with
  | [] => []
  | c :: s' =>
      if Ascii.eqb c delim then [] :: getline_tokens delim s'
      else match getline_tokens delim s' with
           | [] => [[c]]
           | token :: tokens => (c :: token) :: tokens
           end
  end.

(** [token.empty() ? 0 : std::stoi(token)]. *)
Definition number_or_zero (token : list ascii) : result Z :=
  match token with
  | [] => Ok 0%Z
  | _ => stoi token 10
  end.

(** One round of the [switch (field)]. *)
Definition store_field (field : nat) (token : list ascii) (data : PHTGData)
  : result PHTGData :=
  match field with
  | 0 => Ok {| date := token; time := time data; system := system data;
               service := service data; auth_result := auth_result data;
               warning := warning data |}
  | 1 => Ok {| date := date data; time := token; system := system data;
               service := service data; auth_result := auth_result data;
               warning := warning data |}
  | 2 => Ok {| date := date data; time := time data; system := token;
               service := service data; auth_result := auth_result data;
               warning := warning data |}
  | 3 => Ok {| date := date data; time := time data; system := system data;
               service := token; auth_result := auth_result data;
               warning := warning data |}
  | 4 => v <- number_or_zero token ;;
         Ok {| date := date data; time := time data; system := system data;
               service := service data; auth_result := v;
               warning := warning data |}
  | 5 => v <- number_or_zero token ;;
         Ok {| date := date data; time := time data; system := system data;
               service := service data; auth_result := auth_result data;
               warning := v |}
  | _ => Ok data
  end.

Fixpoint store_fields (tokens : list (list ascii)) (field : nat) (data : PHTGData)
  : result (nat * PHTGData) :=
  match tokens with
  | [] => Ok (field, data)
  | token :: tokens' =>
      data' <- store_field field token data ;;
      store_fields tokens' (S field) data'
  end.

(** [sentence.substr(6, star_pos - 6)]: the subtraction is on [size_t], so
    for [star_pos < 6] the count wraps around to at least [2^64 - 6], more
    than any string holds, and the substring runs to the end. *)
Definition body_of (sentence : list ascii) (star_pos : nat) : result (list ascii) :=
  if 6 <=? star_pos then substr sentence 6 (star_pos - 6)
  else substr sentence 6 (length sentence).

(** [data] is the caller's record, written through the reference; the result
    is the returned flag and the record after the call. *)
Definition parse_phtg (sentence : list ascii) (data : PHTGData)
  : result (bool * PHTGData) :=
  if length sentence <? 5 then Ok (false, data)
  else if negb (string_eqb (take 5 sentence) (str "$PHTG")) then Ok (false, data)
  else
    valid <- validate_checksum sentence ;;
    if negb valid then Ok (false, data)
    else
      match find "*" sentence with
      | None => Ok (false, data)
      | Some star_pos =>
          body <- body_of sentence star_pos ;;
          r <- store_fields (getline_tokens "," body) 0 data ;;
          Ok (6 <=? fst r, snd r)
      end.

(** The two atomics the parser feeds. *)
Record GnssStatus : Type := {
  gnss_auth_status : Z;
  gnss_warning : Z
}.

Definition process_nmea_line (line : list ascii) (g : GnssStatus) : result GnssStatus :=
  if (5 <=? length line) && string_eqb (take 5 line) (str "$PHTG") then
    r <- parse_phtg line empty_PHTGData ;;
    if fst r then
      Ok {| gnss_auth_status := auth_result (snd r);
            gnss_warning := warning (snd r) |}
    else Ok g
  else Ok g.

End Nmea.


(** ** The HASHTAG sensor client with a work-state toggle (first sensor
    program) *)

Module Tag.

(** [enum class HashtagDDOPObjectIDs]. *)
Module HashtagDDOPObjectIDs.
Definition Device : Z := 0.
Definition MainDeviceElement : Z := 1.
Definition RequestDefaultProcessData : Z := 5.
Definition AuthResultPD : Z := 10.
Definition DeviceTotalTime : Z := 20.
Definition ActualWorkState : Z := 21.
Definition RawPresentation : Z := 50.
Definition SurfacePresentation : Z := 51.
Definition TimePresentation : Z := 52.
End HashtagDDOPObjectIDs.

Definition DDI_AUTH_RESULT : Z := 65432.
Definition MAIN_DEVICE_ELEMENT : Z := 1.

(** The atomics of the program besides the two the parser feeds. *)
Record Globals : Type := {
  gnss : Nmea.GnssStatus;
  current_work_state : Z;
  is_auto_mode : bool;
  section_control_state : Z;
  send_frequency_ms : Z
}.

Definition initial_globals : Globals :=
  {| gnss := {| Nmea.gnss_auth_status := 0; Nmea.gnss_warning := 0 |};
     current_work_state := 0;
     is_auto_mode := true;
     section_control_state := 1;
     send_frequency_ms := 1000 |}.

Section Callbacks.
Context {T : DDITable}.

(** The new [value] and the returned flag. *)
Definition request_value_command_callback (g : Globals)
    (elementNumber DDI : Z) (value : Z) : Z * bool :=
  if (DDI =? code RequestDefaultProcessData)%Z then (0%Z, true)
  else if (DDI =? DDI_AUTH_RESULT)%Z then (Nmea.gnss_auth_status (gnss g), true)
  else if (DDI =? code ActualWorkState)%Z then (current_work_state g, true)
  else if (DDI =? code EffectiveTotalTime)%Z then (0%Z, true)
  else (0%Z, true).

Definition value_command_callback (elementNumber DDI processVariableValue : Z)
  : bool := true.

End Callbacks.

Section Builder.
Context {T : DDITable} {C : PoolConstants}.
Context {Pool Handle : Type} {OP : ObjectPool Pool Handle}.

Definition localizationData : list Z := [101; 110; 80; 0; 85; 85; 255]%Z.

Definition populate (clientName : Z) : Build Pool bool :=
  _ <~ clear ;;
  let ok := true in
  ok <~ and_add ok
    (add_device "HAS#TAG" "1.3.25" "HASHTAG-SENSOR" "HTS0.0.13" localizationData []
       clientName) ;;
  ok <~ and_add ok
    (add_device_element "WURDevice" 0 HashtagDDOPObjectIDs.Device TypeDevice
       HashtagDDOPObjectIDs.MainDeviceElement) ;;
  ok <~ and_add ok
    (add_device_value_presentation "mm" 0 1 0
       HashtagDDOPObjectIDs.SurfacePresentation) ;;
  ok <~ and_add ok
    (add_device_value_presentation "minutes" 0 1 0
       HashtagDDOPObjectIDs.TimePresentation) ;;
  ok <~ and_add ok
    (add_device_value_presentation "raw" 0 1 0
       HashtagDDOPObjectIDs.RawPresentation) ;;
  ok <~ and_add ok
    (add_device_process_data "Request Default Process Data"
       (code RequestDefaultProcessData) NULL_OBJECT_ID 0 Total
       HashtagDDOPObjectIDs.RequestDefaultProcessData) ;;
  ok <~ and_add ok
    (add_device_process_data "Hashtag DDI #1" DDI_AUTH_RESULT
       HashtagDDOPObjectIDs.RawPresentation
       (Z.lor MemberOfDefaultSet Settable) OnChange
       HashtagDDOPObjectIDs.AuthResultPD) ;;
  ok <~ and_add ok
    (add_device_process_data "Actual Work State" (code ActualWorkState)
       NULL_OBJECT_ID MemberOfDefaultSet OnChange
       HashtagDDOPObjectIDs.ActualWorkState) ;;
  ok <~ and_add ok
    (add_device_process_data "Total Time" (code EffectiveTotalTime)
       NULL_OBJECT_ID (Z.lor MemberOfDefaultSet Settable) Total
       HashtagDDOPObjectIDs.DeviceTotalTime) ;;
  if negb ok then build_ret false
  else
    mainElement <~ get_object_by_id HashtagDDOPObjectIDs.MainDeviceElement ;;
    match mainElement with
    | Some _ =>
        _ <~ add_reference_to_child_object mainElement
               HashtagDDOPObjectIDs.RequestDefaultProcessData ;;
        _ <~ add_reference_to_child_object mainElement
               HashtagDDOPObjectIDs.ActualWorkState ;;
        _ <~ add_reference_to_child_object mainElement
               HashtagDDOPObjectIDs.AuthResultPD ;;
        _ <~ add_reference_to_child_object mainElement
               HashtagDDOPObjectIDs.DeviceTotalTime ;;
        build_ret true
    | None => build_ret true
    end.

(** [if (!pool) return false;] comes before anything else. *)
Definition create_ddop (pool : option Pool) (clientName : Z)
  : Run (option Pool) bool :=
  on_pool pool (Ok false) (populate clientName).

End Builder.

(** One round of the loop of [main]: [toggle_due] tells whether five seconds
    have passed since the last toggle, [a] is the value the round loads from
    [gnss_auth_status].  The result is the new work state, the new
    [lastAuth] and the triggers called. *)
Definition main_loop_round (current_work_state lastAuth : Z)
    (toggle_due : bool) (a : Z) : Z * Z * list (Z * Z) :=
  let current_work_state :=
    if toggle_due then to_int32 (1 - current_work_state) else current_work_state in
  if negb (a =? lastAuth)%Z
  then (current_work_state, a, [(MAIN_DEVICE_ELEMENT, DDI_AUTH_RESULT)])
  else (current_work_state, lastAuth, []).

Fixpoint main_loop (polls : list (bool * Z)) (current_work_state lastAuth : Z)
  : list (list (Z * Z)) :=
  match polls with
  | [] => []
  | (toggle_due, a) :: polls' =>
      let '(current_work_state', lastAuth', triggers) :=
        main_loop_round current_work_state lastAuth toggle_due a in
      triggers :: main_loop polls' current_work_state' lastAuth'
  end.

End Tag.

(** ** The plain HASHTAG sensor client (second sensor program) *)

Module Tag2.

(** [enum class HashtagDDOPObjectIDs]. *)
Module HashtagDDOPObjectIDs.
Definition Device : Z := 0.
Definition MainDeviceElement : Z := 1.
Definition SensorElement : Z := 2.
Definition AuthResultPD : Z := 10.
Definition DeviceTotalTime : Z := 20.
Definition ActualWorkState : Z := 21.
Definition RawPresentation : Z := 50.
Definition SurfacePresentation : Z := 51.
Definition TimePresentation : Z := 52.
End HashtagDDOPObjectIDs.

Definition ELEMENT_NUMBER : Z := 1.
Definition DDI_AUTH_RESULT : Z := 65432.

(** The new [value] and the returned flag. *)
Definition request_value_command_callback (g : Nmea.GnssStatus)
    (elementNumber DDI : Z) (value : Z) : Z * bool :=
  if negb (elementNumber =? ELEMENT_NUMBER)%Z then (0%Z, true)
  else if (DDI =? DDI_AUTH_RESULT)%Z then (Nmea.gnss_auth_status g, true)
  else (0%Z, true).

Definition value_command_callback (elementNumber DDI processVariableValue : Z)
  : bool := true.

Section Builder.
Context {T : DDITable} {C : PoolConstants}.
Context {Pool Handle : Type} {OP : ObjectPool Pool Handle}.

Definition localizationData : list Z := [72; 65; 83; 72; 84; 71; 255]%Z.

Definition populate (clientName : Z) : Build Pool bool :=
  _ <~ clear ;;
  let ok := true in
  ok <~ and_add ok
    (add_device "HASHTAG" "0.4.12" "HASHTAG-SENSOR" "HTS0.0.12" localizationData []
       clientName) ;;
  ok <~ and_add ok
    (add_device_element "WURDevice" 0 HashtagDDOPObjectIDs.Device TypeDevice
       HashtagDDOPObjectIDs.MainDeviceElement) ;;
  ok <~ and_add ok
    (add_device_value_presentation "mm" 0 1 0
       HashtagDDOPObjectIDs.SurfacePresentation) ;;
  ok <~ and_add ok
    (add_device_value_presentation "minutes" 0 1 0
       HashtagDDOPObjectIDs.TimePresentation) ;;
  ok <~ and_add ok
    (add_device_value_presentation "raw" 0 1 0
       HashtagDDOPObjectIDs.RawPresentation) ;;
  ok <~ and_add ok
    (add_device_process_data "Hashtag DDI #1" DDI_AUTH_RESULT
       HashtagDDOPObjectIDs.RawPresentation 3 9
       HashtagDDOPObjectIDs.AuthResultPD) ;;
  ok <~ and_add ok
    (add_device_process_data "Actual Work State" (code ActualWorkState)
       NULL_OBJECT_ID 1 8 HashtagDDOPObjectIDs.ActualWorkState) ;;
  ok <~ and_add ok
    (add_device_process_data "Total Time" (code EffectiveTotalTime)
       NULL_OBJECT_ID 1 16 HashtagDDOPObjectIDs.DeviceTotalTime) ;;
  if negb ok then build_ret false
  else
    sensorElement <~ get_object_by_id HashtagDDOPObjectIDs.SensorElement ;;
    mainElement <~ get_object_by_id HashtagDDOPObjectIDs.MainDeviceElement ;;
    match sensorElement with
    | Some _ =>
        _ <~ add_reference_to_child_object mainElement
               HashtagDDOPObjectIDs.SensorElement ;;
        _ <~ add_reference_to_child_object mainElement
               HashtagDDOPObjectIDs.ActualWorkState ;;
        _ <~ add_reference_to_child_object sensorElement
               HashtagDDOPObjectIDs.AuthResultPD ;;
        _ <~ add_reference_to_child_object sensorElement
               HashtagDDOPObjectIDs.DeviceTotalTime ;;
        build_ret true
    | None => build_ret true
    end.

(** [if (!pool) return false;] comes before anything else. *)
Definition create_ddop (pool : option Pool) (clientName : Z)
  : Run (option Pool) bool :=
  on_pool pool (Ok false) (populate clientName).

End Builder.

(** One round of the loop of [main]: [a] is the value the round loads from
    [gnss_auth_status]; the result is the new [lastAuth] and the triggers
    called. *)
Definition main_loop_round (lastAuth : Z) (a : Z) : Z * list (Z * Z) :=
  if negb (a =? lastAuth)%Z
  then (a, [(ELEMENT_NUMBER, DDI_AUTH_RESULT)])
  else (lastAuth, []).

Fixpoint main_loop (polls : list Z) (lastAuth : Z) : list (list (Z * Z)) :=
  match polls with
  | [] => []
  | a :: polls' =>
      let '(lastAuth', triggers) := main_loop_round lastAuth a in
      triggers :: main_loop polls' lastAuth'
  end.

End Tag2.


(** ** The command line of the sensor clients (both carry the same loop) *)

Module Startup.

(** [std::atoi]: the number [strtol] reads in base 10, 0 when there is none;
    for a value an [int] cannot hold the behaviour is undefined ([None]). *)
Definition atoi (s : list ascii) : option Z :=
  let '(negative, digits) := Nmea.split_sign (Nmea.skip_spaces s) in
  match Nmea.read_magnitude 10 digits with
  | None => Some 0%Z
  | Some m =>
      let v := (if negative then - m else m)%Z in
      if ((v <? - 2 ^ 31) || (2 ^ 31 - 1 <? v))%Z then None else Some v
  end.

(** How the loop over the arguments ends: with the usage line printed and
    [main] returning 0, or with the serial device and baud rate to go on
    with. *)
Inductive Arguments : Type :=
| Usage (line : list ascii)
| Serial (serial_device : list ascii) (serial_baud : Z).

Definition is_help (arg : list ascii) : bool :=
  Nmea.string_eqb arg (Nmea.str "--help") || Nmea.string_eqb arg (Nmea.str "-h").

Definition usage_line (program : list ascii) : list ascii :=
  Nmea.str "Usage: " ++ program ++ Nmea.str " [serial_device] [serial_baud]"
  ++ ["010"%char].

(** The loop [for (int i = 1; i < argc; i++)]; [args] holds [argv[i]] and
    what follows it. *)
Fixpoint read_arguments (program : list ascii) (args : list (list ascii)) (i : nat)
    (serial_device : list ascii) (serial_baud : Z) : option Arguments :=
  match args with
  | [] => Some (Serial serial_device serial_baud)
  | arg :: args' =>
      if is_help arg then Some (Usage (usage_line program))
      else if i =? 1 then read_arguments program args' (S i) arg serial_baud
      else if i =? 2 then
        match atoi arg with
        | Some baud => read_arguments program args' (S i) serial_device baud
        | None => None
        end
      else read_arguments program args' (S i) serial_device serial_baud
  end.

(** The head of [main]: the defaults, then the loop. *)
Definition arguments (argv : list (list ascii)) : option Arguments :=
  let serial_device := Nmea.str "/tmp/ttyV0" in
  let serial_baud := 115200%Z in
  match argv with
  | [] => Some (Serial serial_device serial_baud)
  | program :: args => read_arguments program args 1 serial_device serial_baud
  end.

End Startup.

(* ================================================================== *)
(** * Vocabulary of the properties *)

(** The two-bit field of section [i] in a packed word. *)
Definition field (w : Z) (i : nat) : Z :=
  Z.land (Z.shiftr w (2 * Z.of_nat i)) 3.

(** What the packed word must hold for section [i]: [01] on, [00] off,
    [11] not installed. *)
Definition expected_field (states : list bool) (i : nat) : Z :=
  match states !! i with
  | Some b => Z_of_bool b
  | None => 3%Z
  end.

(** Everything of the simulator but the setpoint entries. *)
Definition same_frame (a b : Sprayer.Sim) : Prop :=
  Sprayer.sectionSwitchStates b = Sprayer.sectionSwitchStates a /\
  Sprayer.isAutoMode b = Sprayer.isAutoMode a /\
  Sprayer.targetRate b = Sprayer.targetRate a /\
  Sprayer.setpointWorkState b = Sprayer.setpointWorkState a /\
  length (Sprayer.sectionSetpointStates b) = length (Sprayer.sectionSetpointStates a).

(** The bit the write path stores for section [j]. *)
Definition decoded (processVariableValue : Z) (j : nat) : bool :=
  (field processVariableValue j =? 1)%Z.

(** The states a section really has: the setpoints in automatic mode, the
    switches in manual mode. *)
Definition actual_states (sim : Sprayer.Sim) : list bool :=
  if Sprayer.isAutoMode sim then Sprayer.sectionSetpointStates sim
  else Sprayer.sectionSwitchStates sim.

(** The number of sections whose actual state is true. *)
Definition actual_sections_on (sim : Sprayer.Sim) : nat :=
  length (List.filter (fun b : bool => b) (actual_states sim)).

(** A six-section simulator, as [main] builds it, with some setpoints on. *)
Definition six_sections : Sprayer.Sim :=
  Sprayer.with_setpoints (Sprayer.new_simulator 6)
    [true; false; true; true; false; false].

(** Well-formed simulator states, what the constructor establishes and
    every operation keeps: both vectors have the same length, below 256 (the
    constructor takes a [std::uint8_t]), and the rate is a [std::uint32_t]. *)
Definition wf (sim : Sprayer.Sim) : Prop :=
  length (Sprayer.sectionSwitchStates sim) = length (Sprayer.sectionSetpointStates sim) /\
  length (Sprayer.sectionSetpointStates sim) < 256 /\
  (0 <= Sprayer.targetRate sim < 2 ^ 32)%Z.


(** ** Sentences *)

(** The checksum of a payload: the exclusive or of its bytes. *)
Definition checksum (payload : list ascii) : Z :=
  fold_left (fun cs c => Z.lxor cs (Nmea.byte_of c)) payload 0%Z.

(** A value below 16 as an upper-case hexadecimal digit, and a byte as two
    of them. *)
Definition hex_digit (d : Z) : ascii :=
  ascii_of_N (Z.to_N (if (d <? 10)%Z then 48 + d else 55 + d)%Z).

Definition hex2 (v : Z) : list ascii := [hex_digit (v / 16); hex_digit (v mod 16)].

(** A sentence built around a payload: the leading sentinel, the payload,
    the star and the checksum of the payload. *)
Definition sentence_of (payload : list ascii) : list ascii :=
  "$"%char :: payload ++ "*"%char :: hex2 (checksum payload).

(** An integer in decimal, as [std::to_string] writes it. *)
Fixpoint show_nat_digits (fuel : nat) (n : Z) (rest : list ascii) : list ascii :=
  match fuel with
  | O => rest
  | S fuel' =>
      let rest' := ascii_of_N (Z.to_N (48 + n mod 10)) :: rest in
      if (n <? 10)%Z then rest' else show_nat_digits fuel' (n / 10) rest'
  end.

Definition show_int (z : Z) : list ascii :=
  if (z <? 0)%Z then "-"%char :: show_nat_digits 10 (- z) []
  else show_nat_digits 10 z [].

(** The six fields of a sentence; a numeric field may be left empty. *)
Record Fields : Type := {
  f_date : list ascii;
  f_time : list ascii;
  f_system : list ascii;
  f_service : list ascii;
  f_auth_result : option Z;
  f_warning : option Z
}.

Definition show_field (o : option Z) : list ascii :=
  match o with
  | Some z => show_int z
  | None => []
  end.

(** Tag, separator and the comma-joined fields. *)
Definition payload_of (f : Fields) : list ascii :=
  Nmea.str "PHTG," ++ f_date f ++ ","%char :: f_time f ++ ","%char :: f_system f
  ++ ","%char :: f_service f ++ ","%char :: show_field (f_auth_result f)
  ++ ","%char :: show_field (f_warning f).

Definition build_sentence (f : Fields) : list ascii := sentence_of (payload_of f).

(** A field that can be told from its neighbours: no comma, no star. *)
Definition plain (field : list ascii) : Prop :=
  ~ In ","%char field /\ ~ In "*"%char field.

(** Sample fields: a sentence with an empty authentication result, one with
    both numbers, one with a comma inside the service field, one with an
    empty warning. *)
Definition sample_fields (auth warn : option Z) (service : string) : Fields :=
  {| f_date := Nmea.str "230101"; f_time := Nmea.str "120000";
     f_system := Nmea.str "GAL"; f_service := Nmea.str service;
     f_auth_result := auth; f_warning := warn |}.


(** ** Pools to run the builders on *)

(** A pool that answers every add alike and finds every object, or none. *)
Definition constant_pool (answer found : bool) : ObjectPool unit unit :=
  {| pool_clear := fun p => p;
     pool_add := fun _ p => (answer, p);
     pool_get_object_by_id := fun _ _ => if found then Some tt else None;
     pool_add_reference_to_child_object := fun _ _ p => p |}.

(** The identifier an add gives its object (the device object has 0). *)
Definition object_id (call : AddCall) : Z :=
  match call with
  | add_device _ _ _ _ _ _ _ => 0
  | add_device_element _ _ _ _ uniqueID => uniqueID
  | add_device_process_data _ _ _ _ _ uniqueID => uniqueID
  | add_device_property _ _ _ _ uniqueID => uniqueID
  | add_device_value_presentation _ _ _ _ uniqueID => uniqueID
  end.

(** Modelled from the spec: the pool itself belongs to the ISOBUS stack and is
    not in the repository; this is the arena of sections 3 and 9 of the
    specification.  Objects are kept in insertion order under unique
    identifiers, an add fails when its identifier is taken, a lookup returns
    the object or nothing, and an element keeps the ordered list of its
    children's identifiers. *)
Record ArenaObject : Type := {
  made_by : AddCall;
  children : list Z
}.

Definition Arena : Type := list (Z * ArenaObject).

Definition arena_has (id : Z) (a : Arena) : bool :=
  existsb (fun o => (fst o =? id)%Z) a.

Definition arena_add (call : AddCall) (a : Arena) : bool * Arena :=
  if arena_has (object_id call) a then (false, a)
  else (true, a ++ [(object_id call, {| made_by := call; children := [] |})]).

Definition arena_add_child (parent child : Z) (a : Arena) : Arena :=
  map (fun o => if (fst o =? parent)%Z
                then (fst o, {| made_by := made_by (snd o);
                                children := children (snd o) ++ [child] |})
                else o) a.

Definition arena_pool : ObjectPool Arena Z :=
  {| pool_clear := fun _ => [];
     pool_add := arena_add;
     pool_get_object_by_id := fun id a => if arena_has id a then Some id else None;
     pool_add_reference_to_child_object := arena_add_child |}.

(** The kind of object an add makes. *)
Inductive ObjectKind : Type :=
| KDevice | KElement | KProcessData | KProperty | KPresentation.

Definition kind_of (call : AddCall) : ObjectKind :=
  match call with
  | add_device _ _ _ _ _ _ _ => KDevice
  | add_device_element _ _ _ _ _ => KElement
  | add_device_process_data _ _ _ _ _ _ => KProcessData
  | add_device_property _ _ _ _ _ => KProperty
  | add_device_value_presentation _ _ _ _ _ => KPresentation
  end.

(** The adds a builder makes when every one of them succeeds. *)
Definition sprayer_add_steps {T : DDITable} {C : PoolConstants} (clientName : Z)
  : list AddCall :=
  map fst (adds (Sprayer.populate (OP := constant_pool true true) 0 clientName tt)).

Definition tag_add_steps {T : DDITable} {C : PoolConstants} (clientName : Z)
  : list AddCall :=
  map fst (adds (Tag.populate (OP := constant_pool true true) clientName tt)).

Definition tag2_add_steps {T : DDITable} {C : PoolConstants} (clientName : Z)
  : list AddCall :=
  map fst (adds (Tag2.populate (OP := constant_pool true true) clientName tt)).

(** The logical and of the answers a run got. *)
Definition all_succeeded {Pool A : Type} (r : Run Pool A) : bool :=
  forallb snd (adds r).


(** What the three builders do after their adds. *)
Definition sprayer_final {Pool Handle : Type} {OP : ObjectPool Pool Handle}
    (ActualRate : Z) (retVal : bool) : Build Pool bool :=
  if retVal then
    _ <~ Sprayer.wire_children ActualRate ;;
    build_ret retVal
  else build_ret retVal.

Definition tag_final {Pool Handle : Type} {OP : ObjectPool Pool Handle}
    (ok : bool) : Build Pool bool :=
  if negb ok then build_ret false
  else
    mainElement <~ get_object_by_id Tag.HashtagDDOPObjectIDs.MainDeviceElement ;;
    match mainElement with
    | Some _ =>
        _ <~ add_reference_to_child_object mainElement
               Tag.HashtagDDOPObjectIDs.RequestDefaultProcessData ;;
        _ <~ add_reference_to_child_object mainElement
               Tag.HashtagDDOPObjectIDs.ActualWorkState ;;
        _ <~ add_reference_to_child_object mainElement
               Tag.HashtagDDOPObjectIDs.AuthResultPD ;;
        _ <~ add_reference_to_child_object mainElement
               Tag.HashtagDDOPObjectIDs.DeviceTotalTime ;;
        build_ret true
    | None => build_ret true
    end.

Definition tag2_final {Pool Handle : Type} {OP : ObjectPool Pool Handle}
    (ok : bool) : Build Pool bool :=
  if negb ok then build_ret false
  else
    sensorElement <~ get_object_by_id Tag2.HashtagDDOPObjectIDs.SensorElement ;;
    mainElement <~ get_object_by_id Tag2.HashtagDDOPObjectIDs.MainDeviceElement ;;
    match sensorElement with
    | Some _ =>
        _ <~ add_reference_to_child_object mainElement
               Tag2.HashtagDDOPObjectIDs.SensorElement ;;
        _ <~ add_reference_to_child_object mainElement
               Tag2.HashtagDDOPObjectIDs.ActualWorkState ;;
        _ <~ add_reference_to_child_object sensorElement
               Tag2.HashtagDDOPObjectIDs.AuthResultPD ;;
        _ <~ add_reference_to_child_object sensorElement
               Tag2.HashtagDDOPObjectIDs.DeviceTotalTime ;;
        build_ret true
    | None => build_ret true
    end.



(** ** Polling *)


(** The number of polls whose value differs from the one observed before. *)
Fixpoint transitions (lastAuth : Z) (polls : list Z) : nat :=
  match polls with
  | [] => 0
  | a :: polls' =>
      (if (a =? lastAuth)%Z then 0 else 1) + transitions a polls'
  end.

(** The number of triggers a run of rounds called. *)
Definition notifications (rounds : list (list (Z * Z))) : nat :=
  length (concat rounds).


(** ** Checksum characters and fields, in general *)

(** Every character there is. *)
Definition all_ascii : list ascii := map ascii_of_nat (seq 0 256).

(** A hexadecimal digit, of either case. *)
Definition is_hex (c : ascii) : bool :=
  match Nmea.digit_in 16 c with
  | Some _ => true
  | None => false
  end.

Definition is_sign (c : ascii) : bool := Ascii.eqb c "-" || Ascii.eqb c "+".

(** Two checksum characters that hold a number for [std::stoi] in base 16:
    a digit first, or a digit after one blank or one sign. *)
Definition hex_readable (c1 c2 : ascii) : bool :=
  is_hex c1 || ((Nmea.isspace c1 || is_sign c1) && is_hex c2).

(** A byte as two lower-case hexadecimal digits. *)
Definition hex_digit_lower (d : Z) : ascii :=
  ascii_of_N (Z.to_N (if (d <? 10)%Z then 48 + d else 87 + d)%Z).

Definition hex2_lower (v : Z) : list ascii :=
  [hex_digit_lower (v / 16); hex_digit_lower (v mod 16)].

(** Fields joined by commas. *)
Fixpoint join_fields (fields : list (list ascii)) : list ascii :=
  match fields with
  | [] => []
  | [field] => field
  | field :: fields' => field ++ ","%char :: join_fields fields'
  end.

(** Fields that come back from a sentence as they went in: none holds a comma
    or a star, and the last one is not empty. *)
Definition separable (fields : list (list ascii)) : Prop :=
  Forall plain fields /\ last fields <> Some [].

(** A sentence with any character [sep] between the tag and the first
    field. *)
Definition sentence_with (sep : ascii) (fields : list (list ascii)) : list ascii :=
  sentence_of (Nmea.str "PHTG" ++ sep :: join_fields fields).

(** The first character of a token that [std::stoi] cannot start a number
    with: no blank, no sign, no decimal digit. *)
Definition starts_no_number (c : ascii) : Prop :=
  Nmea.isspace c = false /\ is_sign c = false /\ Nmea.digit_in 10 c = None.

(** What follows the digits of a number without adding to them: nothing, or
    a character that is no decimal digit. *)
Definition ends_number (rest : list ascii) : Prop :=
  match rest with
  | [] => True
  | c :: _ => Nmea.digit_in 10 c = None
  end.

(** ** The loop of the first sensor client, to its end *)

(** The work state and the last observed value after a run of rounds. *)
Fixpoint tag_loop_end (polls : list (bool * Z)) (current_work_state lastAuth : Z)
  : Z * Z :=
  match polls with
  | [] => (current_work_state, lastAuth)
  | (toggle_due, a) :: polls' =>
      let '(current_work_state', lastAuth', _) :=
        Tag.main_loop_round current_work_state lastAuth toggle_due a in
      tag_loop_end polls' current_work_state' lastAuth'
  end.

(** The rounds of a run in which the toggle was due. *)
Definition toggles (polls : list (bool * Z)) : nat :=
  length (List.filter fst polls).

(** ** A builder's run, add by add *)

Section PoolRuns.
Context {Pool Handle : Type} {OP : ObjectPool Pool Handle}.

(** What a pool answers to a run of adds, and the pool after them. *)
Fixpoint answers_of (steps : list AddCall) (pool : Pool) : list bool :=
  match steps with
  | [] => []
  | call :: steps' =>
      fst (pool_add call pool) :: answers_of steps' (snd (pool_add call pool))
  end.

Fixpoint pool_after (steps : list AddCall) (pool : Pool) : Pool :=
  match steps with
  | [] => pool
  | call :: steps' => pool_after steps' (snd (pool_add call pool))
  end.

(** References added to one element, in order. *)
Definition with_references (element : Handle) (refs : list Z) (pool : Pool) : Pool :=
  fold_left (fun p child => pool_add_reference_to_child_object element child p) refs pool.

(** [EndsAt m ok steps final]: started with the flag [ok], the builder [m]
    makes exactly the adds [steps] and then does what [final] does, on the
    and of [ok] and the answers and on the pool the adds left. *)
Definition EndsAt (m : Build Pool bool) (ok : bool)
    (steps : list AddCall) (final : bool -> Build Pool bool) : Prop :=
  forall pool,
    let flag := ok && forallb id (answers_of steps pool) in
    adds (m pool)
    = combine steps (answers_of steps pool) ++ adds (final flag (pool_after steps pool)) /\
    outcome (m pool) = outcome (final flag (pool_after steps pool)).

End PoolRuns.

(** ** Runs of value commands *)

(** The value commands of a task controller, one after the other, each
    given as element number, data description index and payload. *)
Fixpoint run_value_commands {T : DDITable} (commands : list (Z * Z * Z))
    (sim : Sprayer.Sim) : result Sprayer.Sim :=
  match commands with
  | [] => Ok sim
  | (elementNumber, DDI, processVariableValue) :: commands' =>
      r <- Sprayer.value_command_callback elementNumber DDI processVariableValue
             (Some sim) ;;
      match fst r with
      | Some sim' => run_value_commands commands' sim'
      | None => Ok sim
      end
  end.

(** ** Runs of lines *)

(** The lines the serial port delivers, one after the other; an exception
    ends the run. *)
Fixpoint process_lines (lines : list (list ascii)) (g : Nmea.GnssStatus)
  : result Nmea.GnssStatus :=
  match lines with
  | [] => Ok g
  | line :: lines' =>
      g' <- Nmea.process_nmea_line line g ;;
      process_lines lines' g'
  end.

(** A line that parses in full. *)
Definition accepted (line : list ascii) : Prop :=
  exists data, Nmea.parse_phtg line Nmea.empty_PHTGData = Ok (true, data).

(* ================================================================== *)
(** * Properties *)

(** ** Bit fields of a condensed word *)

Lemma field_div_mod (w : Z) (i : nat) : field w i = ((w / 4 ^ Z.of_nat i) mod 4)%Z.
Proof.
  unfold field.
  rewrite Z.shiftr_div_pow2 by lia.
  change 3%Z with (Z.ones 2). rewrite Z.land_ones by lia.
  rewrite Z.pow_mul_r by lia. reflexivity.
Qed.

Lemma pow4_pos (i : nat) : (0 < 4 ^ Z.of_nat i)%Z.
Proof. apply Z.pow_pos_nonneg; lia. Qed.

Lemma pow4_split (i j : nat) :
  j < i -> (4 ^ Z.of_nat i = 4 ^ Z.of_nat j * (4 * 4 ^ Z.of_nat (i - j - 1)))%Z.
Proof.
  intros Hlt.
  replace (Z.of_nat i) with (Z.of_nat j + (1 + Z.of_nat (i - j - 1)))%Z by lia.
  rewrite !Z.pow_add_r by lia. reflexivity.
Qed.

Lemma pow4_pow2 (i : nat) : (4 ^ Z.of_nat i = 2 ^ (2 * Z.of_nat i))%Z.
Proof. rewrite Z.pow_mul_r by lia. reflexivity. Qed.

Lemma land_shiftl_disjoint (v x : Z) (i : nat) :
  (0 <= v < 4 ^ Z.of_nat i)%Z -> Z.land v (Z.shiftl x (2 * Z.of_nat i)) = 0%Z.
Proof.
  intros Hv. apply Z.bits_inj'. intros k Hk.
  rewrite Z.land_spec, Z.bits_0.
  destruct (Z.lt_ge_cases k (2 * Z.of_nat i)) as [Hlt | Hge].
  - rewrite Z.shiftl_spec_low by lia. apply andb_false_r.
  - replace (Z.testbit v k) with false; [reflexivity |].
    symmetry. destruct (Z.eq_dec v 0%Z) as [-> | Hne]; [apply Z.bits_0 |].
    apply Z.bits_above_log2; [lia |].
    apply Z.log2_lt_pow2; [lia |].
    rewrite pow4_pow2 in Hv.
    eapply Z.lt_le_trans; [apply Hv |].
    apply Z.pow_le_mono_r; lia.
Qed.

(** Or-ing a field in above the bits already set is an addition. *)
Lemma lor_shiftl_add (v x : Z) (i : nat) :
  (0 <= v < 4 ^ Z.of_nat i)%Z ->
  Z.lor v (Z.shiftl x (2 * Z.of_nat i)) = (v + x * 4 ^ Z.of_nat i)%Z.
Proof.
  intros Hv.
  rewrite <- Z.lxor_lor, <- Z.add_nocarry_lxor
    by (apply land_shiftl_disjoint; exact Hv).
  rewrite Z.shiftl_mul_pow2, pow4_pow2 by lia. reflexivity.
Qed.

Lemma field_add_above (v x : Z) (i j : nat) :
  j < i -> field (v + x * 4 ^ Z.of_nat i) j = field v j.
Proof.
  intros Hlt. rewrite !field_div_mod, (pow4_split i j Hlt).
  pose proof (pow4_pos j).
  replace (v + x * (4 ^ Z.of_nat j * (4 * 4 ^ Z.of_nat (i - j - 1))))%Z
    with (v + (x * 4 ^ Z.of_nat (i - j - 1) * 4) * 4 ^ Z.of_nat j)%Z by ring.
  rewrite Z.div_add by lia.
  rewrite Z.add_mod, Z.mod_mul, Z.add_0_r, Z.mod_mod by lia.
  reflexivity.
Qed.

Lemma field_add_at (v x : Z) (i : nat) :
  (0 <= v < 4 ^ Z.of_nat i)%Z -> (0 <= x < 4)%Z ->
  field (v + x * 4 ^ Z.of_nat i) i = x.
Proof.
  intros Hv Hx. rewrite field_div_mod.
  pose proof (pow4_pos i).
  rewrite Z.div_add by lia.
  rewrite Z.div_small by lia. rewrite Z.mod_small; lia.
Qed.

Lemma to_int32_range (z : Z) : in_int32 (to_int32 z).
Proof.
  unfold in_int32, to_int32.
  pose proof (Z.mod_pos_bound (z + 2 ^ 31) (2 ^ 32)). lia.
Qed.

Lemma to_int32_small (z : Z) : in_int32 z -> to_int32 z = z.
Proof.
  unfold in_int32, to_int32. intros H.
  rewrite Z.mod_small; lia.
Qed.

Lemma to_int32_cong (z : Z) : exists k : Z, (to_int32 z = z + k * 2 ^ 32)%Z.
Proof.
  unfold to_int32.
  exists (- ((z + 2 ^ 31) / 2 ^ 32))%Z.
  pose proof (Z.div_mod (z + 2 ^ 31) (2 ^ 32)). lia.
Qed.

Lemma field_to_int32 (u : Z) (j : nat) :
  j < 16 -> field (to_int32 u) j = field u j.
Proof.
  intros Hj. destruct (to_int32_cong u) as [k ->].
  change (2 ^ 32)%Z with (4 ^ Z.of_nat 16)%Z.
  apply field_add_above. exact Hj.
Qed.

(** ** The condensed work-state codec of the simulator *)

Lemma expected_field_range (states : list bool) (i : nat) :
  (0 <= expected_field states i < 4)%Z.
Proof.
  unfold expected_field. destruct (states !! i) as [[|] |]; simpl; lia.
Qed.

Lemma pack_condensed_fields (get : nat -> result bool) (states : list bool) :
  (forall j b, states !! j = Some b -> get j = Ok b) ->
  forall (todo i : nat) (u : Z),
    i + todo = 16 ->
    (0 <= u < 4 ^ Z.of_nat i)%Z ->
    (forall j, j < i -> field u j = expected_field states j) ->
    exists w,
      Sprayer.pack_condensed get (length states) todo i (to_int32 u) = Ok w /\
      in_int32 w /\
      forall j, j < 16 -> field w j = expected_field states j.
Proof.
  intros Hget todo.
  induction todo as [| todo IH]; intros i u Hi Hu Hlow.
  - exists (to_int32 u). split; [reflexivity |]. split; [apply to_int32_range |].
    intros j Hj. rewrite field_to_int32 by exact Hj. apply Hlow. lia.
  - assert (Hi15 : (Z.of_nat i <= 15)%Z) by lia.
    assert (Hu30 : (0 <= u < 2 ^ 30)%Z).
    { split; [lia |]. eapply Z.lt_le_trans; [apply Hu |].
      rewrite pow4_pow2. apply Z.pow_le_mono_r; lia. }
    assert (Hpow : (0 < 4 ^ Z.of_nat i <= 2 ^ 30)%Z).
    { split; [apply pow4_pos |]. rewrite pow4_pow2. apply Z.pow_le_mono_r; lia. }
    assert (Hsucc : (4 ^ Z.of_nat (S i) = 4 * 4 ^ Z.of_nat i)%Z).
    { rewrite Nat2Z.inj_succ, Z.pow_succ_r by lia. reflexivity. }
    rewrite (to_int32_small u) by (unfold in_int32; lia).
    pose proof (expected_field_range states i) as Hrange.
    simpl.
    destruct (Nat.ltb_spec i (length states)) as [Hlt | Hge].
    + destruct (lookup_lt_is_Some_2 states i Hlt) as [b Hb].
      rewrite (Hget i b Hb). simpl.
      assert (Hexp : expected_field states i = Z_of_bool b)
        by (unfold expected_field; rewrite Hb; reflexivity).
      rewrite lor_shiftl_add by exact Hu.
      assert (Hb01 : (0 <= Z_of_bool b <= 1)%Z) by (destruct b; simpl; lia).
      rewrite <- (to_int32_small (u + Z_of_bool b * 4 ^ Z.of_nat i))
        by (unfold in_int32; nia).
      apply IH; [lia | rewrite Hsucc; nia |].
      intros j Hj. destruct (Nat.eq_dec j i) as [-> | Hne].
      * rewrite field_add_at by lia. symmetry. exact Hexp.
      * rewrite field_add_above by lia. apply Hlow. lia.
    + assert (Hexp : expected_field states i = 3%Z).
      { unfold expected_field. rewrite lookup_ge_None_2 by lia. reflexivity. }
      unfold Sprayer.not_installed.
      assert (H3 : (0 <= Z.shiftl 3 (2 * Z.of_nat i) < 2 ^ 32)%Z).
      { rewrite Z.shiftl_mul_pow2, <- pow4_pow2 by lia. lia. }
      unfold to_uint32 at 1 2. rewrite !Z.mod_small by lia.
      rewrite lor_shiftl_add by exact Hu.
      apply IH; [lia | rewrite Hsucc; nia |].
      intros j Hj. destruct (Nat.eq_dec j i) as [-> | Hne].
      * rewrite field_add_at by lia. symmetry. exact Hexp.
      * rewrite field_add_above by lia. apply Hlow. lia.
Qed.

Lemma number_of_sections_le (sim : Sprayer.Sim) :
  Sprayer.get_number_of_sections sim <= length (Sprayer.sectionSetpointStates sim).
Proof.
  unfold Sprayer.get_number_of_sections, to_uint8.
  pose proof (Z.mod_le (Z.of_nat (length (Sprayer.sectionSetpointStates sim))) 256).
  pose proof (Z.mod_pos_bound (Z.of_nat (length (Sprayer.sectionSetpointStates sim))) 256).
  lia.
Qed.

Lemma number_of_sections_small (sim : Sprayer.Sim) :
  length (Sprayer.sectionSetpointStates sim) < 256 ->
  Sprayer.get_number_of_sections sim = length (Sprayer.sectionSetpointStates sim).
Proof.
  intros H. unfold Sprayer.get_number_of_sections, to_uint8.
  rewrite Z.mod_small by lia. apply Nat2Z.id.
Qed.

Lemma number_of_sections_frame (a b : Sprayer.Sim) :
  length (Sprayer.sectionSetpointStates b) = length (Sprayer.sectionSetpointStates a) ->
  Sprayer.get_number_of_sections b = Sprayer.get_number_of_sections a.
Proof. unfold Sprayer.get_number_of_sections. intros ->. reflexivity. Qed.

Lemma unpack_condensed_spec (pv : Z) (todo : nat) :
  forall (i : nat) (sim : Sprayer.Sim),
  exists sim',
    Sprayer.unpack_condensed pv todo i sim = Ok sim' /\
    same_frame sim sim' /\
    (forall j, i <= j -> j < Sprayer.get_number_of_sections sim -> j < i + todo ->
       Sprayer.sectionSetpointStates sim' !! j = Some (decoded pv j)) /\
    (forall j, j < i \/ Sprayer.get_number_of_sections sim <= j \/ i + todo <= j ->
       Sprayer.sectionSetpointStates sim' !! j = Sprayer.sectionSetpointStates sim !! j).
Proof.
  induction todo as [| todo IH]; intros i sim.
  - exists sim. repeat split; try reflexivity. intros j ? ? ?. lia.
  - simpl.
    pose proof (number_of_sections_le sim) as Hle.
    destruct (Nat.ltb_spec i (Sprayer.get_number_of_sections sim)) as [Hlt | Hge].
    + unfold at_put.
      destruct (Nat.ltb_spec i (length (Sprayer.sectionSetpointStates sim)))
        as [Hin | Hout]; [| lia].
      simpl.
      set (sim1 := Sprayer.with_setpoints sim _).
      assert (Hlen1 : length (Sprayer.sectionSetpointStates sim1)
                      = length (Sprayer.sectionSetpointStates sim))
        by (subst sim1; simpl; apply length_insert).
      destruct (IH (S i) sim1) as (sim' & Hrun & Hframe & Hnew & Hold).
      rewrite (number_of_sections_frame sim sim1 Hlen1) in Hnew, Hold.
      exists sim'. split; [exact Hrun |]. split.
      { destruct Hframe as (? & ? & ? & ? & Hl). repeat split; try assumption.
        rewrite Hl. exact Hlen1. }
      split.
      * intros j Hij Hjn Hjt. destruct (Nat.eq_dec j i) as [-> | Hne].
        -- rewrite Hold by lia. subst sim1. simpl.
           rewrite list_lookup_insert_eq by lia. reflexivity.
        -- apply Hnew; lia.
      * intros j Hj. rewrite Hold by lia. subst sim1. simpl.
        apply list_lookup_insert_ne. lia.
    + exists sim. repeat split; try reflexivity. intros j ? ? ?. lia.
Qed.

(** ** Dispatch on the data description index *)

Lemma iso11783_distinct : distinct_labels iso11783.
Proof.
  split.
  - intros a b; destruct a, b; simpl; intros H; try reflexivity; discriminate H.
  - intros a; destruct a; simpl; discriminate.
Qed.

Lemma code_eqb_ne {T : DDITable} (a b : DataDescriptionIndex) :
  distinct_labels T -> a <> b -> (code a =? code b)%Z = false.
Proof.
  intros [Hinj _] Hne. apply Z.eqb_neq. intros Heq. apply Hne, Hinj, Heq.
Qed.

Lemma code_eqb_custom {T : DDITable} (a : DataDescriptionIndex) :
  distinct_labels T -> (code a =? 65432)%Z = false.
Proof. intros [_ Hc]. apply Z.eqb_neq, Hc. Qed.

(** Walks a [switch] on a known label down to its case. *)
Ltac switch_on HT :=
  repeat first
    [ rewrite Z.eqb_refl
    | rewrite (code_eqb_ne _ _ HT) by discriminate
    | rewrite (code_eqb_custom _ HT) ];
  cbn [orb andb negb].

(** ** Well-formed simulator states *)

Lemma wf_new_simulator (numberOfSections : Z) : wf (Sprayer.new_simulator numberOfSections).
Proof.
  unfold wf, Sprayer.new_simulator. simpl.
  rewrite !length_replicate. unfold to_uint8.
  pose proof (Z.mod_pos_bound numberOfSections 256). lia.
Qed.

Lemma actual_state_at (sim : Sprayer.Sim) (i : nat) :
  Sprayer.get_section_actual_state sim i = at_get (actual_states sim) i.
Proof.
  unfold Sprayer.get_section_actual_state, actual_states.
  destruct (Sprayer.isAutoMode sim); reflexivity.
Qed.

Lemma actual_states_length (sim : Sprayer.Sim) :
  wf sim -> length (actual_states sim) = length (Sprayer.sectionSetpointStates sim).
Proof.
  intros (Hlen & _). unfold actual_states.
  destruct (Sprayer.isAutoMode sim); [reflexivity | exact Hlen].
Qed.

Lemma count_sections_on_spec (sim : Sprayer.Sim) (todo : nat) :
  forall (i : nat) (count : Z),
    i + todo = length (actual_states sim) ->
    (0 <= count)%Z ->
    (count + Z.of_nat (length (actual_states sim) - i) < 256)%Z ->
    Sprayer.count_sections_on sim todo i count
    = Ok (count + Z.of_nat (length (List.filter (fun b : bool => b)
                                      (drop i (actual_states sim)))))%Z.
Proof.
  induction todo as [| todo IH]; intros i count Hi Hc Hb.
  - simpl. rewrite drop_ge by lia. simpl. f_equal. lia.
  - simpl. rewrite actual_state_at. unfold at_get.
    destruct (lookup_lt_is_Some_2 (actual_states sim) i ltac:(lia)) as [b Hb'].
    rewrite Hb'. simpl.
    rewrite (drop_S _ _ _ Hb').
    destruct b; simpl.
    + unfold to_uint8. rewrite Z.mod_small by lia.
      rewrite IH by lia. f_equal. lia.
    + apply IH; lia.
Qed.

Lemma number_of_sections_on_spec (sim : Sprayer.Sim) :
  wf sim ->
  Sprayer.get_actual_number_of_sections_on sim = Ok (Z.of_nat (actual_sections_on sim)).
Proof.
  intros Hwf. unfold Sprayer.get_actual_number_of_sections_on.
  pose proof (actual_states_length sim Hwf) as Hlen.
  destruct Hwf as (_ & Hsmall & _).
  rewrite number_of_sections_small by exact Hsmall.
  rewrite count_sections_on_spec by lia.
  rewrite drop_0. reflexivity.
Qed.

Lemma same_frame_with_setpoints (a b : Sprayer.Sim) :
  same_frame a b ->
  forall v, Sprayer.sectionSetpointStates b = v -> b = Sprayer.with_setpoints a v.
Proof.
  intros (H1 & H2 & H3 & H4 & _) v Hv.
  destruct a, b; simpl in *; subst; reflexivity.
Qed.

(** ** The callbacks of the simulator *)

(** The Setpoint Condensed Work State read of a simulator with at most
    sixteen sections. *)
Lemma condensed_read_spec {T : DDITable} (HT : distinct_labels T)
    (auth_status elementNumber value0 : Z) (sim : Sprayer.Sim) :
  length (Sprayer.sectionSetpointStates sim) <= 16 ->
  exists w,
    Sprayer.request_value_command_callback auth_status elementNumber
      (code SetpointCondensedWorkState1_16) value0 (Some sim) = Ok (w, true) /\
    in_int32 w /\
    forall j, j < 16 -> field w j = expected_field (Sprayer.sectionSetpointStates sim) j.
Proof.
  intros Hlen.
  destruct (pack_condensed_fields (Sprayer.get_section_setpoint_state sim)
              (Sprayer.sectionSetpointStates sim)) with (todo := 16) (i := 0) (u := 0%Z)
    as (w & Hw & Hrange & Hfields).
  { intros j b Hb. unfold Sprayer.get_section_setpoint_state, at_get.
    rewrite Hb. reflexivity. }
  { reflexivity. }
  { simpl. lia. }
  { intros j Hj. lia. }
  exists w. split; [| split; assumption].
  unfold Sprayer.request_value_command_callback. switch_on HT.
  rewrite number_of_sections_small by lia.
  unfold Sprayer.NUMBER_SECTIONS_PER_CONDENSED_MESSAGE.
  rewrite <- (to_int32_small 0) by (unfold in_int32; lia).
  rewrite Hw. reflexivity.
Qed.

(** The Setpoint Condensed Work State write into a simulator with at most
    sixteen sections: every section gets the decoded field of the payload. *)
Lemma condensed_write_decodes {T : DDITable}
    (elementNumber processVariableValue : Z) (sim : Sprayer.Sim) :
  length (Sprayer.sectionSetpointStates sim) <= 16 ->
  exists sim',
    Sprayer.value_command_callback elementNumber
      (code SetpointCondensedWorkState1_16) processVariableValue (Some sim)
      = Ok (Some sim', true) /\
    same_frame sim sim' /\
    forall j, j < length (Sprayer.sectionSetpointStates sim) ->
      Sprayer.sectionSetpointStates sim' !! j = Some (decoded processVariableValue j).
Proof.
  intros Hlen.
  destruct (unpack_condensed_spec processVariableValue 16 0 sim)
    as (sim' & Hrun & Hframe & Hnew & _).
  exists sim'. unfold Sprayer.value_command_callback.
  rewrite Z.eqb_refl.
  unfold Sprayer.NUMBER_SECTIONS_PER_CONDENSED_MESSAGE. rewrite Hrun. cbn [bind].
  split; [reflexivity |]. split; [exact Hframe |].
  intros j Hj. apply Hnew; [lia | | lia].
  rewrite number_of_sections_small by lia. lia.
Qed.

(** C1 -- condensed working-state codec round trip.  For a simulator with at
    most sixteen sections, the Setpoint Condensed Work State read packs the
    setpoint vector into a 32-bit word whose field is [01]/[00] for every
    section the simulator has and [11] (not installed) for every index from
    the section count up to 15; writing that word back through the Setpoint
    Condensed Work State write, into any simulator with the same number of
    sections, stores exactly the original setpoint vector; the write looks at
    no field at or above the section count; and reading after the write of
    any word gives back, below the section count, the states that word
    decodes to. *)
Theorem condensed_setpoint_round_trip {T : DDITable} (HT : distinct_labels T)
    (auth_status elementNumber value0 : Z) (sim : Sprayer.Sim) :
  length (Sprayer.sectionSetpointStates sim) <= 16 ->
  let ddi := code SetpointCondensedWorkState1_16 in
  let n := length (Sprayer.sectionSetpointStates sim) in
  exists w,
    Sprayer.request_value_command_callback auth_status elementNumber ddi value0 (Some sim)
      = Ok (w, true) /\
    in_int32 w /\
    (forall i b, Sprayer.sectionSetpointStates sim !! i = Some b ->
       field w i = Z_of_bool b) /\
    (forall i, n <= i -> i < 16 -> field w i = 3%Z) /\
    (forall en sim',
       length (Sprayer.sectionSetpointStates sim') = n ->
       Sprayer.value_command_callback en ddi w (Some sim')
       = Ok (Some (Sprayer.with_setpoints sim' (Sprayer.sectionSetpointStates sim)), true)) /\
    (forall en pv pv' sim',
       length (Sprayer.sectionSetpointStates sim') = n ->
       (forall i, i < n -> field pv i = field pv' i) ->
       Sprayer.value_command_callback en ddi pv (Some sim')
       = Sprayer.value_command_callback en ddi pv' (Some sim')) /\
    (forall en pv sim',
       length (Sprayer.sectionSetpointStates sim') = n ->
       exists sim'' w',
         Sprayer.value_command_callback en ddi pv (Some sim') = Ok (Some sim'', true) /\
         Sprayer.request_value_command_callback auth_status elementNumber ddi value0
           (Some sim'') = Ok (w', true) /\
         (forall i, i < n -> field w' i = Z_of_bool (decoded pv i)) /\
         (forall i, n <= i -> i < 16 -> field w' i = 3%Z)).
Proof.
  intros Hlen ddi n. subst ddi.
  destruct (condensed_read_spec HT auth_status elementNumber value0 sim Hlen)
    as (w & Hread & Hrange & Hfields).
  pose proof same_frame_with_setpoints as Hext.
  exists w. split; [exact Hread |].
  split; [exact Hrange |]. split.
  { intros i b Hb. rewrite Hfields.
    - unfold expected_field. rewrite Hb. reflexivity.
    - apply lookup_lt_Some in Hb. lia. }
  split.
  { intros i Hge Hlt. rewrite Hfields by exact Hlt.
    unfold expected_field. rewrite lookup_ge_None_2 by (fold n; lia). reflexivity. }
  split; [| split].
  - intros en sim' Hlen'.
    destruct (condensed_write_decodes en w sim' ltac:(lia)) as (sim'' & Hrun & Hframe & Hnew).
    rewrite Hrun. do 3 f_equal. apply Hext; [exact Hframe |].
    apply list_eq. intros j.
    destruct (Nat.lt_ge_cases j n) as [Hj | Hj].
    + rewrite Hnew by lia.
      destruct (lookup_lt_is_Some_2 (Sprayer.sectionSetpointStates sim) j Hj) as [b Hb].
      rewrite Hb. f_equal. unfold decoded. rewrite Hfields by lia.
      unfold expected_field. rewrite Hb. destruct b; reflexivity.
    + rewrite !lookup_ge_None_2; [reflexivity | fold n; lia |].
      destruct Hframe as (_ & _ & _ & _ & Hl). rewrite Hl, Hlen'. exact Hj.
  - intros en pv pv' sim' Hlen' Hsame.
    destruct (condensed_write_decodes en pv sim' ltac:(lia)) as (s1 & Hrun1 & Hframe1 & Hnew1).
    destruct (condensed_write_decodes en pv' sim' ltac:(lia)) as (s2 & Hrun2 & Hframe2 & Hnew2).
    rewrite Hrun1, Hrun2. do 3 f_equal.
    rewrite (Hext sim' s1 Hframe1 _ eq_refl). symmetry.
    apply Hext; [exact Hframe2 |]. symmetry.
    apply list_eq. intros j.
    destruct (Nat.lt_ge_cases j n) as [Hj | Hj].
    + rewrite Hnew1, Hnew2 by lia. unfold decoded. rewrite Hsame by exact Hj.
      reflexivity.
    + destruct Hframe1 as (_ & _ & _ & _ & Hl1).
      destruct Hframe2 as (_ & _ & _ & _ & Hl2).
      rewrite !lookup_ge_None_2; [reflexivity | lia | lia].
  - intros en pv sim' Hlen'.
    destruct (condensed_write_decodes en pv sim' ltac:(lia)) as (sim'' & Hrun & Hframe & Hnew).
    assert (Hlen'' : length (Sprayer.sectionSetpointStates sim'') = n).
    { destruct Hframe as (_ & _ & _ & _ & Hl). lia. }
    destruct (condensed_read_spec HT auth_status elementNumber value0 sim'' ltac:(lia))
      as (w' & Hread' & _ & Hfields').
    exists sim'', w'. split; [exact Hrun |]. split; [exact Hread' |]. split.
    + intros i Hi. rewrite Hfields' by lia. unfold expected_field.
      rewrite Hnew by lia. reflexivity.
    + intros i Hge Hlt. rewrite Hfields' by exact Hlt. unfold expected_field.
      rewrite lookup_ge_None_2 by lia. reflexivity.
Qed.

Lemma condensed_setpoint_round_trip_witness :
  distinct_labels iso11783 /\
  length (Sprayer.sectionSetpointStates six_sections) <= 16 /\
  exists w,
    Sprayer.request_value_command_callback (T := iso11783) 0 1 290 0 (Some six_sections)
      = Ok (w, true) /\
    field w 0 = 1%Z /\ field w 1 = 0%Z /\ field w 6 = 3%Z /\ field w 15 = 3%Z /\
    Sprayer.value_command_callback (T := iso11783) 1 290 w (Some (Sprayer.new_simulator 6))
      = Ok (Some six_sections, true).
Proof.
  split; [exact iso11783_distinct |].
  split; [simpl; lia |].
  destruct (condensed_setpoint_round_trip (T := iso11783) iso11783_distinct
              0 1 0 six_sections ltac:(simpl; lia))
    as (w & Hread & _ & Hon & Hoff & Hwrite & _).
  exists w. split; [exact Hread |].
  split; [exact (Hon 0 true eq_refl) |].
  split; [exact (Hon 1 false eq_refl) |].
  split; [apply Hoff; simpl; lia |].
  split; [apply Hoff; simpl; lia |].
  exact (Hwrite 1%Z (Sprayer.new_simulator 6) eq_refl).
Defined.

(** What the condensed setpoint write does to a simulator. *)
Lemma condensed_write_spec {T : DDITable}
    (elementNumber processVariableValue : Z) (sim : Sprayer.Sim) :
  exists sim',
    Sprayer.value_command_callback elementNumber
      (code SetpointCondensedWorkState1_16) processVariableValue (Some sim)
      = Ok (Some sim', true) /\
    same_frame sim sim' /\
    forall j, Sprayer.get_number_of_sections sim <= j ->
      Sprayer.sectionSetpointStates sim' !! j = Sprayer.sectionSetpointStates sim !! j.
Proof.
  destruct (unpack_condensed_spec processVariableValue 16 0 sim)
    as (sim' & Hrun & Hframe & _ & Hold).
  exists sim'. unfold Sprayer.value_command_callback.
  rewrite Z.eqb_refl.
  unfold Sprayer.NUMBER_SECTIONS_PER_CONDENSED_MESSAGE. rewrite Hrun. cbn [bind].
  split; [reflexivity |]. split; [exact Hframe |].
  intros j Hj. apply Hold. lia.
Qed.

(** C10 -- frame of the condensed setpoint write.  In every state and for
    every payload, a write dispatched with the Setpoint Condensed Work State
    index returns, and changes nothing but setpoint entries below the section
    count: the switch vector, the mode flag, the target rate, the work-state
    setpoint, the length of the setpoint vector and every setpoint entry at
    or above the section count are as before. *)
Theorem condensed_write_frame {T : DDITable}
    (elementNumber processVariableValue : Z) (sim : Sprayer.Sim) :
  exists sim',
    Sprayer.value_command_callback elementNumber
      (code SetpointCondensedWorkState1_16) processVariableValue (Some sim)
      = Ok (Some sim', true) /\
    Sprayer.sectionSwitchStates sim' = Sprayer.sectionSwitchStates sim /\
    Sprayer.isAutoMode sim' = Sprayer.isAutoMode sim /\
    Sprayer.targetRate sim' = Sprayer.targetRate sim /\
    Sprayer.setpointWorkState sim' = Sprayer.setpointWorkState sim /\
    length (Sprayer.sectionSetpointStates sim')
      = length (Sprayer.sectionSetpointStates sim) /\
    forall j, Sprayer.get_number_of_sections sim <= j ->
      Sprayer.sectionSetpointStates sim' !! j = Sprayer.sectionSetpointStates sim !! j.
Proof.
  destruct (condensed_write_spec elementNumber processVariableValue sim)
    as (sim' & Hrun & (H1 & H2 & H3 & H4 & H5) & Hold).
  exists sim'. repeat (split; [assumption |]). exact Hold.
Qed.

(** Every write returns and acknowledges. *)
Lemma value_command_callback_returns {T : DDITable}
    (elementNumber DDI processVariableValue : Z) (sim : Sprayer.Sim) :
  exists sim',
    Sprayer.value_command_callback elementNumber DDI processVariableValue (Some sim)
    = Ok (Some sim', true).
Proof.
  unfold Sprayer.value_command_callback.
  destruct (DDI =? code SetpointCondensedWorkState1_16)%Z.
  { destruct (unpack_condensed_spec processVariableValue 16 0 sim) as (sim' & Hrun & _).
    exists sim'. unfold Sprayer.NUMBER_SECTIONS_PER_CONDENSED_MESSAGE.
    rewrite Hrun. reflexivity. }
  destruct (DDI =? code SetpointVolumePerAreaApplicationRate)%Z; [eauto |].
  destruct (DDI =? code SetpointWorkState)%Z; [eauto |].
  destruct ((DDI =? code PrescriptionControlState) || (DDI =? code SectionControlState))%Z;
    eauto.
Qed.

(** C7 -- mode state machine.  A section's actual state is its setpoint
    state in automatic mode and its switch state in manual mode; a write to
    the Section or Prescription Control State index sets the mode flag to
    automatic for a nonzero payload and to manual for a zero payload; a write
    to any other index returns with the mode flag unchanged. *)
Theorem mode_state_machine {T : DDITable} (HT : distinct_labels T) :
  (forall sim index,
     Sprayer.get_section_actual_state sim index
     = if Sprayer.get_is_mode_auto sim
       then Sprayer.get_section_setpoint_state sim index
       else Sprayer.get_section_switch_state sim index) /\
  (forall elementNumber DDI processVariableValue sim,
     DDI = code SectionControlState \/ DDI = code PrescriptionControlState ->
     exists sim',
       Sprayer.value_command_callback elementNumber DDI processVariableValue (Some sim)
       = Ok (Some sim', true) /\
       (processVariableValue <> 0%Z -> Sprayer.get_is_mode_auto sim' = true) /\
       (processVariableValue = 0%Z -> Sprayer.get_is_mode_auto sim' = false)) /\
  (forall elementNumber DDI processVariableValue sim,
     DDI <> code SectionControlState -> DDI <> code PrescriptionControlState ->
     exists sim',
       Sprayer.value_command_callback elementNumber DDI processVariableValue (Some sim)
       = Ok (Some sim', true) /\
       Sprayer.get_is_mode_auto sim' = Sprayer.get_is_mode_auto sim).
Proof.
  split; [| split].
  - intros sim index. reflexivity.
  - intros en DDI pv sim Hddi.
    exists (Sprayer.set_is_mode_auto sim (negb (pv =? 0)%Z)).
    split.
    + unfold Sprayer.value_command_callback.
      destruct Hddi as [-> | ->]; switch_on HT; reflexivity.
    + unfold Sprayer.get_is_mode_auto. simpl. split.
      * intros Hne. apply Z.eqb_neq in Hne. rewrite Hne. reflexivity.
      * intros ->. reflexivity.
  - intros en DDI pv sim Hs Hp.
    unfold Sprayer.value_command_callback, Sprayer.get_is_mode_auto.
    destruct (DDI =? code SetpointCondensedWorkState1_16)%Z eqn:E1.
    { apply Z.eqb_eq in E1. subst DDI.
      destruct (condensed_write_spec en pv sim) as (sim' & Hrun & (_ & Hmode & _) & _).
      exists sim'. split; [| exact Hmode].
      unfold Sprayer.value_command_callback in Hrun.
      rewrite Z.eqb_refl in Hrun. exact Hrun. }
    destruct (DDI =? code SetpointVolumePerAreaApplicationRate)%Z; [eauto |].
    destruct (DDI =? code SetpointWorkState)%Z; [eauto |].
    apply Z.eqb_neq in Hs, Hp. rewrite Hs, Hp. cbn [orb]. eauto.
Qed.

Lemma mode_state_machine_witness :
  distinct_labels iso11783 /\
  (exists sim',
     Sprayer.value_command_callback (T := iso11783) 1 160 0 (Some six_sections)
     = Ok (Some sim', true) /\
     Sprayer.get_is_mode_auto sim' = false) /\
  (exists sim',
     Sprayer.value_command_callback (T := iso11783) 1 158 7 (Some six_sections)
     = Ok (Some sim', true) /\
     Sprayer.get_is_mode_auto sim' = true).
Proof.
  split; [exact iso11783_distinct |].
  destruct (mode_state_machine (T := iso11783) iso11783_distinct) as (_ & Hset & _).
  split.
  - destruct (Hset 1%Z 160%Z 0%Z six_sections (or_introl eq_refl))
      as (sim' & Hrun & _ & Hzero).
    exists sim'. split; [exact Hrun | exact (Hzero eq_refl)].
  - destruct (Hset 1%Z 158%Z 7%Z six_sections (or_intror eq_refl))
      as (sim' & Hrun & Hnonzero & _).
    exists sim'. split; [exact Hrun | apply Hnonzero; discriminate].
Defined.

(** The write path keeps simulator states well formed. *)
Lemma value_command_callback_wf {T : DDITable}
    (elementNumber DDI processVariableValue : Z) (sim sim' : Sprayer.Sim) (ack : bool) :
  wf sim ->
  Sprayer.value_command_callback elementNumber DDI processVariableValue (Some sim)
  = Ok (Some sim', ack) ->
  wf sim'.
Proof.
  intros (Hlen & Hsmall & Hrate). unfold Sprayer.value_command_callback.
  destruct (DDI =? code SetpointCondensedWorkState1_16)%Z.
  { destruct (unpack_condensed_spec processVariableValue 16 0 sim)
      as (s & Hrun & (H1 & _ & H3 & _ & H5) & _).
    unfold Sprayer.NUMBER_SECTIONS_PER_CONDENSED_MESSAGE. rewrite Hrun. cbn [bind].
    intros [= <- _]. unfold wf. rewrite H1, H3, H5. auto. }
  destruct (DDI =? code SetpointVolumePerAreaApplicationRate)%Z.
  { intros [= <- _]. unfold wf, to_uint32. simpl.
    pose proof (Z.mod_pos_bound processVariableValue (2 ^ 32)). lia. }
  destruct (DDI =? code SetpointWorkState)%Z.
  { intros [= <- _]. unfold wf. simpl. auto. }
  destruct ((DDI =? code PrescriptionControlState) || (DDI =? code SectionControlState))%Z;
    intros [= <- _]; unfold wf; simpl; auto.
Qed.

Lemma set_section_switch_state_wf (sim sim' : Sprayer.Sim) (index : nat) (value : bool) :
  wf sim -> Sprayer.set_section_switch_state sim index value = Ok sim' -> wf sim'.
Proof.
  intros (Hlen & Hsmall & Hrate). unfold Sprayer.set_section_switch_state, at_put.
  destruct (index <? length (Sprayer.sectionSwitchStates sim)); [| discriminate].
  cbn [bind]. intros [= <-]. unfold wf. simpl. rewrite length_insert. auto.
Qed.

(** C8 -- derived reads.  In every well-formed state of the simulator, the
    Actual Work State read returns 1 when at least one section has a true
    actual state and 0 otherwise; the actual-rate read returns the target
    rate (as the target-rate read reports it) when at least one section is
    on and 0 otherwise, whatever the number of sections on.  The sensor
    client with the work-state toggle has no sections: its Actual Work
    State read returns the stored work-state flag, and its actual-rate read
    returns 0. *)
Theorem derived_reads {T : DDITable} (HT : distinct_labels T)
    (auth_status elementNumber value0 : Z) (sim : Sprayer.Sim) :
  wf sim ->
  let on := actual_sections_on sim in
  Sprayer.request_value_command_callback auth_status elementNumber
    (code ActualWorkState) value0 (Some sim)
  = Ok (if 0 <? on then 1%Z else 0%Z, true) /\
  Sprayer.request_value_command_callback auth_status elementNumber
    (code ActualVolumePerAreaApplicationRate) value0 (Some sim)
  = Ok (if 0 <? on then to_int32 (Sprayer.get_target_rate sim) else 0%Z, true) /\
  Sprayer.request_value_command_callback auth_status elementNumber
    (code SetpointVolumePerAreaApplicationRate) value0 (Some sim)
  = Ok (to_int32 (Sprayer.get_target_rate sim), true) /\
  ((Sprayer.get_target_rate sim < 2 ^ 31)%Z ->
   to_int32 (Sprayer.get_target_rate sim) = Sprayer.get_target_rate sim) /\
  (forall (g : Tag.Globals) (element value : Z),
     Tag.request_value_command_callback g element (code ActualWorkState) value
     = (Tag.current_work_state g, true) /\
     Tag.request_value_command_callback g element
       (code ActualVolumePerAreaApplicationRate) value
     = (0%Z, true)).
Proof.
  intros Hwf on.
  pose proof (number_of_sections_on_spec sim Hwf) as Hcount. fold on in Hcount.
  assert (Hpos : (0 <? Z.of_nat on)%Z = (0 <? on)).
  { destruct (Nat.ltb_spec 0 on); [apply Z.ltb_lt | apply Z.ltb_ge]; lia. }
  destruct Hwf as (_ & _ & Hrate).
  unfold Sprayer.request_value_command_callback.
  split; [| split; [| split; [| split]]];
    [| | | | intros g element value;
             unfold Tag.request_value_command_callback, Tag.DDI_AUTH_RESULT;
             split; switch_on HT; reflexivity].
  - switch_on HT. rewrite Hcount. cbn [bind]. rewrite Hpos. reflexivity.
  - switch_on HT. unfold Sprayer.get_actual_rate. rewrite Hcount. cbn [bind].
    rewrite Hpos. unfold Sprayer.get_target_rate.
    destruct (0 <? on).
    + rewrite Z.mul_1_r. unfold to_uint32. rewrite Z.mod_small by lia. reflexivity.
    + rewrite Z.mul_0_r. reflexivity.
  - switch_on HT. reflexivity.
  - intros Hsmall. apply to_int32_small. unfold Sprayer.get_target_rate in *.
    unfold in_int32. lia.
Qed.

Lemma derived_reads_witness :
  distinct_labels iso11783 /\ wf six_sections /\
  Sprayer.request_value_command_callback (T := iso11783) 0 1 141 0 (Some six_sections)
  = Ok (1%Z, true) /\
  Sprayer.request_value_command_callback (T := iso11783) 0 1 2 0 (Some six_sections)
  = Ok (100000%Z, true).
Proof.
  assert (Hwf : wf six_sections) by (unfold wf; simpl; lia).
  split; [exact iso11783_distinct |]. split; [exact Hwf |].
  destruct (derived_reads (T := iso11783) iso11783_distinct 0 1 0 six_sections Hwf)
    as (Hwork & Hrate & _).
  split; [exact Hwork | exact Hrate].
Defined.

(** The sensor client's Actual Work State read follows its timer, not a
    count of sections: the client has no section at all, and one round of
    its loop in which the toggle is due takes the read from 0 to 1. *)
Lemma sensor_work_state_follows_the_timer :
  Tag.request_value_command_callback (T := iso11783) Tag.initial_globals 1 141 0
  = (0%Z, true) /\
  tag_loop_end [(true, 0%Z)] (Tag.current_work_state Tag.initial_globals) 0
  = (1%Z, 0%Z) /\
  Tag.request_value_command_callback (T := iso11783)
    {| Tag.gnss := Tag.gnss Tag.initial_globals;
       Tag.current_work_state := 1;
       Tag.is_auto_mode := Tag.is_auto_mode Tag.initial_globals;
       Tag.section_control_state := Tag.section_control_state Tag.initial_globals;
       Tag.send_frequency_ms := Tag.send_frequency_ms Tag.initial_globals |}
    1 141 0
  = (1%Z, true).
Proof. repeat split. Qed.


(** ** Strings *)

Lemma find_app (c : ascii) (pre post : list ascii) :
  ~ In c pre -> Nmea.find c (pre ++ c :: post) = Some (length pre).
Proof.
  induction pre as [| x pre IH]; intros Hnot; simpl.
  - rewrite Ascii.eqb_refl. reflexivity.
  - destruct (Ascii.eqb_spec x c) as [-> | Hne].
    + exfalso. apply Hnot. left. reflexivity.
    + rewrite IH; [reflexivity |]. intros Hin. apply Hnot. right. exact Hin.
Qed.

Lemma find_Some (c : ascii) (s : list ascii) (p : nat) :
  Nmea.find c s = Some p ->
  exists pre post, s = pre ++ c :: post /\ length pre = p /\ ~ In c pre.
Proof.
  revert p. induction s as [| x s IH]; intros p; simpl; [discriminate |].
  destruct (Ascii.eqb_spec x c) as [-> | Hne].
  - intros [= <-]. exists [], s. repeat split. intros [].
  - destruct (Nmea.find c s) as [q |]; [| discriminate].
    intros [= <-]. destruct (IH q eq_refl) as (pre & post & -> & Hlen & Hnot).
    exists (x :: pre), post. repeat split.
    + simpl. f_equal. exact Hlen.
    + intros [Heq | Hin]; [exact (Hne Heq) | exact (Hnot Hin)].
Qed.

Lemma find_None (c : ascii) (s : list ascii) :
  Nmea.find c s = None -> ~ In c s.
Proof.
  induction s as [| x s IH]; simpl; [intros _ [] |].
  destruct (Ascii.eqb_spec x c) as [-> | Hne]; [discriminate |].
  destruct (Nmea.find c s); [discriminate |].
  intros _ [Heq | Hin]; [exact (Hne Heq) | exact (IH eq_refl Hin)].
Qed.

(** ** Bytes and the exclusive or *)

Lemma byte_of_range (c : ascii) : (0 <= Nmea.byte_of c < 256)%Z.
Proof.
  unfold Nmea.byte_of. pose proof (N_ascii_bounded c). lia.
Qed.

Lemma byte_of_inj (a b : ascii) : Nmea.byte_of a = Nmea.byte_of b -> a = b.
Proof.
  unfold Nmea.byte_of. intros H. apply N2Z.inj in H.
  rewrite <- (ascii_N_embedding a), <- (ascii_N_embedding b), H. reflexivity.
Qed.

Lemma lxor_byte_range (a b : Z) :
  (0 <= a < 256)%Z -> (0 <= b < 256)%Z -> (0 <= Z.lxor a b < 256)%Z.
Proof.
  intros Ha Hb.
  assert (Hnn : (0 <= Z.lxor a b)%Z) by (apply Z.lxor_nonneg; lia).
  split; [exact Hnn |].
  destruct (Z.eq_dec (Z.lxor a b) 0%Z) as [-> | Hne]; [lia |].
  change 256%Z with (2 ^ 8)%Z. apply Z.log2_lt_pow2; [lia |].
  eapply Z.le_lt_trans; [apply Z.log2_lxor; lia |].
  apply Z.max_lub_lt.
  - destruct (Z.eq_dec a 0%Z) as [-> | ?]; [simpl; lia |].
    apply Z.log2_lt_pow2; lia.
  - destruct (Z.eq_dec b 0%Z) as [-> | ?]; [simpl; lia |].
    apply Z.log2_lt_pow2; lia.
Qed.

Lemma fold_xor_acc (l : list ascii) (acc : Z) :
  fold_left (fun cs c => Z.lxor cs (Nmea.byte_of c)) l acc = Z.lxor acc (checksum l).
Proof.
  unfold checksum. revert acc.
  induction l as [| c l IH]; intros acc; cbn [fold_left].
  - rewrite Z.lxor_0_r. reflexivity.
  - rewrite (IH (Z.lxor acc (Nmea.byte_of c))), (IH (Z.lxor 0 (Nmea.byte_of c))).
    rewrite Z.lxor_0_l, Z.lxor_assoc. reflexivity.
Qed.

Lemma checksum_cons (c : ascii) (l : list ascii) :
  checksum (c :: l) = Z.lxor (Nmea.byte_of c) (checksum l).
Proof.
  unfold checksum at 1. cbn [fold_left].
  rewrite fold_xor_acc, Z.lxor_0_l. reflexivity.
Qed.

Lemma checksum_app (l1 l2 : list ascii) :
  checksum (l1 ++ l2) = Z.lxor (checksum l1) (checksum l2).
Proof.
  induction l1 as [| c l1 IH]; simpl.
  - reflexivity.
  - rewrite !checksum_cons, IH, Z.lxor_assoc. reflexivity.
Qed.

Lemma checksum_range (l : list ascii) : (0 <= checksum l < 256)%Z.
Proof.
  induction l as [| c l IH].
  - unfold checksum. simpl. lia.
  - rewrite checksum_cons. apply lxor_byte_range; [apply byte_of_range | exact IH].
Qed.

(** Replacing one byte by a different one changes the checksum. *)
Lemma checksum_insert_ne (l : list ascii) (i : nat) (old b : ascii) :
  l !! i = Some old -> b <> old -> checksum (<[i := b]> l) <> checksum l.
Proof.
  intros Hi Hne.
  rewrite insert_take_drop by (eapply lookup_lt_Some; exact Hi).
  rewrite <- (take_drop_middle l i old Hi) at 3.
  rewrite !checksum_app, !checksum_cons.
  intros Heq.
  apply (f_equal (Z.lxor (checksum (take i l)))) in Heq.
  rewrite <- !Z.lxor_assoc, !Z.lxor_nilpotent, !Z.lxor_0_l in Heq.
  apply (f_equal (fun x => Z.lxor x (checksum (drop (S i) l)))) in Heq.
  rewrite !Z.lxor_assoc, !Z.lxor_nilpotent, !Z.lxor_0_r in Heq.
  apply Hne, byte_of_inj, Heq.
Qed.

Lemma xor_loop_fold (s : list ascii) (todo : nat) :
  forall (i : nat) (acc : Z),
    i + todo <= length s ->
    Nmea.xor_loop s todo i acc = Z.lxor acc (checksum (take todo (drop i s))).
Proof.
  induction todo as [| todo IH]; intros i acc Hlen; simpl.
  - unfold checksum. simpl. rewrite Z.lxor_0_r. reflexivity.
  - destruct (lookup_lt_is_Some_2 s i ltac:(lia)) as [c Hc].
    unfold Nmea.byte_at. rewrite Hc.
    rewrite (drop_S _ _ _ Hc). simpl.
    rewrite IH by lia. rewrite checksum_cons, Z.lxor_assoc. reflexivity.
Qed.

(** ** [std::stoi] on what the sentence builders write *)

Lemma stoi_hex2_table :
  forallb (fun n => match Nmea.stoi (hex2 (Z.of_nat n)) 16 with
                    | Ok v => (v =? Z.of_nat n)%Z
                    | _ => false
                    end) (seq 0 256) = true.
Proof. vm_compute. reflexivity. Qed.

Lemma stoi_hex2 (v : Z) : (0 <= v < 256)%Z -> Nmea.stoi (hex2 v) 16 = Ok v.
Proof.
  intros Hv.
  pose proof (proj1 (forallb_forall _ _) stoi_hex2_table (Z.to_nat v)) as H.
  cbv beta in H. rewrite Z2Nat.id in H by lia.
  specialize (H ltac:(apply in_seq; lia)).
  destruct (Nmea.stoi (hex2 v) 16) as [w | |]; try discriminate.
  apply Z.eqb_eq in H. subst w. reflexivity.
Qed.

(** ** The checksum validator *)

(** What the validator computes on a sentence split at its first star. *)
Lemma validate_checksum_split (pre : list ascii) (c1 c2 : ascii) (rest : list ascii) :
  ~ In "*"%char pre ->
  Nmea.validate_checksum (pre ++ "*"%char :: c1 :: c2 :: rest)
  = (recv_cs <- Nmea.stoi [c1; c2] 16 ;;
     Ok (checksum (drop 1 pre) =? recv_cs)%Z).
Proof.
  intros Hnot. unfold Nmea.validate_checksum.
  rewrite find_app by exact Hnot.
  rewrite length_app. simpl length.
  destruct (Nat.leb_spec (length pre + S (S (S (length rest)))) (length pre + 2))
    as [Hle | _]; [lia |].
  rewrite xor_loop_fold by (rewrite length_app; simpl; lia).
  rewrite Z.lxor_0_l.
  assert (Hpayload : take (length pre - 1) (drop 1 (pre ++ "*"%char :: c1 :: c2 :: rest))
                     = drop 1 pre).
  { destruct pre as [| c0 pre']; [reflexivity |].
    simpl. rewrite Nat.sub_0_r, drop_0. apply take_app_length. }
  rewrite Hpayload.
  unfold Nmea.substr.
  rewrite length_app. simpl length.
  destruct (Nat.ltb_spec (length pre + S (S (S (length rest)))) (length pre + 1))
    as [Hlt | _]; [lia |].
  replace (drop (length pre + 1) (pre ++ "*"%char :: c1 :: c2 :: rest))
    with (c1 :: c2 :: rest).
  - reflexivity.
  - replace (pre ++ "*"%char :: c1 :: c2 :: rest)
      with ((pre ++ ["*"%char]) ++ c1 :: c2 :: rest)
      by (rewrite <- app_assoc; reflexivity).
    rewrite drop_app_length'; [reflexivity |].
    rewrite length_app. simpl. lia.
Qed.

Lemma not_star_after_dollar (payload : list ascii) :
  ~ In "*"%char payload -> ~ In "*"%char ("$"%char :: payload).
Proof. intros Hnot [Heq | Hin]; [discriminate Heq | exact (Hnot Hin)]. Qed.

Lemma validate_checksum_iff (sentence : list ascii) :
  Nmea.validate_checksum sentence = Ok true <->
  exists pre c1 c2 rest,
    sentence = pre ++ "*"%char :: c1 :: c2 :: rest /\
    ~ In "*"%char pre /\
    Nmea.stoi [c1; c2] 16 = Ok (checksum (drop 1 pre)).
Proof.
  split.
  - unfold Nmea.validate_checksum.
    destruct (Nmea.find "*" sentence) as [star_pos |] eqn:Hfind; [| discriminate].
    destruct (find_Some _ _ _ Hfind) as (pre & post & -> & Hlen & Hnot).
    rewrite length_app. simpl length.
    destruct (Nat.leb_spec (length pre + S (length post)) (star_pos + 2))
      as [Hle | Hgt]; [discriminate |].
    destruct post as [| c1 [| c2 rest]]; simpl in Hgt; try lia.
    subst star_pos. intros Hrun.
    assert (Hsplit := validate_checksum_split pre c1 c2 rest Hnot).
    unfold Nmea.validate_checksum in Hsplit.
    rewrite Hfind, length_app in Hsplit. simpl length in Hsplit.
    destruct (Nat.leb_spec (length pre + S (S (S (length rest)))) (length pre + 2))
      as [Hle | _]; [lia |].
    rewrite Hsplit in Hrun.
    exists pre, c1, c2, rest. split; [reflexivity |]. split; [exact Hnot |].
    destruct (Nmea.stoi [c1; c2] 16) as [recv | |]; try discriminate.
    simpl in Hrun. injection Hrun as Hrun. apply Z.eqb_eq in Hrun.
    rewrite Hrun. reflexivity.
  - intros (pre & c1 & c2 & rest & -> & Hnot & Hstoi).
    rewrite validate_checksum_split by exact Hnot.
    rewrite Hstoi. simpl. rewrite Z.eqb_refl. reflexivity.
Qed.

Lemma validate_sentence_of (payload rest : list ascii) :
  ~ In "*"%char payload ->
  Nmea.validate_checksum (sentence_of payload ++ rest) = Ok true.
Proof.
  intros Hnot. unfold sentence_of, hex2.
  replace (("$"%char :: payload ++ "*"%char ::
            [hex_digit (checksum payload / 16); hex_digit (checksum payload mod 16)])
           ++ rest)
    with (("$"%char :: payload) ++ "*"%char ::
          hex_digit (checksum payload / 16) :: hex_digit (checksum payload mod 16) ::
          rest)
    by (simpl; rewrite <- app_assoc; reflexivity).
  rewrite validate_checksum_split by (apply not_star_after_dollar; exact Hnot).
  fold (hex2 (checksum payload)).
  rewrite stoi_hex2 by apply checksum_range.
  simpl. rewrite Z.eqb_refl. reflexivity.
Qed.

Lemma validate_mutated (payload rest : list ascii) (i : nat) (old b : ascii) :
  ~ In "*"%char payload ->
  payload !! i = Some old -> b <> old -> b <> "*"%char ->
  Nmea.validate_checksum
    ("$"%char :: <[i := b]> payload ++ "*"%char :: hex2 (checksum payload) ++ rest)
  = Ok false.
Proof.
  intros Hnot Hi Hne Hstar. unfold hex2.
  change ("$"%char :: <[i := b]> payload ++ "*"%char ::
          [hex_digit (checksum payload / 16); hex_digit (checksum payload mod 16)]
          ++ rest)
    with (("$"%char :: <[i := b]> payload) ++ "*"%char ::
          hex_digit (checksum payload / 16) :: hex_digit (checksum payload mod 16) ::
          rest).
  rewrite validate_checksum_split.
  - fold (hex2 (checksum payload)).
    rewrite stoi_hex2 by apply checksum_range.
    simpl. rewrite drop_0.
    destruct (Z.eqb_spec (checksum (<[i := b]> payload)) (checksum payload))
      as [Heq | _]; [| reflexivity].
    exfalso. exact (checksum_insert_ne payload i old b Hi Hne Heq).
  - apply not_star_after_dollar. intros Hin.
    apply list_elem_of_In, list_elem_of_lookup in Hin. destruct Hin as [j Hj].
    destruct (Nat.eq_dec i j) as [<- | Hij].
    + rewrite list_lookup_insert_eq in Hj by (eapply lookup_lt_Some; exact Hi).
      injection Hj as Hj. exact (Hstar Hj).
    + rewrite list_lookup_insert_ne in Hj by exact Hij.
      apply Hnot, list_elem_of_In, list_elem_of_lookup. exists j. exact Hj.
Qed.

(** C3 -- checksum validation.  Validation succeeds exactly when the
    sentence has a star with at least two characters after it and the two
    characters after the first star, read by [std::stoi] in base 16, give the
    exclusive or of the bytes from the second character up to that star.  So
    a sentence built around a star-free payload with its checksum validates,
    whatever follows the checksum; and replacing one payload byte by another
    byte that is not a star, the checksum kept, makes validation return
    false. *)
Theorem checksum_validation :
  (forall sentence,
     Nmea.validate_checksum sentence = Ok true <->
     exists pre c1 c2 rest,
       sentence = pre ++ "*"%char :: c1 :: c2 :: rest /\
       ~ In "*"%char pre /\
       Nmea.stoi [c1; c2] 16 = Ok (checksum (drop 1 pre))) /\
  (forall payload rest,
     ~ In "*"%char payload ->
     Nmea.validate_checksum (sentence_of payload ++ rest) = Ok true) /\
  (forall payload rest i old b,
     ~ In "*"%char payload ->
     payload !! i = Some old -> b <> old -> b <> "*"%char ->
     Nmea.validate_checksum
       ("$"%char :: <[i := b]> payload ++ "*"%char :: hex2 (checksum payload) ++ rest)
     = Ok false).
Proof.
  split; [exact validate_checksum_iff |].
  split; [exact validate_sentence_of | exact validate_mutated].
Qed.

(** A payload byte turned into a star, the checksum kept: the sentence still
    validates (the exclusive or now stops at the new star, and the two
    characters after it happen to spell it). *)
Lemma star_mutation_still_validates :
  Nmea.str "A?41" !! 1 = Some "?"%char /\
  Nmea.validate_checksum (sentence_of (Nmea.str "A?41")) = Ok true /\
  sentence_of (Nmea.str "A?41") = Nmea.str "$A?41*7B" /\
  "$"%char :: <[1 := "*"%char]> (Nmea.str "A?41")
    ++ "*"%char :: hex2 (checksum (Nmea.str "A?41"))
  = Nmea.str "$A*41*7B" /\
  Nmea.validate_checksum (Nmea.str "$A*41*7B") = Ok true.
Proof. repeat split; vm_compute; reflexivity. Qed.

(** ** Lines the parser receives *)

(** C4 (what the code does at the failing input) -- a line with the tag whose
    checksum characters are no hexadecimal number is not dropped: [std::stoi]
    throws out of [process_nmea_line]. *)
Lemma unreadable_checksum_throws (g : Nmea.GnssStatus) :
  Nmea.process_nmea_line (Nmea.str "$PHTG,1*ZZ") g = Throw std_invalid_argument.
Proof. reflexivity. Qed.

(** A field that is no number throws as well, valid checksum or not enough
    fields notwithstanding. *)
Lemma unreadable_number_throws (g : Nmea.GnssStatus) :
  Nmea.validate_checksum (Nmea.str "$PHTG,a,b,c,d,x*5B") = Ok true /\
  Nmea.process_nmea_line (Nmea.str "$PHTG,a,b,c,d,x*5B") g = Throw std_invalid_argument.
Proof. split; vm_compute; reflexivity. Qed.

(** A star right after the tag: the body is then read from behind the star,
    and a line with no payload field at all is accepted. *)
Lemma early_star_is_accepted (g : Nmea.GnssStatus) :
  Nmea.process_nmea_line (Nmea.str "$PHTG*0B,b,c,d,5,7") g
  = Ok {| Nmea.gnss_auth_status := 5; Nmea.gnss_warning := 7 |}.
Proof. reflexivity. Qed.

(** What does hold: a line without the tag, or one the validator rejects, is
    dropped with the stored values as they were; and whenever the call
    returns, the values are either untouched or those of a record that
    parsed in full. *)
Lemma process_nmea_line_drops (line : list ascii) (g : Nmea.GnssStatus) :
  (Nmea.string_eqb (take 5 line) (Nmea.str "$PHTG") = false ->
   Nmea.process_nmea_line line g = Ok g) /\
  (Nmea.validate_checksum line = Ok false ->
   Nmea.process_nmea_line line g = Ok g) /\
  (forall g', Nmea.process_nmea_line line g = Ok g' ->
     g' = g \/
     exists data, Nmea.parse_phtg line Nmea.empty_PHTGData = Ok (true, data) /\
                  g' = {| Nmea.gnss_auth_status := Nmea.auth_result data;
                          Nmea.gnss_warning := Nmea.warning data |}).
Proof.
  unfold Nmea.process_nmea_line. split; [| split].
  - intros ->. rewrite andb_false_r. reflexivity.
  - intros Hbad.
    destruct ((5 <=? length line) && Nmea.string_eqb (take 5 line) (Nmea.str "$PHTG"))
      eqn:Htag; [| reflexivity].
    apply andb_prop in Htag. destruct Htag as [Hlen Htag].
    unfold Nmea.parse_phtg.
    destruct (Nat.ltb_spec (length line) 5) as [Hlt | _].
    { apply Nat.leb_le in Hlen. lia. }
    rewrite Htag, Hbad. reflexivity.
  - intros g'.
    destruct ((5 <=? length line) && Nmea.string_eqb (take 5 line) (Nmea.str "$PHTG"));
      [| intros [= <-]; left; reflexivity].
    destruct (Nmea.parse_phtg line Nmea.empty_PHTGData) as [[ok data] | |];
      simpl; try discriminate.
    destruct ok; intros [= <-]; [right; exists data; split; reflexivity | left; reflexivity].
Qed.

(** ** Decimal numbers *)

(** The character of a decimal digit. *)
Lemma digit_char_facts (d : Z) :
  (0 <= d < 10)%Z ->
  let c := ascii_of_N (Z.to_N (48 + d)) in
  Nmea.digit_in 10 c = Some d /\ Nmea.isspace c = false /\
  Ascii.eqb c "-" = false /\ Ascii.eqb c "+" = false /\
  c <> ","%char /\ c <> "*"%char.
Proof.
  intros Hd.
  assert (Hcases : (d = 0 \/ d = 1 \/ d = 2 \/ d = 3 \/ d = 4 \/ d = 5 \/ d = 6
                    \/ d = 7 \/ d = 8 \/ d = 9)%Z) by lia.
  intros c. subst c.
  repeat (destruct Hcases as [Hcase | Hcases];
          [subst d; repeat split; try reflexivity; discriminate |]).
  subst d; repeat split; try reflexivity; discriminate.
Qed.

Lemma read_magnitude_decimal (s : list ascii) :
  Nmea.read_magnitude 10 s = Nmea.read_digits 10 s None.
Proof.
  unfold Nmea.read_magnitude.
  destruct s as [| c [| x s']]; try reflexivity.
  change (10 =? 16)%Z with false. rewrite andb_false_r. reflexivity.
Qed.

Lemma read_digits_show (fuel : nat) :
  forall (n : Z) (rest : list ascii),
    (0 <= n < 10 ^ Z.of_nat (S fuel))%Z ->
    Nmea.read_digits 10 (show_nat_digits (S fuel) n rest) None
    = Nmea.read_digits 10 rest (Some n).
Proof.
  induction fuel as [| fuel IH]; intros n rest Hn.
  - change (10 ^ Z.of_nat 1)%Z with 10%Z in Hn.
    cbn [show_nat_digits].
    destruct (Z.ltb_spec n 10) as [_ | Hge]; [| lia].
    rewrite Z.mod_small by lia.
    destruct (digit_char_facts n Hn) as (Hdigit & _).
    cbn [Nmea.read_digits]. rewrite Hdigit. reflexivity.
  - remember (S fuel) as fuel' eqn:Hfuel.
    cbn [show_nat_digits].
    pose proof (Z.mod_pos_bound n 10 ltac:(lia)) as Hmod.
    destruct (digit_char_facts (n mod 10) Hmod) as (Hdigit & _).
    destruct (Z.ltb_spec n 10) as [Hlt | Hge].
    + rewrite Z.mod_small in * by lia.
      cbn [Nmea.read_digits]. rewrite Hdigit. reflexivity.
    + subst fuel'. rewrite IH.
      * cbn [Nmea.read_digits]. rewrite Hdigit. cbn [default].
        do 2 f_equal. unfold id. pose proof (Z.div_mod n 10 ltac:(lia)). lia.
      * rewrite Nat2Z.inj_succ, Z.pow_succ_r in Hn by lia.
        split; [apply Z.div_pos; lia |].
        apply Z.div_lt_upper_bound; lia.
Qed.

Lemma show_nat_digits_head (fuel : nat) :
  forall (n : Z) (rest : list ascii),
    (0 <= n)%Z ->
    exists d s', (0 <= d < 10)%Z /\
      show_nat_digits (S fuel) n rest = ascii_of_N (Z.to_N (48 + d)) :: s'.
Proof.
  induction fuel as [| fuel IH]; intros n rest Hn.
  - cbn [show_nat_digits].
    exists (n mod 10)%Z, rest. split; [apply Z.mod_pos_bound; lia |].
    destruct (n <? 10)%Z; reflexivity.
  - remember (S fuel) as fuel' eqn:Hfuel.
    cbn [show_nat_digits].
    destruct (n <? 10)%Z.
    + exists (n mod 10)%Z, rest. split; [apply Z.mod_pos_bound; lia | reflexivity].
    + subst fuel'. apply IH. apply Z.div_pos; lia.
Qed.

Lemma show_nat_digits_plain (fuel : nat) :
  forall (n : Z) (rest : list ascii),
    (0 <= n)%Z -> plain rest -> plain (show_nat_digits fuel n rest).
Proof.
  induction fuel as [| fuel IH]; intros n rest Hn Hrest; [exact Hrest |].
  cbn [show_nat_digits].
  pose proof (Z.mod_pos_bound n 10 ltac:(lia)) as Hmod.
  destruct (digit_char_facts (n mod 10) Hmod) as (_ & _ & _ & _ & Hcomma & Hstar).
  assert (Hplain : plain (ascii_of_N (Z.to_N (48 + n mod 10)) :: rest)).
  { destruct Hrest as [Hc Hs]. split.
    - intros [Heq | Hin]; [exact (Hcomma Heq) | exact (Hc Hin)].
    - intros [Heq | Hin]; [exact (Hstar Heq) | exact (Hs Hin)]. }
  destruct (n <? 10)%Z; [exact Hplain |].
  apply IH; [apply Z.div_pos; lia | exact Hplain].
Qed.

Lemma plain_nil : plain [].
Proof. split; intros []. Qed.

Lemma show_int_plain (z : Z) : plain (show_int z).
Proof.
  unfold show_int. destruct (z <? 0)%Z eqn:Hneg.
  - apply Z.ltb_lt in Hneg.
    destruct (show_nat_digits_plain 10 (- z) [] ltac:(lia) plain_nil) as [Hc Hs].
    split; (intros [Heq | Hin]; [discriminate Heq | auto]).
  - apply Z.ltb_ge in Hneg. apply show_nat_digits_plain; [lia | apply plain_nil].
Qed.

Lemma show_int_not_nil (z : Z) : show_int z <> [].
Proof.
  unfold show_int. destruct (z <? 0)%Z eqn:Hneg; [discriminate |].
  apply Z.ltb_ge in Hneg.
  destruct (show_nat_digits_head 9 z [] Hneg) as (d & s' & _ & ->). discriminate.
Qed.

(** [std::stoi] reads back what [show_int] wrote. *)
Lemma stoi_show_int (z : Z) : in_int32 z -> Nmea.stoi (show_int z) 10 = Ok z.
Proof.
  unfold in_int32. intros Hz.
  assert (Hrange : forall v, (- 2 ^ 31 <= v < 2 ^ 31)%Z ->
                     ((v <? - 2 ^ 31) || (2 ^ 31 - 1 <? v))%Z = false).
  { intros v Hv. apply orb_false_intro; apply Z.ltb_ge; lia. }
  assert (Hpow : (2 ^ 31 < 10 ^ Z.of_nat 10)%Z) by (vm_compute; reflexivity).
  unfold show_int, Nmea.stoi. destruct (z <? 0)%Z eqn:Hneg.
  - apply Z.ltb_lt in Hneg.
    cbn [Nmea.skip_spaces]. change (Nmea.isspace "-") with false. cbv iota.
    cbn [Nmea.split_sign]. change (Ascii.eqb "-" "-") with true. cbv iota.
    rewrite read_magnitude_decimal, read_digits_show by lia.
    cbn [Nmea.read_digits]. rewrite Z.opp_involutive, Hrange by lia. reflexivity.
  - apply Z.ltb_ge in Hneg.
    destruct (show_nat_digits_head 9 z [] Hneg) as (d & s' & Hd & Hshow).
    destruct (digit_char_facts d Hd) as (_ & Hspace & Hminus & Hplus & _).
    pose proof (read_digits_show 9 z [] ltac:(lia)) as Hread.
    rewrite Hshow in *.
    cbn [Nmea.skip_spaces]. rewrite Hspace.
    cbn [Nmea.split_sign]. rewrite Hminus, Hplus.
    rewrite read_magnitude_decimal, Hread.
    cbn [Nmea.read_digits]. rewrite Hrange by lia. reflexivity.
Qed.

Lemma number_or_zero_show_int (z : Z) :
  in_int32 z -> Nmea.number_or_zero (show_int z) = Ok z.
Proof.
  intros Hz. unfold Nmea.number_or_zero.
  pose proof (show_int_not_nil z) as Hne.
  destruct (show_int z) eqn:Hshow; [contradiction |].
  rewrite <- Hshow. apply stoi_show_int, Hz.
Qed.

(** ** Tokens *)

Lemma getline_tokens_field (token rest : list ascii) :
  ~ In ","%char token ->
  Nmea.getline_tokens "," (token ++ ","%char :: rest)
  = token :: Nmea.getline_tokens "," rest.
Proof.
  induction token as [| c token IH]; intros Hnot.
  - simpl. reflexivity.
  - simpl. destruct (Ascii.eqb_spec c ",") as [-> | Hne].
    + exfalso. apply Hnot. left. reflexivity.
    + rewrite IH; [reflexivity |]. intros Hin. apply Hnot. right. exact Hin.
Qed.

Lemma getline_tokens_last (token : list ascii) :
  ~ In ","%char token -> token <> [] ->
  Nmea.getline_tokens "," token = [token].
Proof.
  induction token as [| c token IH]; intros Hnot Hne; [contradiction |].
  simpl. destruct (Ascii.eqb_spec c ",") as [-> | Hc].
  - exfalso. apply Hnot. left. reflexivity.
  - destruct token as [| c' token']; [reflexivity |].
    rewrite IH; [reflexivity | | discriminate].
    intros Hin. apply Hnot. right. exact Hin.
Qed.

(** ** Round trip through the parser *)

(** The comma-joined fields of a sentence. *)
Lemma payload_of_shape (f : Fields) :
  payload_of f
  = ["P"; "H"; "T"; "G"; ","]%char
    ++ (f_date f ++ ","%char :: f_time f ++ ","%char :: f_system f
        ++ ","%char :: f_service f ++ ","%char :: show_field (f_auth_result f)
        ++ ","%char :: show_field (f_warning f)).
Proof. reflexivity. Qed.

Lemma not_in_app (c : ascii) (l1 l2 : list ascii) :
  ~ In c l1 -> ~ In c l2 -> ~ In c (l1 ++ l2).
Proof. intros H1 H2 Hin. apply in_app_or in Hin. tauto. Qed.

Lemma not_in_cons (c x : ascii) (l : list ascii) :
  x <> c -> ~ In c l -> ~ In c (x :: l).
Proof. intros Hx Hl [Heq | Hin]; tauto. Qed.

Lemma show_field_plain (o : option Z) : plain (show_field o).
Proof. destruct o; [apply show_int_plain | apply plain_nil]. Qed.

Lemma number_or_zero_show_field (o : option Z) :
  (forall a, o = Some a -> in_int32 a) ->
  Nmea.number_or_zero (show_field o) = Ok (default 0%Z o).
Proof.
  destruct o as [a |]; intros Ha; [| reflexivity].
  apply number_or_zero_show_int, Ha. reflexivity.
Qed.

(** The amended round trip: what [parse_phtg] makes of a built sentence. *)
Lemma parse_built_sentence (f : Fields) (w : Z) (data : Nmea.PHTGData) :
  plain (f_date f) -> plain (f_time f) -> plain (f_system f) -> plain (f_service f) ->
  (forall a, f_auth_result f = Some a -> in_int32 a) ->
  f_warning f = Some w -> in_int32 w ->
  Nmea.parse_phtg (build_sentence f) data
  = Ok (true, {| Nmea.date := f_date f; Nmea.time := f_time f;
                 Nmea.system := f_system f; Nmea.service := f_service f;
                 Nmea.auth_result := default 0%Z (f_auth_result f);
                 Nmea.warning := w |}).
Proof.
  intros [Hdc Hds] [Htc Hts] [Hsc Hss] [Hvc Hvs] Hauth Hwarn Hw.
  destruct (show_field_plain (f_auth_result f)) as [Hac Has].
  destruct (show_int_plain w) as [Hwc Hws].
  set (J := f_date f ++ ","%char :: f_time f ++ ","%char :: f_system f
            ++ ","%char :: f_service f ++ ","%char :: show_field (f_auth_result f)
            ++ ","%char :: show_int w).
  assert (Hpayload : payload_of f = ["P"; "H"; "T"; "G"; ","]%char ++ J).
  { rewrite payload_of_shape, Hwarn. reflexivity. }
  assert (Hstar : ~ In "*"%char (payload_of f)).
  { rewrite Hpayload. subst J.
    repeat first [ apply not_in_app | apply not_in_cons ];
      try assumption; try discriminate. intros []. }
  assert (Hvalid : Nmea.validate_checksum (build_sentence f) = Ok true).
  { unfold build_sentence. rewrite <- (app_nil_r (sentence_of (payload_of f))).
    apply validate_sentence_of, Hstar. }
  assert (Hshape : build_sentence f
                   = ["$"; "P"; "H"; "T"; "G"; ","]%char
                     ++ J ++ "*"%char :: hex2 (checksum (payload_of f))).
  { unfold build_sentence, sentence_of. rewrite Hpayload at 1.
    simpl. reflexivity. }
  assert (Hfind : Nmea.find "*" (build_sentence f) = Some (6 + length J)).
  { rewrite Hshape, app_assoc.
    rewrite find_app.
    - rewrite length_app. reflexivity.
    - rewrite Hpayload in Hstar.
      change (~ In "*"%char ("$"%char :: ["P"; "H"; "T"; "G"; ","]%char ++ J)).
      apply not_star_after_dollar, Hstar. }
  assert (Htokens : Nmea.getline_tokens "," J
                    = [f_date f; f_time f; f_system f; f_service f;
                       show_field (f_auth_result f); show_int w]).
  { subst J. rewrite !getline_tokens_field by assumption.
    rewrite getline_tokens_last by (assumption || apply show_int_not_nil).
    reflexivity. }
  assert (Hlong : (length (build_sentence f) <? 5) = false).
  { rewrite Hshape. apply Nat.ltb_ge. rewrite length_app. simpl. lia. }
  assert (Htag : Nmea.string_eqb (take 5 (build_sentence f)) (Nmea.str "$PHTG") = true).
  { rewrite Hshape. reflexivity. }
  assert (Hbody : Nmea.body_of (build_sentence f) (6 + length J) = Ok J).
  { unfold Nmea.body_of, Nmea.substr.
    change (6 <=? 6 + length J) with true. cbv iota.
    replace (length (build_sentence f) <? 6) with false
      by (symmetry; rewrite Hshape; apply Nat.ltb_ge; rewrite length_app; simpl; lia).
    rewrite Hshape.
    change (drop 6 (["$"; "P"; "H"; "T"; "G"; ","]%char ++ J ++ "*"%char ::
                    hex2 (checksum (payload_of f))))
      with (J ++ "*"%char :: hex2 (checksum (payload_of f))).
    replace (6 + length J - 6) with (length J) by lia.
    rewrite take_app_length. reflexivity. }
  unfold Nmea.parse_phtg.
  rewrite Hlong, Htag, Hvalid, Hfind. cbn [negb bind].
  rewrite Hbody. cbn [bind].
  rewrite Htokens.
  cbn [Nmea.store_fields Nmea.store_field bind].
  rewrite number_or_zero_show_field by exact Hauth. cbn [bind].
  rewrite number_or_zero_show_int by exact Hw. cbn [bind].
  reflexivity.
Qed.

Lemma build_sentence_tag (f : Fields) :
  (5 <=? length (build_sentence f))
  && Nmea.string_eqb (take 5 (build_sentence f)) (Nmea.str "$PHTG") = true.
Proof. reflexivity. Qed.

(** C5 -- parse round trip, as the code has it.  Take six fields whose four
    text fields hold neither a comma nor a star, whose authentication result
    is empty or a 32-bit integer written in decimal, and whose warning is a
    32-bit integer written in decimal.  The sentence made of the tag, the
    comma-joined fields and the correct checksum parses successfully to
    exactly those fields, an empty authentication result reading as 0, and
    [process_nmea_line] stores the two numbers. *)
Theorem parse_round_trip (f : Fields) (w : Z) :
  plain (f_date f) -> plain (f_time f) -> plain (f_system f) -> plain (f_service f) ->
  (forall a, f_auth_result f = Some a -> in_int32 a) ->
  f_warning f = Some w -> in_int32 w ->
  let auth := match f_auth_result f with Some a => a | None => 0%Z end in
  (forall data,
     Nmea.parse_phtg (build_sentence f) data
     = Ok (true, {| Nmea.date := f_date f; Nmea.time := f_time f;
                    Nmea.system := f_system f; Nmea.service := f_service f;
                    Nmea.auth_result := auth; Nmea.warning := w |})) /\
  (forall g,
     Nmea.process_nmea_line (build_sentence f) g
     = Ok {| Nmea.gnss_auth_status := auth; Nmea.gnss_warning := w |}).
Proof.
  intros Hd Ht Hs Hv Hauth Hwarn Hw auth.
  assert (Hdefault : auth = default 0%Z (f_auth_result f))
    by (subst auth; destruct (f_auth_result f); reflexivity).
  rewrite Hdefault. split.
  - intros data. apply parse_built_sentence; assumption.
  - intros g. unfold Nmea.process_nmea_line.
    rewrite build_sentence_tag.
    rewrite (parse_built_sentence f w Nmea.empty_PHTGData) by assumption.
    reflexivity.
Qed.

Lemma sample_plain (s : string) :
  forallb (fun c => negb (Ascii.eqb c ",") && negb (Ascii.eqb c "*")) (Nmea.str s) = true ->
  plain (Nmea.str s).
Proof.
  intros Hall. rewrite forallb_forall in Hall.
  split; intros Hin; specialize (Hall _ Hin); rewrite Ascii.eqb_refl in Hall;
    [discriminate | rewrite andb_false_r in Hall; discriminate].
Qed.

Lemma parse_round_trip_witness :
  Nmea.parse_phtg (Nmea.str "$PHTG,230101,120000,GAL,RTK,,0*3E") Nmea.empty_PHTGData
  = Ok (true, {| Nmea.date := Nmea.str "230101"; Nmea.time := Nmea.str "120000";
                 Nmea.system := Nmea.str "GAL"; Nmea.service := Nmea.str "RTK";
                 Nmea.auth_result := 0; Nmea.warning := 0 |}) /\
  Nmea.process_nmea_line (Nmea.str "$PHTG,230101,120000,GAL,RTK,1,0*0F")
    {| Nmea.gnss_auth_status := 0; Nmea.gnss_warning := 5 |}
  = Ok {| Nmea.gnss_auth_status := 1; Nmea.gnss_warning := 0 |}.
Proof.
  split.
  - exact (proj1 (parse_round_trip (sample_fields None (Some 0%Z) "RTK") 0
                    (sample_plain "230101" eq_refl) (sample_plain "120000" eq_refl)
                    (sample_plain "GAL" eq_refl) (sample_plain "RTK" eq_refl)
                    ltac:(intros a H; discriminate H)
                    eq_refl ltac:(unfold in_int32; lia))
             Nmea.empty_PHTGData).
  - exact (proj2 (parse_round_trip (sample_fields (Some 1%Z) (Some 0%Z) "RTK") 0
                    (sample_plain "230101" eq_refl) (sample_plain "120000" eq_refl)
                    (sample_plain "GAL" eq_refl) (sample_plain "RTK" eq_refl)
                    ltac:(intros a [= <-]; unfold in_int32; lia)
                    eq_refl ltac:(unfold in_int32; lia))
             {| Nmea.gnss_auth_status := 0; Nmea.gnss_warning := 5 |}).
Defined.

(** A comma inside a field: the sentence still parses, to other values than
    the six fields it was built from. *)
Lemma comma_in_field_shifts_fields :
  build_sentence (sample_fields (Some 1%Z) (Some 0%Z) "RT,5")
  = Nmea.str "$PHTG,230101,120000,GAL,RT,5,1,0*5D" /\
  Nmea.parse_phtg (Nmea.str "$PHTG,230101,120000,GAL,RT,5,1,0*5D") Nmea.empty_PHTGData
  = Ok (true, {| Nmea.date := Nmea.str "230101"; Nmea.time := Nmea.str "120000";
                 Nmea.system := Nmea.str "GAL"; Nmea.service := Nmea.str "RT";
                 Nmea.auth_result := 5; Nmea.warning := 1 |}).
Proof. split; vm_compute; reflexivity. Qed.

(** An empty warning as the last field: [std::getline] never delivers the
    empty last token, five fields are counted and the sentence is rejected. *)
Lemma empty_warning_is_rejected :
  build_sentence (sample_fields (Some 1%Z) None "RTK")
  = Nmea.str "$PHTG,230101,120000,GAL,RTK,1,*3F" /\
  Nmea.getline_tokens "," (Nmea.str "230101,120000,GAL,RTK,1,")
  = [Nmea.str "230101"; Nmea.str "120000"; Nmea.str "GAL"; Nmea.str "RTK"; Nmea.str "1"] /\
  Nmea.parse_phtg (Nmea.str "$PHTG,230101,120000,GAL,RTK,1,*3F") Nmea.empty_PHTGData
  = Ok (false, {| Nmea.date := Nmea.str "230101"; Nmea.time := Nmea.str "120000";
                  Nmea.system := Nmea.str "GAL"; Nmea.service := Nmea.str "RTK";
                  Nmea.auth_result := 1; Nmea.warning := 0 |}).
Proof. repeat split; vm_compute; reflexivity. Qed.


(** ** The builders *)

Lemma sprayer_add_steps_kinds {T : DDITable} {C : PoolConstants} (clientName : Z) :
  map kind_of (sprayer_add_steps clientName)
  = [KDevice; KElement; KProcessData; KProcessData; KProcessData; KProcessData;
     KElement; KProcessData; KProcessData; KProperty; KPresentation; KPresentation] /\
  map object_id (sprayer_add_steps clientName)
  = [0; 1; 2; 1053; 3; 4; 5; 6; 7; 8; 1052; 1051]%Z.
Proof. split; reflexivity. Qed.

Lemma tag2_add_steps_kinds {T : DDITable} {C : PoolConstants} (clientName : Z) :
  map kind_of (tag2_add_steps clientName)
  = [KDevice; KElement; KPresentation; KPresentation; KPresentation;
     KProcessData; KProcessData; KProcessData] /\
  map object_id (tag2_add_steps clientName) = [0; 1; 51; 52; 50; 10; 21; 20]%Z.
Proof. split; reflexivity. Qed.

Lemma tag_add_steps_kinds {T : DDITable} {C : PoolConstants} (clientName : Z) :
  map kind_of (tag_add_steps clientName)
  = [KDevice; KElement; KPresentation; KPresentation; KPresentation;
     KProcessData; KProcessData; KProcessData; KProcessData] /\
  map object_id (tag_add_steps clientName) = [0; 1; 51; 52; 50; 5; 10; 21; 20]%Z.
Proof. split; reflexivity. Qed.



Section Binds.
Context {Pool A B : Type}.

Lemma adds_bind (m : Build Pool A) (k : A -> Build Pool B) (pool : Pool) :
  adds (build_bind m k pool)
  = adds (m pool) ++ match outcome (m pool) with
                     | Ok (a, pool') => adds (k a pool')
                     | _ => []
                     end.
Proof.
  unfold build_bind. destruct (m pool) as [made [[a pool'] | e |]]; cbn [adds outcome].
  - destruct (k a pool'); reflexivity.
  - rewrite app_nil_r. reflexivity.
  - rewrite app_nil_r. reflexivity.
Qed.

Lemma outcome_bind (m : Build Pool A) (k : A -> Build Pool B) (pool : Pool) :
  outcome (build_bind m k pool)
  = match outcome (m pool) with
    | Ok (a, pool') => outcome (k a pool')
    | Throw e => Throw e
    | Crash => Crash
    end.
Proof.
  unfold build_bind. destruct (m pool) as [made [[a pool'] | e |]]; cbn [adds outcome];
    [destruct (k a pool') |..]; reflexivity.
Qed.

End Binds.

Section Ends.
Context {Pool Handle : Type} {OP : ObjectPool Pool Handle}.





End Ends.

Section Builders.
Context {T : DDITable} {C : PoolConstants}.
Context {Pool Handle : Type} {OP : ObjectPool Pool Handle}.


End Builders.

Section Finals.
Context {T : DDITable} {C : PoolConstants}.
Context {Pool Handle : Type} {OP : ObjectPool Pool Handle}.



(** One step of a wiring block, on the adds and on the outcome. *)
Lemma adds_get_object_by_id {A : Type} (id : Z) (k : option Handle -> Build Pool A)
    (pool : Pool) :
  adds ((x <~ get_object_by_id id ;; k x) pool)
  = adds (k (pool_get_object_by_id id pool) pool).
Proof. rewrite adds_bind. reflexivity. Qed.

Lemma outcome_get_object_by_id {A : Type} (id : Z) (k : option Handle -> Build Pool A)
    (pool : Pool) :
  outcome ((x <~ get_object_by_id id ;; k x) pool)
  = outcome (k (pool_get_object_by_id id pool) pool).
Proof. rewrite outcome_bind. reflexivity. Qed.

Lemma adds_add_reference {A : Type} (element : option Handle) (child : Z)
    (k : unit -> Build Pool A) (pool : Pool) :
  adds ((x <~ add_reference_to_child_object element child ;; k x) pool)
  = match element with
    | Some h => adds (k tt (pool_add_reference_to_child_object h child pool))
    | None => []
    end.
Proof. rewrite adds_bind. destruct element; reflexivity. Qed.

Lemma outcome_add_reference {A : Type} (element : option Handle) (child : Z)
    (k : unit -> Build Pool A) (pool : Pool) :
  outcome ((x <~ add_reference_to_child_object element child ;; k x) pool)
  = match element with
    | Some h => outcome (k tt (pool_add_reference_to_child_object h child pool))
    | None => Crash
    end.
Proof. rewrite outcome_bind. destruct element; reflexivity. Qed.

(** The wiring of the sprayer makes no add; it returns when all four lookups
    find their element and dereferences a null pointer otherwise. *)
Lemma wire_children_run (ActualRate : Z) (pool : Pool) :
  adds (Sprayer.wire_children ActualRate pool) = [] /\
  match pool_get_object_by_id Sprayer.ImplementDDOPObjectIDs.MainDeviceElement pool,
        pool_get_object_by_id Sprayer.ImplementDDOPObjectIDs.Connector pool,
        pool_get_object_by_id Sprayer.ImplementDDOPObjectIDs.SprayBoom pool,
        pool_get_object_by_id Sprayer.ImplementDDOPObjectIDs.LiquidProduct pool with
  | Some _, Some _, Some _, Some _ =>
      exists pool', outcome (Sprayer.wire_children ActualRate pool) = Ok (tt, pool')
  | _, _, _, _ => outcome (Sprayer.wire_children ActualRate pool) = Crash
  end.
Proof.
  unfold Sprayer.wire_children.
  rewrite !adds_get_object_by_id, !outcome_get_object_by_id.
  destruct (pool_get_object_by_id Sprayer.ImplementDDOPObjectIDs.MainDeviceElement pool);
    destruct (pool_get_object_by_id Sprayer.ImplementDDOPObjectIDs.Connector pool);
    destruct (pool_get_object_by_id Sprayer.ImplementDDOPObjectIDs.SprayBoom pool);
    destruct (pool_get_object_by_id Sprayer.ImplementDDOPObjectIDs.LiquidProduct pool);
    repeat (rewrite adds_add_reference); repeat (rewrite outcome_add_reference);
    (split; [reflexivity |]); try reflexivity.
  eexists. reflexivity.
Qed.

Lemma sprayer_final_run (ActualRate : Z) :
  (forall b pool, adds (sprayer_final ActualRate b pool) = []) /\
  (forall pool, outcome (sprayer_final ActualRate false pool) = Ok (false, pool)) /\
  (forall pool b pool',
     outcome (sprayer_final ActualRate true pool) = Ok (b, pool') -> b = true).
Proof.
  split; [| split].
  - intros [|] pool; [| reflexivity].
    unfold sprayer_final. rewrite adds_bind.
    destruct (wire_children_run ActualRate pool) as [-> _].
    destruct (outcome (Sprayer.wire_children ActualRate pool)) as [[[] p] | |];
      reflexivity.
  - reflexivity.
  - intros pool b pool'. unfold sprayer_final. rewrite outcome_bind.
    destruct (outcome (Sprayer.wire_children ActualRate pool)) as [[[] p] | |];
      cbn; congruence.
Qed.

Lemma tag_final_run :
  (forall b pool, adds (tag_final b pool) = []) /\
  (forall pool, outcome (tag_final false pool) = Ok (false, pool)) /\
  (forall pool, exists pool', outcome (tag_final true pool) = Ok (true, pool')).
Proof.
  split; [| split].
  - intros [|] pool; [| reflexivity].
    unfold tag_final. cbn [negb]. rewrite adds_get_object_by_id.
    destruct (pool_get_object_by_id Tag.HashtagDDOPObjectIDs.MainDeviceElement pool);
      repeat (rewrite adds_add_reference); reflexivity.
  - reflexivity.
  - intros pool. unfold tag_final. cbn [negb]. rewrite outcome_get_object_by_id.
    destruct (pool_get_object_by_id Tag.HashtagDDOPObjectIDs.MainDeviceElement pool);
      repeat (rewrite outcome_add_reference); eexists; reflexivity.
Qed.

(** The wiring of the second sensor client: skipped as a whole when the
    sensor element is missing; with a sensor element but no main element it
    dereferences the null main element. *)
Lemma tag2_final_run :
  (forall b pool, adds (tag2_final b pool) = []) /\
  (forall pool, outcome (tag2_final false pool) = Ok (false, pool)) /\
  (forall pool,
     match pool_get_object_by_id Tag2.HashtagDDOPObjectIDs.SensorElement pool,
           pool_get_object_by_id Tag2.HashtagDDOPObjectIDs.MainDeviceElement pool with
     | None, _ => outcome (tag2_final true pool) = Ok (true, pool)
     | Some _, None => outcome (tag2_final true pool) = Crash
     | Some _, Some _ => exists pool', outcome (tag2_final true pool) = Ok (true, pool')
     end).
Proof.
  split; [| split].
  - intros [|] pool; [| reflexivity].
    unfold tag2_final. cbn [negb]. rewrite !adds_get_object_by_id.
    destruct (pool_get_object_by_id Tag2.HashtagDDOPObjectIDs.SensorElement pool);
      destruct (pool_get_object_by_id Tag2.HashtagDDOPObjectIDs.MainDeviceElement pool);
      repeat (rewrite adds_add_reference); reflexivity.
  - reflexivity.
  - intros pool. unfold tag2_final. cbn [negb]. rewrite !outcome_get_object_by_id.
    destruct (pool_get_object_by_id Tag2.HashtagDDOPObjectIDs.SensorElement pool);
      destruct (pool_get_object_by_id Tag2.HashtagDDOPObjectIDs.MainDeviceElement pool);
      repeat (rewrite outcome_add_reference); try reflexivity.
    eexists. reflexivity.
Qed.


End Finals.



(** ** The wiring phase *)

(** C6 (what the code does at the failing input) -- the sprayer builder on a
    fresh pool: every add succeeds, the pool then holds no spray-boom
    element, and the wiring dereferences the null pointer its lookup
    returned. *)
Lemma sprayer_wiring_dereferences_null (ActualRate clientName : Z) :
  let r := Sprayer.create_ddop (T := iso11783) (C := iso_pool_constants)
             (OP := arena_pool) ActualRate six_sections (Some []) clientName in
  all_succeeded r = true /\
  length (adds r) = 12 /\
  arena_has Sprayer.ImplementDDOPObjectIDs.SprayBoom
    (fold_left (fun a call => snd (arena_add call a))
       (sprayer_add_steps (T := iso11783) (C := iso_pool_constants) clientName) [])
  = false /\
  outcome r = Crash.
Proof. cbv zeta. repeat split; vm_compute; reflexivity. Qed.

(** On any pool: once the adds have succeeded, a lookup of the sprayer's
    wiring that returns no object makes the builder dereference it. *)
Lemma sprayer_missing_element_crashes {Pool Handle : Type} {OP : ObjectPool Pool Handle}
    (ActualRate : Z) (pool : Pool) :
  pool_get_object_by_id Sprayer.ImplementDDOPObjectIDs.MainDeviceElement pool = None \/
  pool_get_object_by_id Sprayer.ImplementDDOPObjectIDs.Connector pool = None \/
  pool_get_object_by_id Sprayer.ImplementDDOPObjectIDs.SprayBoom pool = None \/
  pool_get_object_by_id Sprayer.ImplementDDOPObjectIDs.LiquidProduct pool = None ->
  outcome (sprayer_final ActualRate true pool) = Crash.
Proof.
  intros Hnull. unfold sprayer_final. rewrite outcome_bind.
  destruct (wire_children_run ActualRate pool) as [_ Hrun].
  destruct (pool_get_object_by_id Sprayer.ImplementDDOPObjectIDs.MainDeviceElement pool);
    destruct (pool_get_object_by_id Sprayer.ImplementDDOPObjectIDs.Connector pool);
    destruct (pool_get_object_by_id Sprayer.ImplementDDOPObjectIDs.SprayBoom pool);
    destruct (pool_get_object_by_id Sprayer.ImplementDDOPObjectIDs.LiquidProduct pool);
    try (rewrite Hrun; reflexivity).
  destruct Hnull as [H | [H | [H | H]]]; discriminate H.
Qed.

(** The sensor clients on a fresh pool: the first one wires its main
    element; the second one finds no sensor element and skips its whole
    wiring, the main element's references included. *)
Lemma sensor_builders_on_fresh_pool (clientName : Z) :
  (exists pool,
     outcome (Tag.create_ddop (T := iso11783) (C := iso_pool_constants)
                (OP := arena_pool) (Some []) clientName) = Ok (true, Some pool) /\
     children <$> (snd <$> pool !! 1) = Some [5; 21; 10; 20]%Z) /\
  (exists pool,
     outcome (Tag2.create_ddop (T := iso11783) (C := iso_pool_constants)
                (OP := arena_pool) (Some []) clientName) = Ok (true, Some pool) /\
     children <$> (snd <$> pool !! 1) = Some []).
Proof. split; eexists; split; vm_compute; reflexivity. Qed.


(** ** The polling loops of the sensor clients *)

Lemma tag2_round_observes (lastAuth a : Z) :
  Tag2.main_loop_round lastAuth a
  = (a, if (a =? lastAuth)%Z then [] else [(Tag2.ELEMENT_NUMBER, Tag2.DDI_AUTH_RESULT)]).
Proof.
  unfold Tag2.main_loop_round.
  destruct (Z.eqb_spec a lastAuth) as [-> | Hne]; reflexivity.
Qed.


Lemma tag2_main_loop_count (polls : list Z) :
  forall lastAuth : Z,
    length (Tag2.main_loop polls lastAuth) = length polls /\
    notifications (Tag2.main_loop polls lastAuth) = transitions lastAuth polls.
Proof.
  unfold notifications.
  induction polls as [| p polls IH]; intros lastAuth; [split; reflexivity |].
  cbn [Tag2.main_loop]. rewrite tag2_round_observes.
  destruct (IH p) as [Hlen Hcount].
  cbn [length concat transitions]. rewrite length_app, Hlen, Hcount.
  split; [reflexivity |].
  destruct (p =? lastAuth)%Z; reflexivity.
Qed.

Lemma tag_round_observes (current_work_state lastAuth : Z) (toggle_due : bool) (a : Z) :
  exists state,
    Tag.main_loop_round current_work_state lastAuth toggle_due a
    = (state, a,
       if (a =? lastAuth)%Z then [] else [(Tag.MAIN_DEVICE_ELEMENT, Tag.DDI_AUTH_RESULT)]).
Proof.
  unfold Tag.main_loop_round.
  destruct (Z.eqb_spec a lastAuth) as [-> | Hne]; eexists; reflexivity.
Qed.

(** The first sensor client notifies like the second, whatever its work
    state toggle does. *)
Lemma tag_main_loop_as_tag2 (polls : list (bool * Z)) :
  forall current_work_state lastAuth : Z,
    Tag.main_loop polls current_work_state lastAuth
    = Tag2.main_loop (map snd polls) lastAuth.
Proof.
  induction polls as [| [toggle_due a] polls IH]; intros current_work_state lastAuth;
    [reflexivity |].
  cbn [Tag.main_loop map snd Tag2.main_loop].
  destruct (tag_round_observes current_work_state lastAuth toggle_due a) as [state ->].
  rewrite tag2_round_observes, IH. reflexivity.
Qed.

(** ** The loop of the sprayer client *)

Section SprayerLoop.
Context {T : DDITable} {C : PoolConstants}.
Context {Pool Handle : Type} {OP : ObjectPool Pool Handle}.
Variables (ActualRate clientName : Z).


(** Once the client has started, no round runs the builder and every round
    reaches its end. *)
Lemma sprayer_round_started (rateController : Sprayer.Sim) (s : Sprayer.MainState) :
  Sprayer.tcClientStarted s = true ->
  exists s',
    Sprayer.main_loop_round ActualRate clientName rateController s
    = Ok (Sprayer.Sleeps s' [(0, 65432)]%Z) /\
    Sprayer.tcClientStarted s' = true.
Proof.
  intros Hstarted. unfold Sprayer.main_loop_round. rewrite Hstarted.
  cbn [negb bind fst snd]. eexists. split; reflexivity.
Qed.


Lemma sprayer_loop_started_rounds (rounds : nat) :
  forall (rateController : Sprayer.Sim) (s : Sprayer.MainState),
    Sprayer.tcClientStarted s = true ->
    length (fst (Sprayer.main_loop ActualRate clientName rounds rateController s))
    = rounds.
Proof.
  induction rounds as [| rounds IH]; intros rateController s Hstarted; [reflexivity |].
  cbn [Sprayer.main_loop].
  destruct (sprayer_round_started rateController s Hstarted) as (s' & -> & Hstarted').
  cbn [fst length]. rewrite (IH rateController s' Hstarted'). reflexivity.
Qed.

End SprayerLoop.



(** ** The reads of the sensor clients *)

(** The first sensor client reports its stored work-state flag, which its
    loop toggles on a timer; the second one answers 0 for every element but
    its own and for every index but the proprietary one. *)
Lemma sensor_reads {T : DDITable} (HT : distinct_labels T) :
  (forall g elementNumber value,
     Tag.request_value_command_callback g elementNumber (code ActualWorkState) value
     = (Tag.current_work_state g, true)) /\
  (forall g elementNumber value,
     Tag.request_value_command_callback g elementNumber Tag.DDI_AUTH_RESULT value
     = (Nmea.gnss_auth_status (Tag.gnss g), true)) /\
  (forall g elementNumber DDI value,
     elementNumber <> Tag2.ELEMENT_NUMBER ->
     Tag2.request_value_command_callback g elementNumber DDI value = (0%Z, true)) /\
  (forall g value,
     Tag2.request_value_command_callback g Tag2.ELEMENT_NUMBER Tag2.DDI_AUTH_RESULT value
     = (Nmea.gnss_auth_status g, true)).
Proof.
  split; [| split; [| split]].
  - intros g elementNumber value.
    unfold Tag.request_value_command_callback, Tag.DDI_AUTH_RESULT.
    switch_on HT. reflexivity.
  - intros g elementNumber value.
    unfold Tag.request_value_command_callback, Tag.DDI_AUTH_RESULT.
    destruct HT as [_ Hc].
    destruct (Z.eqb_spec 65432 (code RequestDefaultProcessData)) as [Heq | _];
      [exfalso; exact (Hc _ (eq_sym Heq)) | reflexivity].
  - intros g elementNumber DDI value Hother.
    unfold Tag2.request_value_command_callback.
    apply Z.eqb_neq in Hother. rewrite Hother. reflexivity.
  - intros g value. reflexivity.
Qed.


(* ================================================================== *)
(** * Further properties of the simulator *)

(** ** Reads look at the setpoints, the switches, the mode and the rate *)

Lemma count_sections_on_ext (a b : Sprayer.Sim) :
  (forall i, Sprayer.get_section_actual_state a i = Sprayer.get_section_actual_state b i) ->
  forall todo i count,
    Sprayer.count_sections_on a todo i count = Sprayer.count_sections_on b todo i count.
Proof.
  intros Hsame. induction todo as [| todo IH]; intros i count; [reflexivity |].
  cbn [Sprayer.count_sections_on]. rewrite Hsame.
  destruct (Sprayer.get_section_actual_state b i) as [s | e |]; cbn [bind];
    [apply IH | reflexivity | reflexivity].
Qed.

Lemma pack_condensed_ext (get get' : nat -> result bool) (n : nat) :
  (forall i, get i = get' i) ->
  forall todo i value,
    Sprayer.pack_condensed get n todo i value = Sprayer.pack_condensed get' n todo i value.
Proof.
  intros Hsame. induction todo as [| todo IH]; intros i value; [reflexivity |].
  cbn [Sprayer.pack_condensed]. destruct (i <? n); [| apply IH].
  rewrite Hsame. destruct (get' i) as [s | e |]; cbn [bind];
    [apply IH | reflexivity | reflexivity].
Qed.

Lemma actual_reads_ext (a b : Sprayer.Sim) :
  (forall i, Sprayer.get_section_actual_state a i = Sprayer.get_section_actual_state b i) ->
  Sprayer.get_number_of_sections a = Sprayer.get_number_of_sections b ->
  Sprayer.targetRate a = Sprayer.targetRate b ->
  Sprayer.get_actual_number_of_sections_on a = Sprayer.get_actual_number_of_sections_on b /\
  Sprayer.get_actual_rate a = Sprayer.get_actual_rate b /\
  Sprayer.pack_condensed (Sprayer.get_section_actual_state a)
    (Sprayer.get_number_of_sections a) Sprayer.NUMBER_SECTIONS_PER_CONDENSED_MESSAGE 0 0
  = Sprayer.pack_condensed (Sprayer.get_section_actual_state b)
      (Sprayer.get_number_of_sections b) Sprayer.NUMBER_SECTIONS_PER_CONDENSED_MESSAGE 0 0.
Proof.
  intros Hsame Hn Hrate.
  assert (Hcount : Sprayer.get_actual_number_of_sections_on a
                   = Sprayer.get_actual_number_of_sections_on b).
  { unfold Sprayer.get_actual_number_of_sections_on. rewrite Hn.
    apply count_sections_on_ext, Hsame. }
  split; [exact Hcount |]. split.
  - unfold Sprayer.get_actual_rate. rewrite Hcount, Hrate. reflexivity.
  - rewrite Hn. apply pack_condensed_ext, Hsame.
Qed.

(** Two simulators that agree on everything a read looks at answer every
    request alike. *)
Lemma request_value_ext {T : DDITable} (a b : Sprayer.Sim) :
  Sprayer.sectionSetpointStates a = Sprayer.sectionSetpointStates b ->
  Sprayer.sectionSwitchStates a = Sprayer.sectionSwitchStates b ->
  Sprayer.isAutoMode a = Sprayer.isAutoMode b ->
  Sprayer.targetRate a = Sprayer.targetRate b ->
  forall auth_status elementNumber DDI value,
    Sprayer.request_value_command_callback auth_status elementNumber DDI value (Some a)
    = Sprayer.request_value_command_callback auth_status elementNumber DDI value (Some b).
Proof.
  intros Hset Hsw Hmode Hrate auth_status elementNumber DDI value.
  assert (Hactual : forall i, Sprayer.get_section_actual_state a i
                              = Sprayer.get_section_actual_state b i).
  { intros i. unfold Sprayer.get_section_actual_state. rewrite Hset, Hsw, Hmode.
    reflexivity. }
  assert (Hn : Sprayer.get_number_of_sections a = Sprayer.get_number_of_sections b).
  { unfold Sprayer.get_number_of_sections. rewrite Hset. reflexivity. }
  destruct (actual_reads_ext a b Hactual Hn Hrate) as (Hcount & Hactual_rate & Hpack).
  unfold Sprayer.request_value_command_callback.
  rewrite Hcount, Hactual_rate, Hpack.
  unfold Sprayer.get_section_control_state, Sprayer.get_prescription_control_state,
    Sprayer.get_is_mode_auto, Sprayer.get_target_rate.
  rewrite Hmode, Hrate, Hn.
  rewrite (pack_condensed_ext (Sprayer.get_section_setpoint_state a)
             (Sprayer.get_section_setpoint_state b))
    by (intros i; unfold Sprayer.get_section_setpoint_state; rewrite Hset; reflexivity).
  reflexivity.
Qed.

(** ** Packing on well-formed states *)

Lemma pack_setpoints_wf (sim : Sprayer.Sim) :
  wf sim ->
  exists w,
    Sprayer.pack_condensed (Sprayer.get_section_setpoint_state sim)
      (Sprayer.get_number_of_sections sim)
      Sprayer.NUMBER_SECTIONS_PER_CONDENSED_MESSAGE 0 0 = Ok w /\
    in_int32 w /\
    forall j, j < 16 -> field w j = expected_field (Sprayer.sectionSetpointStates sim) j.
Proof.
  intros (_ & Hsmall & _).
  destruct (pack_condensed_fields (Sprayer.get_section_setpoint_state sim)
              (Sprayer.sectionSetpointStates sim)) with (todo := 16) (i := 0) (u := 0%Z)
    as (w & Hw & Hrange & Hfields).
  { intros j b Hb. unfold Sprayer.get_section_setpoint_state, at_get.
    rewrite Hb. reflexivity. }
  { reflexivity. }
  { simpl. lia. }
  { intros j Hj. lia. }
  exists w. split; [| split; assumption].
  rewrite number_of_sections_small by exact Hsmall.
  unfold Sprayer.NUMBER_SECTIONS_PER_CONDENSED_MESSAGE.
  rewrite <- (to_int32_small 0) by (unfold in_int32; lia).
  exact Hw.
Qed.

Lemma pack_actual_wf (sim : Sprayer.Sim) :
  wf sim ->
  exists w,
    Sprayer.pack_condensed (Sprayer.get_section_actual_state sim)
      (Sprayer.get_number_of_sections sim)
      Sprayer.NUMBER_SECTIONS_PER_CONDENSED_MESSAGE 0 0 = Ok w /\
    in_int32 w /\
    forall j, j < 16 -> field w j = expected_field (actual_states sim) j.
Proof.
  intros Hwf. pose proof (actual_states_length sim Hwf) as Hlen.
  destruct Hwf as (_ & Hsmall & _).
  destruct (pack_condensed_fields (Sprayer.get_section_actual_state sim)
              (actual_states sim)) with (todo := 16) (i := 0) (u := 0%Z)
    as (w & Hw & Hrange & Hfields).
  { intros j b Hb. rewrite actual_state_at. unfold at_get. rewrite Hb. reflexivity. }
  { reflexivity. }
  { simpl. lia. }
  { intros j Hj. lia. }
  exists w. split; [| split; assumption].
  rewrite number_of_sections_small by exact Hsmall.
  unfold Sprayer.NUMBER_SECTIONS_PER_CONDENSED_MESSAGE.
  rewrite <- Hlen.
  rewrite <- (to_int32_small 0) by (unfold in_int32; lia).
  exact Hw.
Qed.

(** ** The switch states *)

(** X1 -- the operator's switches.  Setting the switch of a section the
    simulator has returns, and the switch then reads back as set; every other
    switch, every setpoint, the number of sections, the mode, the target rate
    and the work-state setpoint are as before.  For an index the vectors do
    not have, the setter and both getters throw [std::out_of_range]. *)
Theorem switch_state_set_get (sim : Sprayer.Sim) (index : nat) (value : bool) :
  (index < length (Sprayer.sectionSwitchStates sim) ->
   exists sim',
     Sprayer.set_section_switch_state sim index value = Ok sim' /\
     Sprayer.get_section_switch_state sim' index = Ok value /\
     (forall j, j <> index ->
        Sprayer.get_section_switch_state sim' j = Sprayer.get_section_switch_state sim j) /\
     (forall j, Sprayer.get_section_setpoint_state sim' j
                = Sprayer.get_section_setpoint_state sim j) /\
     Sprayer.get_number_of_sections sim' = Sprayer.get_number_of_sections sim /\
     Sprayer.get_is_mode_auto sim' = Sprayer.get_is_mode_auto sim /\
     Sprayer.get_target_rate sim' = Sprayer.get_target_rate sim /\
     Sprayer.get_setpoint_work_state sim' = Sprayer.get_setpoint_work_state sim) /\
  (length (Sprayer.sectionSwitchStates sim) <= index ->
   Sprayer.set_section_switch_state sim index value = Throw std_out_of_range /\
   Sprayer.get_section_switch_state sim index = Throw std_out_of_range) /\
  (length (Sprayer.sectionSetpointStates sim) <= index ->
   Sprayer.get_section_setpoint_state sim index = Throw std_out_of_range).
Proof.
  split; [| split].
  - intros Hin.
    exists (Sprayer.with_switches sim (<[index := value]> (Sprayer.sectionSwitchStates sim))).
    split.
    { unfold Sprayer.set_section_switch_state, at_put.
      destruct (Nat.ltb_spec index (length (Sprayer.sectionSwitchStates sim)));
        [reflexivity | lia]. }
    split.
    { unfold Sprayer.get_section_switch_state, at_get. cbn [Sprayer.with_switches
        Sprayer.sectionSwitchStates].
      rewrite list_lookup_insert_eq by exact Hin. reflexivity. }
    split.
    { intros j Hj. unfold Sprayer.get_section_switch_state, at_get.
      cbn [Sprayer.with_switches Sprayer.sectionSwitchStates].
      rewrite list_lookup_insert_ne by (intros Heq; apply Hj; symmetry; exact Heq).
      reflexivity. }
    repeat split; reflexivity.
  - intros Hout. split.
    + unfold Sprayer.set_section_switch_state, at_put.
      destruct (Nat.ltb_spec index (length (Sprayer.sectionSwitchStates sim)));
        [lia | reflexivity].
    + unfold Sprayer.get_section_switch_state, at_get.
      rewrite lookup_ge_None_2 by exact Hout. reflexivity.
  - intros Hout. unfold Sprayer.get_section_setpoint_state, at_get.
    rewrite lookup_ge_None_2 by exact Hout. reflexivity.
Qed.

(** ** The invariant of the simulator *)

(** X2 -- what the constructor establishes and every operation keeps.  A new
    simulator has as many sections as the 8-bit count it was given, both
    vectors all false, the automatic mode and a zero count of sections on;
    its two vectors are of the same length and its rate is a 32-bit unsigned
    number.
    Every write of the task controller, every switch change and every mode
    change lead from such a state to such a state with the same number of
    sections. *)
Theorem simulator_invariant {T : DDITable} :
  (forall numberOfSections,
     let sim := Sprayer.new_simulator numberOfSections in
     wf sim /\
     Sprayer.get_number_of_sections sim = Z.to_nat (numberOfSections mod 256) /\
     (forall i, i < Sprayer.get_number_of_sections sim ->
        Sprayer.get_section_setpoint_state sim i = Ok false /\
        Sprayer.get_section_switch_state sim i = Ok false /\
        Sprayer.get_section_actual_state sim i = Ok false) /\
     Sprayer.get_is_mode_auto sim = true /\
     Sprayer.get_actual_number_of_sections_on sim = Ok 0%Z) /\
  (forall sim, wf sim ->
     (forall elementNumber DDI processVariableValue,
        exists sim',
          Sprayer.value_command_callback elementNumber DDI processVariableValue (Some sim)
          = Ok (Some sim', true) /\
          wf sim' /\
          Sprayer.get_number_of_sections sim' = Sprayer.get_number_of_sections sim) /\
     (forall index value sim',
        Sprayer.set_section_switch_state sim index value = Ok sim' ->
        wf sim' /\
        Sprayer.get_number_of_sections sim' = Sprayer.get_number_of_sections sim) /\
     (forall isAuto,
        wf (Sprayer.set_is_mode_auto sim isAuto) /\
        Sprayer.get_number_of_sections (Sprayer.set_is_mode_auto sim isAuto)
        = Sprayer.get_number_of_sections sim)).
Proof.
  split.
  - intros numberOfSections sim.
    pose proof (wf_new_simulator numberOfSections) as Hwf. fold sim in Hwf.
    assert (Hn : Sprayer.get_number_of_sections sim = Z.to_nat (numberOfSections mod 256)).
    { rewrite number_of_sections_small by apply Hwf.
      subst sim. unfold Sprayer.new_simulator. cbn [Sprayer.sectionSetpointStates].
      rewrite length_replicate. reflexivity. }
    split; [exact Hwf |]. split; [exact Hn |]. split; [| split; [reflexivity |]].
    + intros i Hi. rewrite Hn in Hi.
      assert (Hat : at_get (replicate (Z.to_nat (to_uint8 numberOfSections)) false) i
                    = Ok false).
      { unfold at_get. rewrite lookup_replicate_2 by exact Hi. reflexivity. }
      repeat split; exact Hat.
    + rewrite number_of_sections_on_spec by exact Hwf.
      unfold actual_sections_on, actual_states. subst sim.
      cbn [Sprayer.new_simulator Sprayer.isAutoMode Sprayer.sectionSetpointStates].
      generalize (Z.to_nat (to_uint8 numberOfSections)) as n.
      induction n as [| n IH]; [reflexivity | exact IH].
  - intros sim Hwf. split; [| split].
    + intros elementNumber DDI processVariableValue.
      destruct (value_command_callback_returns elementNumber DDI processVariableValue sim)
        as [sim' Hrun].
      exists sim'. split; [exact Hrun |].
      pose proof (value_command_callback_wf _ _ _ _ _ _ Hwf Hrun) as Hwf'.
      split; [exact Hwf' |].
      rewrite !number_of_sections_small by (apply Hwf || apply Hwf').
      revert Hrun. unfold Sprayer.value_command_callback.
      destruct (DDI =? code SetpointCondensedWorkState1_16)%Z.
      { destruct (unpack_condensed_spec processVariableValue
                    Sprayer.NUMBER_SECTIONS_PER_CONDENSED_MESSAGE 0 sim)
          as (sim'' & Hunpack & (_ & _ & _ & _ & Hlen) & _).
        rewrite Hunpack. cbn [bind]. intros [= <-]. exact Hlen. }
      destruct (DDI =? code SetpointVolumePerAreaApplicationRate)%Z;
        [intros [= <-]; reflexivity |].
      destruct (DDI =? code SetpointWorkState)%Z; [intros [= <-]; reflexivity |].
      destruct ((DDI =? code PrescriptionControlState) || (DDI =? code SectionControlState))%Z;
        intros [= <-]; reflexivity.
    + intros index value sim' Hset.
      split; [exact (set_section_switch_state_wf _ _ _ _ Hwf Hset) |].
      revert Hset. unfold Sprayer.set_section_switch_state, at_put.
      destruct (index <? length (Sprayer.sectionSwitchStates sim)); [| discriminate].
      cbn [bind]. intros [= <-]. reflexivity.
    + intros isAuto. split; [exact Hwf | reflexivity].
Qed.

(** ** Requests *)

(** X3 -- a request never fails.  In every well-formed state and for every
    data description index, known or not, the request callback returns true
    and hands back a value an [std::int32_t] holds: none of its vector
    accesses leaves the vectors.  Without a simulator behind the parent
    pointer it returns true and leaves the caller's value alone. *)
Theorem request_value_never_fails {T : DDITable}
    (auth_status elementNumber DDI value0 : Z) (sim : Sprayer.Sim) :
  wf sim ->
  (exists value,
     Sprayer.request_value_command_callback auth_status elementNumber DDI value0 (Some sim)
     = Ok (value, true) /\ in_int32 value) /\
  Sprayer.request_value_command_callback auth_status elementNumber DDI value0 None
  = Ok (value0, true).
Proof.
  intros Hwf. split; [| reflexivity].
  assert (Hconst : forall v, (0 <= v <= 4000000)%Z -> in_int32 v)
    by (intros v Hv; unfold in_int32; lia).
  unfold Sprayer.request_value_command_callback.
  destruct (DDI =? code MaximumVolumeContent)%Z;
    [eexists; split; [reflexivity | apply Hconst; lia] |].
  destruct (DDI =? code ActualVolumeContent)%Z;
    [eexists; split; [reflexivity | apply Hconst; lia] |].
  destruct (DDI =? code SectionControlState)%Z;
    [eexists; split; [reflexivity | apply to_int32_range] |].
  destruct (DDI =? code PrescriptionControlState)%Z;
    [eexists; split; [reflexivity | apply to_int32_range] |].
  destruct (DDI =? code ActualCondensedWorkState1_16)%Z.
  { destruct (pack_actual_wf sim Hwf) as (w & -> & Hrange & _).
    exists w. split; [reflexivity | exact Hrange]. }
  destruct (DDI =? code ActualVolumePerAreaApplicationRate)%Z.
  { unfold Sprayer.get_actual_rate.
    rewrite number_of_sections_on_spec by exact Hwf. cbn [bind].
    eexists; split; [reflexivity | apply to_int32_range]. }
  destruct (DDI =? code ActualWorkState)%Z.
  { rewrite number_of_sections_on_spec by exact Hwf. cbn [bind].
    eexists; split; [reflexivity |].
    destruct (0 <? Z.of_nat (actual_sections_on sim))%Z; apply Hconst; lia. }
  destruct ((DDI =? code DeviceElementOffsetX) || (DDI =? code DeviceElementOffsetY)
            || (DDI =? code RequestDefaultProcessData))%Z;
    [eexists; split; [reflexivity | apply Hconst; lia] |].
  destruct (DDI =? code ActualWorkingWidth)%Z;
    [eexists; split; [reflexivity | apply Hconst; unfold Sprayer.BOOM_WIDTH; lia] |].
  destruct (DDI =? code SetpointCondensedWorkState1_16)%Z.
  { destruct (pack_setpoints_wf sim Hwf) as (w & -> & Hrange & _).
    exists w. split; [reflexivity | exact Hrange]. }
  destruct (DDI =? code SetpointVolumePerAreaApplicationRate)%Z;
    [eexists; split; [reflexivity | apply to_int32_range] |].
  destruct (DDI =? 65432)%Z;
    [eexists; split; [reflexivity | apply to_int32_range] |].
  eexists; split; [reflexivity | apply Hconst; lia].
Qed.

Lemma wf_six_sections : wf six_sections.
Proof. unfold wf. simpl. lia. Qed.

Lemma request_value_never_fails_witness :
  wf six_sections /\
  (exists value,
     Sprayer.request_value_command_callback (T := iso11783) 0 1 161 77 (Some six_sections)
     = Ok (value, true) /\ in_int32 value) /\
  Sprayer.request_value_command_callback (T := iso11783) 0 1 161 77 None = Ok (77%Z, true).
Proof.
  split; [exact wf_six_sections |].
  exact (request_value_never_fails (T := iso11783) 0 1 161 77 six_sections wf_six_sections).
Defined.

(** X4 -- the Actual Condensed Work State read.  In every well-formed state
    the read returns a 32-bit word whose two-bit field is [01] or [00] for
    each of the first sixteen sections, after its actual state, and [11] for
    every index up to 15 the simulator has no section for; in automatic mode
    it is the word the Setpoint Condensed Work State read returns. *)
Theorem actual_condensed_read {T : DDITable} (HT : distinct_labels T)
    (auth_status elementNumber value0 : Z) (sim : Sprayer.Sim) :
  wf sim ->
  exists w,
    Sprayer.request_value_command_callback auth_status elementNumber
      (code ActualCondensedWorkState1_16) value0 (Some sim) = Ok (w, true) /\
    in_int32 w /\
    (forall i b, i < 16 -> Sprayer.get_section_actual_state sim i = Ok b ->
       field w i = Z_of_bool b) /\
    (forall i, Sprayer.get_number_of_sections sim <= i -> i < 16 -> field w i = 3%Z) /\
    (Sprayer.get_is_mode_auto sim = true ->
     Sprayer.request_value_command_callback auth_status elementNumber
       (code SetpointCondensedWorkState1_16) value0 (Some sim) = Ok (w, true)).
Proof.
  intros Hwf.
  destruct (pack_actual_wf sim Hwf) as (w & Hw & Hrange & Hfields).
  pose proof (actual_states_length sim Hwf) as Hlen.
  assert (Hn : Sprayer.get_number_of_sections sim = length (actual_states sim)).
  { rewrite number_of_sections_small by apply Hwf. symmetry. exact Hlen. }
  exists w. split; [| split; [exact Hrange | split; [| split]]].
  - unfold Sprayer.request_value_command_callback. switch_on HT.
    rewrite Hw. reflexivity.
  - intros i b Hi Hb. rewrite (Hfields i Hi). unfold expected_field.
    rewrite actual_state_at in Hb. unfold at_get in Hb.
    destruct (actual_states sim !! i) as [b' |]; [| discriminate].
    injection Hb as ->. reflexivity.
  - intros i Hge Hi. rewrite (Hfields i Hi). unfold expected_field.
    rewrite lookup_ge_None_2 by lia. reflexivity.
  - intros Hauto. unfold Sprayer.get_is_mode_auto in Hauto.
    unfold Sprayer.request_value_command_callback. switch_on HT.
    rewrite (pack_condensed_ext (Sprayer.get_section_setpoint_state sim)
               (Sprayer.get_section_actual_state sim)).
    + rewrite Hw. reflexivity.
    + intros i. unfold Sprayer.get_section_actual_state, Sprayer.get_section_setpoint_state.
      rewrite Hauto. reflexivity.
Qed.

Lemma actual_condensed_read_witness :
  distinct_labels iso11783 /\ wf six_sections /\
  exists w,
    Sprayer.request_value_command_callback (T := iso11783) 0 1 161 0 (Some six_sections)
    = Ok (w, true) /\
    field w 0 = 1%Z /\ field w 1 = 0%Z /\ field w 2 = 1%Z /\ field w 6 = 3%Z.
Proof.
  split; [exact iso11783_distinct |]. split; [exact wf_six_sections |].
  destruct (actual_condensed_read iso11783_distinct 0 1 0 six_sections wf_six_sections)
    as (w & Hrun & _ & Hon & Hnone & _).
  exists w. split; [exact Hrun |].
  split; [exact (Hon 0 true ltac:(lia) eq_refl) |].
  split; [exact (Hon 1 false ltac:(lia) eq_refl) |].
  split; [exact (Hon 2 true ltac:(lia) eq_refl) |].
  apply (Hnone 6); [vm_compute; lia | lia].
Defined.

(** ** Writes and what reads make of them *)

(** X5 -- the two control-state indices are one flag.  A read of the Section
    Control State or of the Prescription Control State returns 1 in
    automatic and 0 in manual mode; after a write to either index, a read of
    either returns 1 for a nonzero payload and 0 for a zero payload. *)
Theorem control_state_round_trip {T : DDITable} (HT : distinct_labels T)
    (auth_status elementNumber value0 : Z) (sim : Sprayer.Sim) (written read : Z) :
  written = code SectionControlState \/ written = code PrescriptionControlState ->
  read = code SectionControlState \/ read = code PrescriptionControlState ->
  Sprayer.request_value_command_callback auth_status elementNumber read value0 (Some sim)
  = Ok (if Sprayer.get_is_mode_auto sim then 1%Z else 0%Z, true) /\
  forall processVariableValue,
  exists sim',
    Sprayer.value_command_callback elementNumber written processVariableValue (Some sim)
    = Ok (Some sim', true) /\
    Sprayer.request_value_command_callback auth_status elementNumber read value0 (Some sim')
    = Ok (if (processVariableValue =? 0)%Z then 0%Z else 1%Z, true).
Proof.
  intros Hwritten Hread.
  assert (Hget : forall s,
            Sprayer.request_value_command_callback auth_status elementNumber read value0
              (Some s)
            = Ok (if Sprayer.get_is_mode_auto s then 1%Z else 0%Z, true)).
  { intros s. unfold Sprayer.request_value_command_callback.
    destruct Hread as [-> | ->]; switch_on HT;
      unfold Sprayer.get_section_control_state, Sprayer.get_prescription_control_state;
      destruct (Sprayer.get_is_mode_auto s); reflexivity. }
  split; [apply Hget |].
  intros processVariableValue.
  exists (Sprayer.set_is_mode_auto sim (negb (processVariableValue =? 0)%Z)).
  split.
  - unfold Sprayer.value_command_callback.
    destruct Hwritten as [-> | ->]; switch_on HT; reflexivity.
  - rewrite Hget. unfold Sprayer.get_is_mode_auto, Sprayer.set_is_mode_auto.
    cbn [Sprayer.isAutoMode]. destruct (processVariableValue =? 0)%Z; reflexivity.
Qed.

Lemma control_state_round_trip_witness :
  distinct_labels iso11783 /\
  Sprayer.request_value_command_callback (T := iso11783) 0 1 158 0 (Some six_sections)
  = Ok (1%Z, true) /\
  exists sim',
    Sprayer.value_command_callback (T := iso11783) 1 160 0 (Some six_sections)
    = Ok (Some sim', true) /\
    Sprayer.request_value_command_callback (T := iso11783) 0 1 158 0 (Some sim')
    = Ok (0%Z, true).
Proof.
  split; [exact iso11783_distinct |].
  pose proof (control_state_round_trip iso11783_distinct 0 1 0 six_sections 160 158
                (or_introl eq_refl) (or_intror eq_refl)) as [Hread Hwrite].
  split; [exact Hread | exact (Hwrite 0%Z)].
Defined.

(** X6 -- the target rate.  A write of any 32-bit payload to the Setpoint
    Volume Per Area Application Rate index is stored as the 32-bit unsigned
    number with the same bits, changes nothing else, and reads back as the
    payload written, a negative one included; the actual-rate read then
    returns that payload while a section is on and 0 otherwise. *)
Theorem target_rate_round_trip {T : DDITable} (HT : distinct_labels T)
    (auth_status elementNumber value0 processVariableValue : Z) (sim : Sprayer.Sim) :
  in_int32 processVariableValue ->
  exists sim',
    Sprayer.value_command_callback elementNumber
      (code SetpointVolumePerAreaApplicationRate) processVariableValue (Some sim)
    = Ok (Some sim', true) /\
    Sprayer.get_target_rate sim' = (processVariableValue mod 2 ^ 32)%Z /\
    Sprayer.sectionSetpointStates sim' = Sprayer.sectionSetpointStates sim /\
    Sprayer.sectionSwitchStates sim' = Sprayer.sectionSwitchStates sim /\
    Sprayer.get_is_mode_auto sim' = Sprayer.get_is_mode_auto sim /\
    Sprayer.get_setpoint_work_state sim' = Sprayer.get_setpoint_work_state sim /\
    Sprayer.request_value_command_callback auth_status elementNumber
      (code SetpointVolumePerAreaApplicationRate) value0 (Some sim')
    = Ok (processVariableValue, true) /\
    (wf sim ->
     Sprayer.request_value_command_callback auth_status elementNumber
       (code ActualVolumePerAreaApplicationRate) value0 (Some sim')
     = Ok (if 0 <? actual_sections_on sim then processVariableValue else 0%Z, true)).
Proof.
  intros Hpv.
  assert (Hback : to_int32 (to_uint32 processVariableValue) = processVariableValue).
  { unfold in_int32 in Hpv. unfold to_int32, to_uint32.
    rewrite Zplus_mod_idemp_l.
    rewrite Z.mod_small by lia. lia. }
  exists (Sprayer.with_target_rate sim (to_uint32 processVariableValue)).
  split; [unfold Sprayer.value_command_callback; switch_on HT; reflexivity |].
  repeat (split; [reflexivity |]).
  split.
  - unfold Sprayer.request_value_command_callback. switch_on HT.
    unfold Sprayer.get_target_rate, Sprayer.with_target_rate. cbn [Sprayer.targetRate].
    rewrite Hback. reflexivity.
  - intros Hwf.
    assert (Hwf' : wf (Sprayer.with_target_rate sim (to_uint32 processVariableValue))).
    { destruct Hwf as (H1 & H2 & _). unfold wf, Sprayer.with_target_rate.
      cbn [Sprayer.sectionSwitchStates Sprayer.sectionSetpointStates Sprayer.targetRate].
      split; [exact H1 |]. split; [exact H2 |].
      unfold to_uint32. apply Z.mod_pos_bound. lia. }
    unfold Sprayer.request_value_command_callback. switch_on HT.
    unfold Sprayer.get_actual_rate.
    rewrite number_of_sections_on_spec by exact Hwf'. cbn [bind].
    replace (actual_sections_on (Sprayer.with_target_rate sim (to_uint32 processVariableValue)))
      with (actual_sections_on sim) by reflexivity.
    unfold Sprayer.with_target_rate. cbn [Sprayer.targetRate].
    destruct (actual_sections_on sim) as [| n]; cbn [Nat.ltb Nat.leb].
    + change (0 <? Z.of_nat 0)%Z with false. cbv iota.
      rewrite Z.mul_0_r. reflexivity.
    + replace (0 <? Z.of_nat (S n))%Z with true by (symmetry; apply Z.ltb_lt; lia).
      cbv iota. rewrite Z.mul_1_r.
      replace (to_uint32 (to_uint32 processVariableValue))
        with (to_uint32 processVariableValue)
        by (unfold to_uint32; rewrite Z.mod_mod by lia; reflexivity).
      rewrite Hback. reflexivity.
Qed.

Lemma target_rate_round_trip_witness :
  distinct_labels iso11783 /\ in_int32 (-1) /\
  exists sim',
    Sprayer.value_command_callback (T := iso11783) 1 1 (-1) (Some six_sections)
    = Ok (Some sim', true) /\
    Sprayer.get_target_rate sim' = 4294967295%Z /\
    Sprayer.request_value_command_callback (T := iso11783) 0 1 1 0 (Some sim')
    = Ok ((-1)%Z, true).
Proof.
  split; [exact iso11783_distinct |].
  split; [unfold in_int32; lia |].
  destruct (target_rate_round_trip iso11783_distinct 0 1 0 (-1) six_sections
              ltac:(unfold in_int32; lia))
    as (sim' & Hrun & Hrate & _ & _ & _ & _ & Hread & _).
  exists sim'. split; [exact Hrun |]. split; [exact Hrate | exact Hread].
Defined.

(** X7 -- what a write can touch.  Every write of the task controller
    returns true; none changes a switch state or the number of sections;
    the setpoints change only under the Setpoint Condensed Work State index,
    the target rate only under the Setpoint Volume Per Area Application Rate
    index, the work-state setpoint only under the Setpoint Work State index;
    a write to any index but these three and the two control states leaves
    the simulator exactly as it was.  Without a simulator behind the parent
    pointer the callback returns true and does nothing. *)
Theorem value_command_frame {T : DDITable}
    (elementNumber DDI processVariableValue : Z) (sim : Sprayer.Sim) :
  (exists sim',
     Sprayer.value_command_callback elementNumber DDI processVariableValue (Some sim)
     = Ok (Some sim', true) /\
     Sprayer.sectionSwitchStates sim' = Sprayer.sectionSwitchStates sim /\
     length (Sprayer.sectionSetpointStates sim')
     = length (Sprayer.sectionSetpointStates sim) /\
     (DDI <> code SetpointCondensedWorkState1_16 ->
      Sprayer.sectionSetpointStates sim' = Sprayer.sectionSetpointStates sim) /\
     (DDI <> code SetpointVolumePerAreaApplicationRate ->
      Sprayer.targetRate sim' = Sprayer.targetRate sim) /\
     (DDI <> code SetpointWorkState ->
      Sprayer.setpointWorkState sim' = Sprayer.setpointWorkState sim) /\
     (DDI <> code SetpointCondensedWorkState1_16 ->
      DDI <> code SetpointVolumePerAreaApplicationRate ->
      DDI <> code SetpointWorkState ->
      DDI <> code PrescriptionControlState ->
      DDI <> code SectionControlState ->
      sim' = sim)) /\
  Sprayer.value_command_callback elementNumber DDI processVariableValue None
  = Ok (None, true).
Proof.
  split; [| reflexivity].
  unfold Sprayer.value_command_callback.
  destruct (Z.eqb_spec DDI (code SetpointCondensedWorkState1_16)) as [Hc | Hc].
  { destruct (unpack_condensed_spec processVariableValue
                Sprayer.NUMBER_SECTIONS_PER_CONDENSED_MESSAGE 0 sim)
      as (sim' & -> & (Hsw & _ & Hrate & Hws & Hlen) & _).
    exists sim'. cbn [bind].
    split; [reflexivity |]. split; [exact Hsw |]. split; [exact Hlen |].
    split; [intros Hne; contradiction |]. split; [intros _; exact Hrate |].
    split; [intros _; exact Hws |]. intros Hne; contradiction. }
  destruct (Z.eqb_spec DDI (code SetpointVolumePerAreaApplicationRate)) as [Hr | Hr].
  { eexists. split; [reflexivity |].
    repeat (split; [first [reflexivity | intros; reflexivity | intros; contradiction] |]).
    intros; contradiction. }
  destruct (Z.eqb_spec DDI (code SetpointWorkState)) as [Hw | Hw].
  { eexists. split; [reflexivity |].
    repeat (split; [first [reflexivity | intros; reflexivity | intros; contradiction] |]).
    intros; contradiction. }
  destruct (Z.eqb_spec DDI (code PrescriptionControlState)) as [Hp | Hp];
    [| destruct (Z.eqb_spec DDI (code SectionControlState)) as [Hs | Hs]];
    cbn [orb]; eexists; (split; [reflexivity |]);
    repeat (split; [first [reflexivity | intros; reflexivity] |]);
    intros; first [contradiction | reflexivity].
Qed.

(** Changing nothing but the work-state setpoint changes no read. *)
Lemma request_value_ignores_setpoint_work_state {T : DDITable}
    (sim : Sprayer.Sim) (state : bool) :
  forall auth_status elementNumber DDI value,
    Sprayer.request_value_command_callback auth_status elementNumber DDI value
      (Some (Sprayer.with_setpoint_work_state sim state))
    = Sprayer.request_value_command_callback auth_status elementNumber DDI value (Some sim).
Proof. apply request_value_ext; reflexivity. Qed.

(** X8 -- the work-state setpoint is write-only.  A write to the Setpoint
    Work State index stores whether the payload is 1 (any other payload
    stores false), and [get_setpoint_work_state] returns it; but no request,
    for whatever index, answers differently after the write than before
    it: the Actual Work State read in particular does not follow the
    setpoint. *)
Theorem setpoint_work_state_is_write_only {T : DDITable} (HT : distinct_labels T)
    (elementNumber processVariableValue : Z) (sim : Sprayer.Sim) :
  exists sim',
    Sprayer.value_command_callback elementNumber (code SetpointWorkState)
      processVariableValue (Some sim) = Ok (Some sim', true) /\
    Sprayer.get_setpoint_work_state sim' = (processVariableValue =? 1)%Z /\
    forall auth_status requestedElement DDI value,
      Sprayer.request_value_command_callback auth_status requestedElement DDI value
        (Some sim')
      = Sprayer.request_value_command_callback auth_status requestedElement DDI value
          (Some sim).
Proof.
  exists (Sprayer.with_setpoint_work_state sim (1 =? processVariableValue)%Z).
  split; [unfold Sprayer.value_command_callback; switch_on HT; reflexivity |].
  split; [apply Z.eqb_sym |].
  apply request_value_ignores_setpoint_work_state.
Qed.

Lemma setpoint_work_state_is_write_only_witness :
  distinct_labels iso11783 /\
  exists sim',
    Sprayer.value_command_callback (T := iso11783) 1 289 0 (Some six_sections)
    = Ok (Some sim', true) /\
    Sprayer.get_setpoint_work_state sim' = false /\
    Sprayer.request_value_command_callback (T := iso11783) 0 1 141 0 (Some sim')
    = Ok (1%Z, true).
Proof.
  split; [exact iso11783_distinct |].
  destruct (setpoint_work_state_is_write_only iso11783_distinct 1 0 six_sections)
    as (sim' & Hrun & Hstate & Hreads).
  exists sim'. split; [exact Hrun |]. split; [exact Hstate |].
  rewrite Hreads. reflexivity.
Defined.

(** ** The mode decides which vector counts *)

Lemma actual_requests_ext {T : DDITable} (HT : distinct_labels T) (a b : Sprayer.Sim) :
  (forall i, Sprayer.get_section_actual_state a i = Sprayer.get_section_actual_state b i) ->
  Sprayer.get_number_of_sections a = Sprayer.get_number_of_sections b ->
  Sprayer.targetRate a = Sprayer.targetRate b ->
  forall auth_status elementNumber DDI value,
    DDI = code ActualCondensedWorkState1_16 \/ DDI = code ActualWorkState \/
    DDI = code ActualVolumePerAreaApplicationRate ->
    Sprayer.request_value_command_callback auth_status elementNumber DDI value (Some a)
    = Sprayer.request_value_command_callback auth_status elementNumber DDI value (Some b).
Proof.
  intros Hsame Hn Hrate auth_status elementNumber DDI value HDDI.
  destruct (actual_reads_ext a b Hsame Hn Hrate) as (Hcount & Hactual_rate & Hpack).
  unfold Sprayer.request_value_command_callback.
  destruct HDDI as [-> | [-> | ->]]; switch_on HT;
    rewrite ?Hcount, ?Hactual_rate, ?Hpack; reflexivity.
Qed.

(** X9 -- the mode keeps the two vectors apart.  In manual mode a Setpoint
    Condensed Work State write changes no actual state: every section's
    actual state, the count of sections on, the actual rate and the three
    requests that report them (Actual Condensed Work State, Actual Work
    State, actual application rate) answer as before the write, while a
    switch that is set is the section's actual state at once.  In automatic
    mode it is the switches that have no effect on them. *)
Theorem mode_isolates_actual_states {T : DDITable} (HT : distinct_labels T)
    (sim : Sprayer.Sim) :
  let actual_requests DDI :=
    DDI = code ActualCondensedWorkState1_16 \/ DDI = code ActualWorkState \/
    DDI = code ActualVolumePerAreaApplicationRate in
  (Sprayer.get_is_mode_auto sim = false ->
   (forall elementNumber processVariableValue,
    exists sim',
      Sprayer.value_command_callback elementNumber (code SetpointCondensedWorkState1_16)
        processVariableValue (Some sim) = Ok (Some sim', true) /\
      (forall i, Sprayer.get_section_actual_state sim' i
                 = Sprayer.get_section_actual_state sim i) /\
      Sprayer.get_actual_number_of_sections_on sim'
      = Sprayer.get_actual_number_of_sections_on sim /\
      Sprayer.get_actual_rate sim' = Sprayer.get_actual_rate sim /\
      (forall auth_status requestedElement DDI value, actual_requests DDI ->
         Sprayer.request_value_command_callback auth_status requestedElement DDI value
           (Some sim')
         = Sprayer.request_value_command_callback auth_status requestedElement DDI value
             (Some sim))) /\
   (forall index value sim',
      Sprayer.set_section_switch_state sim index value = Ok sim' ->
      Sprayer.get_section_actual_state sim' index = Ok value)) /\
  (Sprayer.get_is_mode_auto sim = true ->
   forall index value sim',
     Sprayer.set_section_switch_state sim index value = Ok sim' ->
     (forall i, Sprayer.get_section_actual_state sim' i
                = Sprayer.get_section_actual_state sim i) /\
     Sprayer.get_actual_number_of_sections_on sim'
     = Sprayer.get_actual_number_of_sections_on sim /\
     Sprayer.get_actual_rate sim' = Sprayer.get_actual_rate sim /\
     (forall auth_status requestedElement DDI value, actual_requests DDI ->
        Sprayer.request_value_command_callback auth_status requestedElement DDI value
          (Some sim')
        = Sprayer.request_value_command_callback auth_status requestedElement DDI value
            (Some sim))).
Proof.
  intros actual_requests. unfold Sprayer.get_is_mode_auto. split.
  - intros Hmanual. split.
    + intros elementNumber processVariableValue.
      destruct (condensed_write_spec elementNumber processVariableValue sim)
        as (sim' & Hrun & (Hsw & Hmode & Hrate & _ & Hlen) & _).
      exists sim'. split; [exact Hrun |].
      assert (Hsame : forall i, Sprayer.get_section_actual_state sim' i
                                = Sprayer.get_section_actual_state sim i).
      { intros i. unfold Sprayer.get_section_actual_state.
        rewrite Hmode, Hmanual, Hsw. reflexivity. }
      assert (Hn : Sprayer.get_number_of_sections sim' = Sprayer.get_number_of_sections sim)
        by (apply number_of_sections_frame; exact Hlen).
      destruct (actual_reads_ext sim' sim Hsame Hn Hrate) as (Hcount & Hactual_rate & _).
      split; [exact Hsame |]. split; [exact Hcount |]. split; [exact Hactual_rate |].
      intros auth_status requestedElement DDI value HDDI.
      apply (actual_requests_ext HT); assumption.
    + intros index value sim'. unfold Sprayer.set_section_switch_state, at_put.
      destruct (Nat.ltb_spec index (length (Sprayer.sectionSwitchStates sim)))
        as [Hin | _]; [| discriminate].
      cbn [bind]. intros [= <-].
      unfold Sprayer.get_section_actual_state, Sprayer.with_switches, at_get.
      cbn [Sprayer.isAutoMode Sprayer.sectionSwitchStates]. rewrite Hmanual.
      rewrite list_lookup_insert_eq by exact Hin. reflexivity.
  - intros Hauto index value sim'. unfold Sprayer.set_section_switch_state, at_put.
    destruct (index <? length (Sprayer.sectionSwitchStates sim)); [| discriminate].
    cbn [bind]. intros [= <-].
    set (sim' := Sprayer.with_switches sim
                   (<[index := value]> (Sprayer.sectionSwitchStates sim))).
    assert (Hsame : forall i, Sprayer.get_section_actual_state sim' i
                              = Sprayer.get_section_actual_state sim i).
    { intros i. unfold Sprayer.get_section_actual_state. subst sim'.
      cbn [Sprayer.with_switches Sprayer.isAutoMode Sprayer.sectionSetpointStates].
      rewrite Hauto. reflexivity. }
    destruct (actual_reads_ext sim' sim Hsame eq_refl eq_refl)
      as (Hcount & Hactual_rate & _).
    split; [exact Hsame |]. split; [exact Hcount |]. split; [exact Hactual_rate |].
    intros auth_status requestedElement DDI value0 HDDI.
    apply (actual_requests_ext HT); [exact Hsame | reflexivity | reflexivity | exact HDDI].
Qed.

Lemma mode_isolates_actual_states_witness :
  distinct_labels iso11783 /\
  Sprayer.get_is_mode_auto (Sprayer.set_is_mode_auto six_sections false) = false /\
  exists sim',
    Sprayer.value_command_callback (T := iso11783) 1 290 (-1)
      (Some (Sprayer.set_is_mode_auto six_sections false)) = Ok (Some sim', true) /\
    Sprayer.request_value_command_callback (T := iso11783) 0 1 141 0 (Some sim')
    = Ok (0%Z, true).
Proof.
  split; [exact iso11783_distinct |]. split; [reflexivity |].
  destruct (proj1 (mode_isolates_actual_states iso11783_distinct
                     (Sprayer.set_is_mode_auto six_sections false)) eq_refl)
    as [Hwrite _].
  destruct (Hwrite 1%Z (-1)%Z) as (sim' & Hrun & _ & _ & _ & Hreads).
  exists sim'. split; [exact Hrun |].
  rewrite (Hreads 0%Z 1%Z 141%Z 0%Z (or_intror (or_introl eq_refl))). reflexivity.
Defined.

(** ** Sections past the sixteenth *)

Lemma value_command_keeps_high_setpoints {T : DDITable}
    (elementNumber DDI processVariableValue : Z) (sim : Sprayer.Sim) :
  exists sim',
    Sprayer.value_command_callback elementNumber DDI processVariableValue (Some sim)
    = Ok (Some sim', true) /\
    (wf sim -> wf sim') /\
    length (Sprayer.sectionSetpointStates sim') = length (Sprayer.sectionSetpointStates sim) /\
    forall j, 16 <= j ->
      Sprayer.sectionSetpointStates sim' !! j = Sprayer.sectionSetpointStates sim !! j.
Proof.
  destruct (value_command_callback_returns elementNumber DDI processVariableValue sim)
    as [sim' Hrun].
  exists sim'. split; [exact Hrun |].
  split; [intros Hwf; exact (value_command_callback_wf _ _ _ _ _ _ Hwf Hrun) |].
  revert Hrun. unfold Sprayer.value_command_callback.
  destruct (DDI =? code SetpointCondensedWorkState1_16)%Z.
  { destruct (unpack_condensed_spec processVariableValue
                Sprayer.NUMBER_SECTIONS_PER_CONDENSED_MESSAGE 0 sim)
      as (sim'' & Hunpack & (_ & _ & _ & _ & Hlen) & _ & Hold).
    rewrite Hunpack. cbn [bind]. intros [= <-].
    split; [exact Hlen |]. intros j Hj. apply Hold.
    unfold Sprayer.NUMBER_SECTIONS_PER_CONDENSED_MESSAGE. lia. }
  destruct (DDI =? code SetpointVolumePerAreaApplicationRate)%Z;
    [intros [= <-]; split; reflexivity |].
  destruct (DDI =? code SetpointWorkState)%Z; [intros [= <-]; split; reflexivity |].
  destruct ((DDI =? code PrescriptionControlState) || (DDI =? code SectionControlState))%Z;
    intros [= <-]; split; reflexivity.
Qed.

Lemma run_value_commands_keeps_high_setpoints {T : DDITable}
    (commands : list (Z * Z * Z)) :
  forall sim, wf sim ->
  exists sim',
    run_value_commands commands sim = Ok sim' /\
    wf sim' /\
    length (Sprayer.sectionSetpointStates sim') = length (Sprayer.sectionSetpointStates sim) /\
    forall j, 16 <= j ->
      Sprayer.sectionSetpointStates sim' !! j = Sprayer.sectionSetpointStates sim !! j.
Proof.
  induction commands as [| [[elementNumber DDI] processVariableValue] commands IH];
    intros sim Hwf.
  - exists sim. repeat split; try reflexivity; apply Hwf.
  - destruct (value_command_keeps_high_setpoints elementNumber DDI processVariableValue sim)
      as (sim1 & Hrun & Hwf1 & Hlen1 & Hhigh1).
    destruct (IH sim1 (Hwf1 Hwf)) as (sim' & Hrest & Hwf' & Hlen' & Hhigh').
    exists sim'. cbn [run_value_commands]. rewrite Hrun. cbn [bind fst].
    split; [exact Hrest |]. split; [exact Hwf' |].
    split; [rewrite Hlen', Hlen1; reflexivity |].
    intros j Hj. rewrite (Hhigh' j Hj). apply Hhigh1, Hj.
Qed.

(** X10 -- sections past the sixteenth.  Whatever value commands a task
    controller sends to a new simulator, and however many, every one of
    them returns, the number of sections stays what the constructor made
    it, and the setpoint of every section from the seventeenth on is still
    false: the condensed write reaches the first sixteen sections only, and
    no other write touches a setpoint.  In automatic mode these sections
    are therefore never on. *)
Theorem sections_past_sixteen_stay_off {T : DDITable}
    (numberOfSections : Z) (commands : list (Z * Z * Z)) :
  exists sim,
    run_value_commands commands (Sprayer.new_simulator numberOfSections) = Ok sim /\
    Sprayer.get_number_of_sections sim = Z.to_nat (numberOfSections mod 256) /\
    forall i, 16 <= i -> i < Sprayer.get_number_of_sections sim ->
      Sprayer.get_section_setpoint_state sim i = Ok false /\
      (Sprayer.get_is_mode_auto sim = true ->
       Sprayer.get_section_actual_state sim i = Ok false).
Proof.
  pose proof (wf_new_simulator numberOfSections) as Hwf.
  destruct (run_value_commands_keeps_high_setpoints commands _ Hwf)
    as (sim & Hrun & Hwf' & Hlen & Hhigh).
  assert (Hn : Sprayer.get_number_of_sections sim = Z.to_nat (numberOfSections mod 256)).
  { rewrite number_of_sections_small by apply Hwf'. rewrite Hlen.
    unfold Sprayer.new_simulator. cbn [Sprayer.sectionSetpointStates].
    rewrite length_replicate. reflexivity. }
  exists sim. split; [exact Hrun |]. split; [exact Hn |].
  intros i Hi Hsection.
  assert (Hstate : Sprayer.get_section_setpoint_state sim i = Ok false).
  { unfold Sprayer.get_section_setpoint_state, at_get. rewrite (Hhigh i Hi).
    unfold Sprayer.new_simulator. cbn [Sprayer.sectionSetpointStates].
    rewrite lookup_replicate_2; [reflexivity |].
    rewrite Hn in Hsection. exact Hsection. }
  split; [exact Hstate |].
  intros Hauto. unfold Sprayer.get_is_mode_auto in Hauto.
  unfold Sprayer.get_section_actual_state. rewrite Hauto. exact Hstate.
Qed.

(* ================================================================== *)
(** * Further properties of the loops *)

(** ** The schedule of the sprayer client's loop *)

Section SprayerSchedule.
Context {T : DDITable} {C : PoolConstants}.
Context {Pool Handle : Type} {OP : ObjectPool Pool Handle}.
Variables (ActualRate clientName : Z).

Lemma sprayer_round_schedule (rateController : Sprayer.Sim) (s : Sprayer.MainState) :
  Sprayer.tcClientStarted s = true ->
  (0 <= Sprayer.counter s < 2 ^ 31 - 1)%Z ->
  Sprayer.auth_status s = ((Sprayer.counter s / 10) mod 2)%Z ->
  Sprayer.main_loop_round ActualRate clientName rateController s
  = Ok (Sprayer.Sleeps
          {| Sprayer.counter := (Sprayer.counter s + 1)%Z;
             Sprayer.auth_status := (((Sprayer.counter s + 1) / 10) mod 2)%Z;
             Sprayer.tcClientStarted := true;
             Sprayer.myDDOP := Sprayer.myDDOP s |}
          [(0%Z, 65432%Z)]).
Proof.
  intros Hstarted Hc Ha. unfold Sprayer.main_loop_round.
  rewrite Hstarted. cbn [negb bind fst snd].
  rewrite to_int32_small by (unfold in_int32; lia).
  rewrite Z.rem_mod_nonneg by lia.
  set (counter := Sprayer.counter s) in *.
  assert (Hbit : (0 <= (counter / 10) mod 2 < 2)%Z) by (apply Z.mod_pos_bound; lia).
  do 3 f_equal.
  destruct (Z.eqb_spec ((counter + 1) mod 10) 0) as [Hten | Hten].
  - assert (Hflip : (((counter + 1) / 10) mod 2 = 1 - (counter / 10) mod 2)%Z).
    { clear Ha. Z.to_euclidean_division_equations. lia. }
    rewrite Hflip, Ha.
    destruct (Z.eqb_spec ((counter / 10) mod 2) 0) as [H0 | H0]; cbn [negb].
    + rewrite H0. reflexivity.
    + replace ((counter / 10) mod 2)%Z with 1%Z by lia. reflexivity.
  - assert (Hkeep : (((counter + 1) / 10) mod 2 = (counter / 10) mod 2)%Z).
    { clear Ha. Z.to_euclidean_division_equations. lia. }
    rewrite Hkeep, Ha. reflexivity.
Qed.

Lemma sprayer_main_loop_schedule (rounds : nat) :
  forall (rateController : Sprayer.Sim) (s : Sprayer.MainState),
    Sprayer.tcClientStarted s = true ->
    (0 <= Sprayer.counter s)%Z -> (Sprayer.counter s + Z.of_nat rounds < 2 ^ 31)%Z ->
    Sprayer.auth_status s = ((Sprayer.counter s / 10) mod 2)%Z ->
    let run := Sprayer.main_loop ActualRate clientName rounds rateController s in
    (forall k, k < rounds ->
       fst run !! k
       = Some ((((Sprayer.counter s + Z.of_nat (S k)) / 10) mod 2)%Z,
               [(0%Z, 65432%Z)])) /\
    exists s', snd run = Ok s' /\ Sprayer.tcClientStarted s' = true.
Proof.
  induction rounds as [| rounds IH]; intros rateController s Hstarted Hc Hmax Ha run.
  - split; [intros k Hk; lia |]. exists s. split; [reflexivity | exact Hstarted].
  - subst run. cbn [Sprayer.main_loop].
    rewrite (sprayer_round_schedule rateController s) by (lia || assumption).
    set (s1 := {| Sprayer.counter := (Sprayer.counter s + 1)%Z;
                  Sprayer.auth_status := (((Sprayer.counter s + 1) / 10) mod 2)%Z;
                  Sprayer.tcClientStarted := true;
                  Sprayer.myDDOP := Sprayer.myDDOP s |}).
    destruct (IH rateController s1) as [Hrest Hend];
      [reflexivity | cbn; lia | cbn; lia | reflexivity |].
    cbn [fst snd]. split; [| exact Hend].
    intros [| k] Hk.
    + reflexivity.
    + change (fst (Sprayer.main_loop ActualRate clientName rounds rateController s1) !! k
              = Some ((((Sprayer.counter s + Z.of_nat (S (S k))) / 10) mod 2)%Z,
                      [(0%Z, 65432%Z)])).
      rewrite (Hrest k) by lia. cbn [Sprayer.counter s1].
      replace (Sprayer.counter s + 1 + Z.of_nat (S k))%Z
        with (Sprayer.counter s + Z.of_nat (S (S k)))%Z by lia.
      reflexivity.
Qed.

(** X11 -- the sprayer client's [main] from its loop on.  The first round
    runs the builder on the new pool.  When the builder returns true, the
    client starts and every round calls the change trigger for element 0
    and index 65432 and every tenth round flips [auth_status]: at the end
    of round [n] (counted from 1, the entry at index [n - 1] of the run)
    the value is 0 when [n / 10] is even and 1 when it is odd, for as long
    as the counter fits an [int], and [main] returns 0.  When the builder
    returns false, the loop is left in the first round without a trigger
    and [main] returns 1.  When the builder dereferences a null pointer,
    no round comes to its end. *)
Theorem sprayer_loop_schedule (pool : Pool) (rounds : nat) :
  0 < rounds -> (Z.of_nat rounds < 2 ^ 31)%Z ->
  let run := Sprayer.main ActualRate clientName rounds pool in
  match outcome (Sprayer.create_ddop ActualRate
                   (Sprayer.new_simulator Sprayer.NUMBER_OF_SECTIONS)
                   (Some pool) clientName) with
  | Ok (true, _) =>
      length (fst run) = rounds /\
      (forall k, k < rounds ->
         fst run !! k = Some (((Z.of_nat (S k) / 10) mod 2)%Z, [(0%Z, 65432%Z)])) /\
      snd run = Ok 0%Z
  | Ok (false, _) => run = ([], Ok 1%Z)
  | Throw e => run = ([], Throw e)
  | Crash => run = ([], Crash)
  end.
Proof.
  intros Hrounds Hmax run. subst run.
  destruct rounds as [| rounds]; [lia |].
  unfold Sprayer.main. cbn [Sprayer.main_loop].
  unfold Sprayer.main_loop_round.
  cbn [Sprayer.tcClientStarted Sprayer.myDDOP Sprayer.counter Sprayer.auth_status negb].
  destruct (outcome (Sprayer.create_ddop ActualRate
                       (Sprayer.new_simulator Sprayer.NUMBER_OF_SECTIONS)
                       (Some pool) clientName)) as [[created pool'] | e |];
    cbn [bind fst snd]; [| reflexivity | reflexivity].
  destruct created; [| reflexivity].
  change (to_int32 (0 + 1)) with 1%Z. change (Z.rem 1 10 =? 0)%Z with false.
  cbv iota.
  set (s1 := {| Sprayer.counter := 1; Sprayer.auth_status := 0;
                Sprayer.tcClientStarted := true; Sprayer.myDDOP := pool' |}).
  destruct (sprayer_main_loop_schedule rounds
              (Sprayer.new_simulator Sprayer.NUMBER_OF_SECTIONS) s1)
    as [Hrest (s' & Hend & Hstarted)];
    [reflexivity | cbn; lia | cbn; lia | reflexivity |].
  cbn [fst snd length]. split; [| split].
  - f_equal.
    exact (sprayer_loop_started_rounds ActualRate clientName rounds _ s1 eq_refl).
  - intros [| k] Hk; [reflexivity |].
    change (fst (Sprayer.main_loop ActualRate clientName rounds
                   (Sprayer.new_simulator Sprayer.NUMBER_OF_SECTIONS) s1) !! k
            = Some (((Z.of_nat (S (S k)) / 10) mod 2)%Z, [(0%Z, 65432%Z)])).
    rewrite (Hrest k) by lia. cbn [Sprayer.counter s1].
    replace (1 + Z.of_nat (S k))%Z with (Z.of_nat (S (S k))) by lia.
    reflexivity.
  - rewrite Hend. cbn [bind]. rewrite Hstarted. reflexivity.
Qed.

End SprayerSchedule.

Lemma sprayer_loop_schedule_witness :
  0 < 25 /\ (Z.of_nat 25 < 2 ^ 31)%Z /\
  (length (fst (Sprayer.main (T := iso11783) (C := iso_pool_constants)
                  (OP := constant_pool true true) 1054 42 25 tt)) = 25 /\
   (forall k, k < 25 ->
      fst (Sprayer.main (T := iso11783) (C := iso_pool_constants)
             (OP := constant_pool true true) 1054 42 25 tt) !! k
      = Some (((Z.of_nat (S k) / 10) mod 2)%Z, [(0%Z, 65432%Z)])) /\
   snd (Sprayer.main (T := iso11783) (C := iso_pool_constants)
          (OP := constant_pool true true) 1054 42 25 tt) = Ok 0%Z) /\
  Sprayer.main (T := iso11783) (C := iso_pool_constants)
    (OP := constant_pool false true) 1054 42 25 tt = ([], Ok 1%Z) /\
  Sprayer.main (T := iso11783) (C := iso_pool_constants)
    (OP := constant_pool true false) 1054 42 25 tt = ([], Crash).
Proof.
  split; [lia |]. split; [lia |].
  split; [| split].
  - exact (sprayer_loop_schedule (T := iso11783) (C := iso_pool_constants)
             (OP := constant_pool true true) 1054 42 tt 25 ltac:(lia) ltac:(lia)).
  - exact (sprayer_loop_schedule (T := iso11783) (C := iso_pool_constants)
             (OP := constant_pool false true) 1054 42 tt 25 ltac:(lia) ltac:(lia)).
  - exact (sprayer_loop_schedule (T := iso11783) (C := iso_pool_constants)
             (OP := constant_pool true false) 1054 42 tt 25 ltac:(lia) ltac:(lia)).
Defined.

(* ================================================================== *)
(** * Further properties of the sentence parser *)

(** ** Every outcome of the checksum validator *)

Lemma in_all_ascii (c : ascii) : In c all_ascii.
Proof.
  unfold all_ascii. rewrite <- (ascii_nat_embedding c).
  apply in_map, in_seq. pose proof (nat_ascii_bounded c). lia.
Qed.

Lemma stoi_pair_table :
  forallb (fun c1 =>
    forallb (fun c2 =>
      match Nmea.stoi [c1; c2] 16 with
      | Ok v => hex_readable c1 c2 && (-15 <=? v)%Z && (v <=? 255)%Z
      | Throw std_invalid_argument => negb (hex_readable c1 c2)
      | _ => false
      end) all_ascii) all_ascii = true.
Proof. vm_compute. reflexivity. Qed.

(** What [std::stoi] makes of two characters in base 16. *)
Lemma stoi_pair (c1 c2 : ascii) :
  if hex_readable c1 c2
  then exists v, Nmea.stoi [c1; c2] 16 = Ok v /\ (-15 <= v <= 255)%Z
  else Nmea.stoi [c1; c2] 16 = Throw std_invalid_argument.
Proof.
  pose proof stoi_pair_table as Htable.
  rewrite forallb_forall in Htable. specialize (Htable c1 (in_all_ascii c1)).
  rewrite forallb_forall in Htable. specialize (Htable c2 (in_all_ascii c2)).
  destruct (Nmea.stoi [c1; c2] 16) as [v | [|] |]; try discriminate Htable.
  - apply andb_prop in Htable. destruct Htable as [Htable Hhigh].
    apply andb_prop in Htable. destruct Htable as [-> Hlow].
    exists v. split; [reflexivity |].
    apply Z.leb_le in Hlow. apply Z.leb_le in Hhigh. lia.
  - apply negb_true_iff in Htable. rewrite Htable. reflexivity.
Qed.

Lemma find_not_in (c : ascii) (s : list ascii) : ~ In c s -> Nmea.find c s = None.
Proof.
  induction s as [| x s IH]; intros Hnot; [reflexivity |].
  cbn [Nmea.find]. destruct (Ascii.eqb_spec x c) as [-> | Hne].
  - exfalso. apply Hnot. left. reflexivity.
  - rewrite IH; [reflexivity |]. intros Hin. apply Hnot. right. exact Hin.
Qed.

Lemma validate_checksum_short (pre after : list ascii) :
  ~ In "*"%char pre -> length after < 2 ->
  Nmea.validate_checksum (pre ++ "*"%char :: after) = Ok false.
Proof.
  intros Hnot Hshort. unfold Nmea.validate_checksum.
  rewrite find_app by exact Hnot.
  rewrite length_app. cbn [length].
  destruct (Nat.leb_spec (length pre + S (length after)) (length pre + 2));
    [reflexivity | lia].
Qed.

(** A sentence is cut at its first star, when it has one. *)
Lemma first_star (sentence : list ascii) :
  ~ In "*"%char sentence \/
  exists pre after, sentence = pre ++ "*"%char :: after /\ ~ In "*"%char pre.
Proof.
  destruct (Nmea.find "*" sentence) as [p |] eqn:Hfind.
  - right. destruct (find_Some _ _ _ Hfind) as (pre & post & -> & _ & Hnot).
    exists pre, post. split; [reflexivity | exact Hnot].
  - left. apply find_None, Hfind.
Qed.

(** X12 -- every outcome of the checksum validator.  A sentence without a
    star, or with fewer than two characters after its first star, is
    invalid.  Otherwise the two characters after the first star decide: when
    they hold a hexadecimal number for [std::stoi] (a digit of either case
    first, or a digit after one blank or sign), the validator returns
    whether that number is the exclusive or of the bytes between the first
    character and the star; when they do not, [std::stoi] throws
    [std::invalid_argument] out of the validator.  It never throws
    [std::out_of_range] and never faults. *)
Theorem validate_checksum_outcomes (sentence : list ascii) :
  (~ In "*"%char sentence -> Nmea.validate_checksum sentence = Ok false) /\
  (forall pre after,
     sentence = pre ++ "*"%char :: after -> ~ In "*"%char pre -> length after < 2 ->
     Nmea.validate_checksum sentence = Ok false) /\
  (forall pre c1 c2 rest,
     sentence = pre ++ "*"%char :: c1 :: c2 :: rest -> ~ In "*"%char pre ->
     if hex_readable c1 c2
     then exists recv_cs,
            Nmea.stoi [c1; c2] 16 = Ok recv_cs /\
            Nmea.validate_checksum sentence = Ok (checksum (drop 1 pre) =? recv_cs)%Z
     else Nmea.validate_checksum sentence = Throw std_invalid_argument) /\
  Nmea.validate_checksum sentence <> Throw std_out_of_range /\
  Nmea.validate_checksum sentence <> Crash.
Proof.
  assert (Hno : ~ In "*"%char sentence -> Nmea.validate_checksum sentence = Ok false).
  { intros Hnot. unfold Nmea.validate_checksum. rewrite find_not_in by exact Hnot.
    reflexivity. }
  assert (Hlong : forall pre c1 c2 rest,
            sentence = pre ++ "*"%char :: c1 :: c2 :: rest -> ~ In "*"%char pre ->
            if hex_readable c1 c2
            then exists recv_cs,
                   Nmea.stoi [c1; c2] 16 = Ok recv_cs /\
                   Nmea.validate_checksum sentence
                   = Ok (checksum (drop 1 pre) =? recv_cs)%Z
            else Nmea.validate_checksum sentence = Throw std_invalid_argument).
  { intros pre c1 c2 rest -> Hnot.
    rewrite validate_checksum_split by exact Hnot.
    pose proof (stoi_pair c1 c2) as Hpair.
    destruct (hex_readable c1 c2).
    - destruct Hpair as (v & -> & _). exists v. split; reflexivity.
    - rewrite Hpair. reflexivity. }
  split; [exact Hno |].
  split; [intros pre after -> Hnot Hshort; apply validate_checksum_short; assumption |].
  split; [exact Hlong |].
  assert (Hcases : Nmea.validate_checksum sentence = Ok false \/
                   Nmea.validate_checksum sentence = Ok true \/
                   Nmea.validate_checksum sentence = Throw std_invalid_argument).
  { destruct (first_star sentence) as [Hnot | (pre & after & Heq & Hnot)];
      [left; apply Hno, Hnot |].
    destruct after as [| c1 [| c2 rest]].
    - left. subst sentence. apply validate_checksum_short; [exact Hnot | simpl; lia].
    - left. subst sentence. apply validate_checksum_short; [exact Hnot | simpl; lia].
    - specialize (Hlong pre c1 c2 rest Heq Hnot).
      destruct (hex_readable c1 c2).
      + destruct Hlong as (v & _ & ->).
        destruct (checksum (drop 1 pre) =? v)%Z; auto.
      + auto. }
  split; intros Hbad; rewrite Hbad in Hcases;
    destruct Hcases as [H | [H | H]]; discriminate H.
Qed.

(** ** Checksums the validator accepts besides the canonical one *)

Lemma stoi_hex2_lower_table :
  forallb (fun n => match Nmea.stoi (hex2_lower (Z.of_nat n)) 16 with
                    | Ok v => (v =? Z.of_nat n)%Z
                    | _ => false
                    end) (seq 0 256) = true.
Proof. vm_compute. reflexivity. Qed.

Lemma stoi_one_digit_table :
  forallb (fun n =>
    forallb (fun c =>
      is_hex c
      || (match Nmea.stoi [hex_digit (Z.of_nat n); c] 16 with
          | Ok v => (v =? Z.of_nat n)%Z
          | _ => false
          end
          && (negb (Nmea.isspace c || Ascii.eqb c "+")
              || match Nmea.stoi [c; hex_digit (Z.of_nat n)] 16 with
                 | Ok v => (v =? Z.of_nat n)%Z
                 | _ => false
                 end))) all_ascii) (seq 0 16) = true.
Proof. vm_compute. reflexivity. Qed.

Lemma stoi_hex2_lower (v : Z) : (0 <= v < 256)%Z -> Nmea.stoi (hex2_lower v) 16 = Ok v.
Proof.
  intros Hv. pose proof stoi_hex2_lower_table as Htable.
  rewrite forallb_forall in Htable.
  specialize (Htable (Z.to_nat v)). cbv beta in Htable.
  rewrite Z2Nat.id in Htable by lia.
  assert (Hin : In (Z.to_nat v) (seq 0 256)) by (apply in_seq; lia).
  specialize (Htable Hin).
  destruct (Nmea.stoi (hex2_lower v) 16) as [r | |]; try discriminate.
  apply Z.eqb_eq in Htable. rewrite Htable. reflexivity.
Qed.

Lemma stoi_one_digit (v : Z) (c : ascii) :
  (0 <= v < 16)%Z -> is_hex c = false ->
  Nmea.stoi [hex_digit v; c] 16 = Ok v /\
  (Nmea.isspace c = true \/ c = "+"%char -> Nmea.stoi [c; hex_digit v] 16 = Ok v).
Proof.
  intros Hv Hc. pose proof stoi_one_digit_table as Htable.
  rewrite forallb_forall in Htable.
  specialize (Htable (Z.to_nat v)). cbv beta in Htable.
  rewrite Z2Nat.id in Htable by lia.
  assert (Hin : In (Z.to_nat v) (seq 0 16)) by (apply in_seq; lia).
  specialize (Htable Hin).
  rewrite forallb_forall in Htable. specialize (Htable c (in_all_ascii c)).
  rewrite Hc in Htable. cbn [orb] in Htable.
  apply andb_prop in Htable. destruct Htable as [Hfirst Hsecond].
  split.
  - destruct (Nmea.stoi [hex_digit v; c] 16) as [r | |]; try discriminate.
    apply Z.eqb_eq in Hfirst. rewrite Hfirst. reflexivity.
  - intros Hlead.
    assert (Hblank : (Nmea.isspace c || Ascii.eqb c "+") = true).
    { destruct Hlead as [-> | ->]; [reflexivity | apply orb_true_r]. }
    rewrite Hblank in Hsecond. cbn [negb orb] in Hsecond.
    destruct (Nmea.stoi [c; hex_digit v] 16) as [r | |]; try discriminate.
    apply Z.eqb_eq in Hsecond. rewrite Hsecond. reflexivity.
Qed.

(** X13 -- the checksum is read leniently.  Around a payload without a star,
    the validator accepts the checksum in lower-case hexadecimal as well;
    and for a checksum below 16 it accepts the single digit followed by any
    character that is no hexadecimal digit, or preceded by a blank or a plus
    sign: [std::stoi] reads the number out of the two characters and ignores
    what it cannot use. *)
Theorem checksum_reading_is_lenient (payload rest : list ascii) :
  ~ In "*"%char payload ->
  Nmea.validate_checksum
    ("$"%char :: payload ++ "*"%char :: hex2_lower (checksum payload) ++ rest) = Ok true /\
  ((checksum payload < 16)%Z ->
   forall c, is_hex c = false ->
     Nmea.validate_checksum
       ("$"%char :: payload ++ "*"%char :: hex_digit (checksum payload) :: c :: rest)
     = Ok true /\
     (Nmea.isspace c = true \/ c = "+"%char ->
      Nmea.validate_checksum
        ("$"%char :: payload ++ "*"%char :: c :: hex_digit (checksum payload) :: rest)
      = Ok true)).
Proof.
  intros Hnot. pose proof (not_star_after_dollar payload Hnot) as Hpre.
  pose proof (checksum_range payload) as Hrange.
  assert (Hvalid : forall c1 c2,
            Nmea.stoi [c1; c2] 16 = Ok (checksum payload) ->
            Nmea.validate_checksum ("$"%char :: payload ++ "*"%char :: c1 :: c2 :: rest)
            = Ok true).
  { intros c1 c2 Hstoi.
    change ("$"%char :: payload ++ "*"%char :: c1 :: c2 :: rest)
      with (("$"%char :: payload) ++ "*"%char :: c1 :: c2 :: rest).
    rewrite validate_checksum_split by exact Hpre.
    rewrite Hstoi. cbn [bind drop]. rewrite Z.eqb_refl. reflexivity. }
  split.
  - apply (Hvalid (hex_digit_lower (checksum payload / 16))
                  (hex_digit_lower (checksum payload mod 16))).
    apply (stoi_hex2_lower (checksum payload)), Hrange.
  - intros Hsmall c Hc.
    destruct (stoi_one_digit (checksum payload) c ltac:(lia) Hc) as [Hfirst Hsecond].
    split; [apply Hvalid, Hfirst |].
    intros Hlead. apply Hvalid, Hsecond, Hlead.
Qed.

Lemma checksum_reading_is_lenient_witness :
  ~ In "*"%char (Nmea.str "PHTG") /\
  Nmea.validate_checksum (Nmea.str "$PHTG*0b") = Ok true /\
  Nmea.validate_checksum (Nmea.str "$PHTG*B;") = Ok true /\
  Nmea.validate_checksum (Nmea.str "$PHTG*+B") = Ok true.
Proof.
  assert (Hnot : ~ In "*"%char (Nmea.str "PHTG")).
  { intros Hin. repeat (destruct Hin as [Hin | Hin]; [discriminate Hin |]).
    destruct Hin. }
  split; [exact Hnot |].
  destruct (checksum_reading_is_lenient (Nmea.str "PHTG") [] Hnot) as [Hlower Hone].
  split; [exact Hlower |].
  split.
  - exact (proj1 (Hone ltac:(vm_compute; reflexivity) ";"%char eq_refl)).
  - exact (proj2 (Hone ltac:(vm_compute; reflexivity) "+"%char eq_refl)
             (or_intror eq_refl)).
Defined.

(** ** Sentences of any number of fields *)

Lemma getline_tokens_join (fields : list (list ascii)) :
  separable fields -> Nmea.getline_tokens "," (join_fields fields) = fields.
Proof.
  intros [Hplain Hlast].
  induction fields as [| field fields IH]; [reflexivity |].
  apply Forall_cons_1 in Hplain. destruct Hplain as [[Hcomma _] Hplain].
  destruct fields as [| next fields].
  - cbn [join_fields]. apply getline_tokens_last; [exact Hcomma |].
    intros ->. apply Hlast. reflexivity.
  - change (join_fields (field :: next :: fields))
      with (field ++ ","%char :: join_fields (next :: fields)).
    rewrite getline_tokens_field by exact Hcomma.
    rewrite IH; [reflexivity | exact Hplain | exact Hlast].
Qed.

Lemma join_fields_no_star (fields : list (list ascii)) :
  Forall plain fields -> ~ In "*"%char (join_fields fields).
Proof.
  induction fields as [| field fields IH]; intros Hplain; [intros [] |].
  apply Forall_cons_1 in Hplain. destruct Hplain as [[_ Hstar] Hplain].
  destruct fields as [| next fields]; [exact Hstar |].
  change (join_fields (field :: next :: fields))
    with (field ++ ","%char :: join_fields (next :: fields)).
  apply not_in_app; [exact Hstar |].
  apply not_in_cons; [discriminate | apply IH, Hplain].
Qed.

(** The parser on a sentence of separable fields: the fields are the tokens
    its loop stores. *)
Lemma parse_sentence_with (sep : ascii) (fields : list (list ascii))
    (data : Nmea.PHTGData) :
  sep <> "*"%char -> separable fields ->
  Nmea.parse_phtg (sentence_with sep fields) data
  = (r <- Nmea.store_fields fields 0 data ;; Ok (6 <=? fst r, snd r)).
Proof.
  intros Hsep Hfields.
  pose proof (join_fields_no_star fields (proj1 Hfields)) as Hjoin.
  set (J := join_fields fields) in *.
  set (payload := Nmea.str "PHTG" ++ sep :: J).
  assert (Hstar : ~ In "*"%char payload).
  { subst payload. apply not_in_app.
    - intros Hin. repeat (destruct Hin as [Hin | Hin]; [discriminate Hin |]).
      destruct Hin.
    - apply not_in_cons; [exact Hsep | exact Hjoin]. }
  assert (Hshape : sentence_with sep fields
                   = ["$"; "P"; "H"; "T"; "G"; sep]%char
                     ++ J ++ "*"%char :: hex2 (checksum payload)).
  { reflexivity. }
  assert (Hvalid : Nmea.validate_checksum (sentence_with sep fields) = Ok true).
  { unfold sentence_with. fold J. fold payload.
    rewrite <- (app_nil_r (sentence_of payload)).
    apply validate_sentence_of, Hstar. }
  assert (Hfind : Nmea.find "*" (sentence_with sep fields) = Some (6 + length J)).
  { rewrite Hshape, app_assoc. rewrite find_app.
    - rewrite length_app. reflexivity.
    - change (~ In "*"%char ("$"%char :: payload)).
      apply not_star_after_dollar, Hstar. }
  assert (Hlong : (length (sentence_with sep fields) <? 5) = false).
  { rewrite Hshape. apply Nat.ltb_ge. rewrite length_app. simpl. lia. }
  assert (Htag : Nmea.string_eqb (take 5 (sentence_with sep fields)) (Nmea.str "$PHTG")
                 = true).
  { rewrite Hshape. reflexivity. }
  assert (Hbody : Nmea.body_of (sentence_with sep fields) (6 + length J) = Ok J).
  { unfold Nmea.body_of, Nmea.substr.
    change (6 <=? 6 + length J) with true. cbv iota.
    replace (length (sentence_with sep fields) <? 6) with false
      by (symmetry; rewrite Hshape; apply Nat.ltb_ge; rewrite length_app; simpl; lia).
    rewrite Hshape.
    change (drop 6 (["$"; "P"; "H"; "T"; "G"; sep]%char ++ J ++ "*"%char ::
                    hex2 (checksum payload)))
      with (J ++ "*"%char :: hex2 (checksum payload)).
    replace (6 + length J - 6) with (length J) by lia.
    rewrite take_app_length. reflexivity. }
  unfold Nmea.parse_phtg.
  rewrite Hlong, Htag, Hvalid, Hfind. cbn [negb bind].
  rewrite Hbody. cbn [bind].
  subst J. rewrite getline_tokens_join by exact Hfields.
  reflexivity.
Qed.

Lemma sentence_with_tag (sep : ascii) (fields : list (list ascii)) :
  (5 <=? length (sentence_with sep fields))
  && Nmea.string_eqb (take 5 (sentence_with sep fields)) (Nmea.str "$PHTG") = true.
Proof. reflexivity. Qed.

(** Past the sixth field the loop stores nothing. *)
Lemma store_fields_beyond (tokens : list (list ascii)) :
  forall (field : nat) (data : Nmea.PHTGData),
    6 <= field ->
    Nmea.store_fields tokens field data = Ok (field + length tokens, data).
Proof.
  induction tokens as [| token tokens IH]; intros field data Hfield.
  - cbn [Nmea.store_fields length]. rewrite Nat.add_0_r. reflexivity.
  - cbn [Nmea.store_fields].
    replace (Nmea.store_field field token data) with (Ok data).
    + cbn [bind]. rewrite IH by lia. cbn [length]. do 2 f_equal. lia.
    + do 6 (destruct field as [| field]; [lia |]). reflexivity.
Qed.

Lemma parse_six_fields (sep : ascii)
    (date time system service auth warning : list ascii) (more : list (list ascii))
    (data : Nmea.PHTGData) :
  sep <> "*"%char ->
  separable (date :: time :: system :: service :: auth :: warning :: more) ->
  Nmea.parse_phtg
    (sentence_with sep (date :: time :: system :: service :: auth :: warning :: more))
    data
  = (auth_result <- Nmea.number_or_zero auth ;;
     warning_code <- Nmea.number_or_zero warning ;;
     Ok (true, {| Nmea.date := date; Nmea.time := time; Nmea.system := system;
                  Nmea.service := service; Nmea.auth_result := auth_result;
                  Nmea.warning := warning_code |})).
Proof.
  intros Hsep Hfields. rewrite parse_sentence_with by assumption.
  cbn [Nmea.store_fields Nmea.store_field bind].
  destruct (Nmea.number_or_zero auth) as [a | e |]; cbn [bind]; try reflexivity.
  destruct (Nmea.number_or_zero warning) as [w | e |]; cbn [bind]; try reflexivity.
  rewrite store_fields_beyond by lia. reflexivity.
Qed.

Lemma process_six_fields (sep : ascii)
    (date time system service auth warning : list ascii) (more : list (list ascii))
    (g : Nmea.GnssStatus) :
  sep <> "*"%char ->
  separable (date :: time :: system :: service :: auth :: warning :: more) ->
  Nmea.process_nmea_line
    (sentence_with sep (date :: time :: system :: service :: auth :: warning :: more)) g
  = (auth_result <- Nmea.number_or_zero auth ;;
     warning_code <- Nmea.number_or_zero warning ;;
     Ok {| Nmea.gnss_auth_status := auth_result; Nmea.gnss_warning := warning_code |}).
Proof.
  intros Hsep Hfields. unfold Nmea.process_nmea_line.
  rewrite sentence_with_tag, parse_six_fields by assumption.
  destruct (Nmea.number_or_zero auth) as [a | e |]; cbn [bind]; try reflexivity.
  destruct (Nmea.number_or_zero warning) as [w | e |]; reflexivity.
Qed.

(** X14 -- six fields and more.  Take a sentence with the tag, any one
    character but a star after it, at least six comma-joined fields that
    hold neither comma nor star (the last of them not empty) and the correct
    checksum.  The parser succeeds or throws as [std::stoi] does on the
    fifth and sixth field: the first four fields are stored as they are,
    empty ones too, the two numbers are what [std::stoi] reads (0 for an
    empty field), the character after the tag is not looked at, and fields
    after the sixth are ignored.  With numbers written in decimal the parse
    succeeds, and [process_nmea_line] stores them; an empty warning that a
    further field follows reads as 0. *)
Theorem parse_reads_six_fields (sep : ascii)
    (date time system service auth warning : list ascii) (more : list (list ascii)) :
  sep <> "*"%char ->
  separable (date :: time :: system :: service :: auth :: warning :: more) ->
  let sentence :=
    sentence_with sep (date :: time :: system :: service :: auth :: warning :: more) in
  (forall data,
     Nmea.parse_phtg sentence data
     = (auth_result <- Nmea.number_or_zero auth ;;
        warning_code <- Nmea.number_or_zero warning ;;
        Ok (true, {| Nmea.date := date; Nmea.time := time; Nmea.system := system;
                     Nmea.service := service; Nmea.auth_result := auth_result;
                     Nmea.warning := warning_code |}))) /\
  (forall a w : option Z,
     auth = show_field a -> warning = show_field w ->
     (forall z, a = Some z \/ w = Some z -> in_int32 z) ->
     (forall data,
        Nmea.parse_phtg sentence data
        = Ok (true, {| Nmea.date := date; Nmea.time := time; Nmea.system := system;
                       Nmea.service := service; Nmea.auth_result := default 0%Z a;
                       Nmea.warning := default 0%Z w |})) /\
     (forall g,
        Nmea.process_nmea_line sentence g
        = Ok {| Nmea.gnss_auth_status := default 0%Z a;
                Nmea.gnss_warning := default 0%Z w |})).
Proof.
  intros Hsep Hfields sentence. subst sentence. split.
  - intros data. apply parse_six_fields; assumption.
  - intros a w -> -> Hrange.
    assert (Ha : Nmea.number_or_zero (show_field a) = Ok (default 0%Z a))
      by (apply number_or_zero_show_field; intros z Hz; apply Hrange; left; exact Hz).
    assert (Hw : Nmea.number_or_zero (show_field w) = Ok (default 0%Z w))
      by (apply number_or_zero_show_field; intros z Hz; apply Hrange; right; exact Hz).
    split.
    + intros data. rewrite parse_six_fields by assumption.
      rewrite Ha, Hw. reflexivity.
    + intros g. rewrite process_six_fields by assumption.
      rewrite Ha, Hw. reflexivity.
Qed.

Lemma sample_separable (fields : list string) :
  forallb (fun s => forallb (fun c => negb (Ascii.eqb c ",") && negb (Ascii.eqb c "*"))
                      (Nmea.str s)) fields = true ->
  last (map Nmea.str fields) <> Some [] ->
  separable (map Nmea.str fields).
Proof.
  intros Hall Hlast. split; [| exact Hlast].
  apply Forall_forall. intros field Hin.
  apply list_elem_of_In, in_map_iff in Hin. destruct Hin as (s & <- & Hin).
  rewrite forallb_forall in Hall. apply sample_plain, Hall, Hin.
Qed.

Lemma parse_reads_six_fields_witness :
  ";"%char <> "*"%char /\
  sentence_with ";" (map Nmea.str ["230101"; ""; "GAL"; "RTK"; "7"; ""; "x"; "y"]%string)
  = Nmea.str "$PHTG;230101,,GAL,RTK,7,,x,y*2C" /\
  Nmea.process_nmea_line (Nmea.str "$PHTG;230101,,GAL,RTK,7,,x,y*2C")
    {| Nmea.gnss_auth_status := 0; Nmea.gnss_warning := 5 |}
  = Ok {| Nmea.gnss_auth_status := 7; Nmea.gnss_warning := 0 |}.
Proof.
  split; [discriminate |]. split; [vm_compute; reflexivity |].
  exact (proj2 (proj2 (parse_reads_six_fields ";"
                         (Nmea.str "230101") (Nmea.str "") (Nmea.str "GAL")
                         (Nmea.str "RTK") (Nmea.str "7") (Nmea.str "")
                         (map Nmea.str ["x"; "y"]%string)
                         ltac:(discriminate)
                         (sample_separable
                            ["230101"; ""; "GAL"; "RTK"; "7"; ""; "x"; "y"]%string
                            eq_refl ltac:(discriminate)))
                  (Some 7%Z) None eq_refl eq_refl
                  ltac:(intros z [[= <-] | Hz];
                        [unfold in_int32; lia | discriminate Hz]))
          {| Nmea.gnss_auth_status := 0; Nmea.gnss_warning := 5 |}).
Defined.

(** X15 -- fewer than six fields.  A sentence with the tag, a correct
    checksum and fewer than six separable fields (a fifth one, if there, a
    number for [std::stoi]) makes the parser return false; the caller's
    record has by then been overwritten with the fields that were there,
    the others keeping what they held.  [process_nmea_line] parses into
    a record of its own and leaves the stored status as it was. *)
Theorem short_sentence_is_rejected (sep : ascii) (fields : list (list ascii))
    (auth_result : Z) :
  sep <> "*"%char -> separable fields -> length fields < 6 ->
  (forall auth, fields !! 4 = Some auth -> Nmea.number_or_zero auth = Ok auth_result) ->
  (forall data,
     Nmea.parse_phtg (sentence_with sep fields) data
     = Ok (false,
           {| Nmea.date := default (Nmea.date data) (fields !! 0);
              Nmea.time := default (Nmea.time data) (fields !! 1);
              Nmea.system := default (Nmea.system data) (fields !! 2);
              Nmea.service := default (Nmea.service data) (fields !! 3);
              Nmea.auth_result := match fields !! 4 with
                                  | Some _ => auth_result
                                  | None => Nmea.auth_result data
                                  end;
              Nmea.warning := Nmea.warning data |})) /\
  (forall g, Nmea.process_nmea_line (sentence_with sep fields) g = Ok g).
Proof.
  intros Hsep Hfields Hshort Hauth.
  assert (Hparse : forall data,
            Nmea.parse_phtg (sentence_with sep fields) data
            = Ok (false,
                  {| Nmea.date := default (Nmea.date data) (fields !! 0);
                     Nmea.time := default (Nmea.time data) (fields !! 1);
                     Nmea.system := default (Nmea.system data) (fields !! 2);
                     Nmea.service := default (Nmea.service data) (fields !! 3);
                     Nmea.auth_result := match fields !! 4 with
                                         | Some _ => auth_result
                                         | None => Nmea.auth_result data
                                         end;
                     Nmea.warning := Nmea.warning data |})).
  { intros data. rewrite parse_sentence_with by assumption.
    destruct data as [d0 t0 s0 v0 a0 w0].
    destruct fields as [| d [| t [| s [| v [| a [| w more]]]]]];
      try (cbn [length] in Hshort; lia);
      cbn [Nmea.store_fields Nmea.store_field bind]; try reflexivity.
    rewrite (Hauth a eq_refl). reflexivity. }
  split; [exact Hparse |].
  intros g. unfold Nmea.process_nmea_line.
  rewrite sentence_with_tag, Hparse. reflexivity.
Qed.

Lemma short_sentence_is_rejected_witness :
  sentence_with "," (map Nmea.str ["230101"; "120000"; "GAL"; "RTK"; "7"]%string)
  = Nmea.str "$PHTG,230101,120000,GAL,RTK,7*15" /\
  Nmea.parse_phtg (Nmea.str "$PHTG,230101,120000,GAL,RTK,7*15") Nmea.empty_PHTGData
  = Ok (false, {| Nmea.date := Nmea.str "230101"; Nmea.time := Nmea.str "120000";
                  Nmea.system := Nmea.str "GAL"; Nmea.service := Nmea.str "RTK";
                  Nmea.auth_result := 7; Nmea.warning := 0 |}) /\
  Nmea.process_nmea_line (Nmea.str "$PHTG,230101,120000,GAL,RTK,7*15")
    {| Nmea.gnss_auth_status := 1; Nmea.gnss_warning := 2 |}
  = Ok {| Nmea.gnss_auth_status := 1; Nmea.gnss_warning := 2 |}.
Proof.
  split; [vm_compute; reflexivity |].
  pose proof (short_sentence_is_rejected ","
                (map Nmea.str ["230101"; "120000"; "GAL"; "RTK"; "7"]%string) 7
                ltac:(discriminate)
                (sample_separable ["230101"; "120000"; "GAL"; "RTK"; "7"]%string
                   eq_refl ltac:(discriminate))
                ltac:(cbn; lia)
                ltac:(intros auth [= <-]; reflexivity)) as [Hparse Hprocess].
  split; [exact (Hparse Nmea.empty_PHTGData) | apply Hprocess].
Defined.

(** ** Numbers in a field *)

Lemma show_nat_digits_app (fuel : nat) :
  forall (n : Z) (digits rest : list ascii),
    show_nat_digits fuel n (digits ++ rest) = show_nat_digits fuel n digits ++ rest.
Proof.
  induction fuel as [| fuel IH]; intros n digits rest; [reflexivity |].
  cbn [show_nat_digits].
  destruct (n <? 10)%Z; [reflexivity |].
  rewrite app_comm_cons. apply IH.
Qed.

Lemma skip_spaces_blanks (blanks s : list ascii) :
  Forall (fun c => Nmea.isspace c = true) blanks ->
  Nmea.skip_spaces (blanks ++ s) = Nmea.skip_spaces s.
Proof.
  induction 1 as [| c blanks Hc _ IH]; [reflexivity |].
  cbn [app Nmea.skip_spaces]. rewrite Hc. exact IH.
Qed.

Lemma read_digits_end (junk : list ascii) (acc : option Z) :
  ends_number junk -> Nmea.read_digits 10 junk acc = acc.
Proof.
  destruct junk as [| c junk]; [reflexivity |].
  cbn [ends_number Nmea.read_digits]. intros ->. reflexivity.
Qed.

(** [std::stoi] on a decimal number with blanks before it and something that
    is no digit after it. *)
Lemma stoi_decimal (blanks junk : list ascii) (z : Z) :
  Forall (fun c => Nmea.isspace c = true) blanks -> ends_number junk ->
  (- 10 ^ 10 < z < 10 ^ 10)%Z ->
  Nmea.stoi (blanks ++ show_int z ++ junk) 10
  = if ((z <? - 2 ^ 31) || (2 ^ 31 - 1 <? z))%Z then Throw std_out_of_range else Ok z.
Proof.
  intros Hblanks Hjunk Hz.
  unfold Nmea.stoi. rewrite skip_spaces_blanks by exact Hblanks.
  change (10 ^ 10)%Z with (10 ^ Z.of_nat 10)%Z in Hz.
  unfold show_int. destruct (z <? 0)%Z eqn:Hneg.
  - apply Z.ltb_lt in Hneg.
    rewrite <- app_comm_cons, <- show_nat_digits_app. cbn [app].
    cbn [Nmea.skip_spaces]. change (Nmea.isspace "-") with false. cbv iota.
    cbn [Nmea.split_sign]. change (Ascii.eqb "-" "-") with true. cbv iota.
    rewrite read_magnitude_decimal, read_digits_show by lia.
    rewrite read_digits_end by exact Hjunk.
    rewrite Z.opp_involutive. reflexivity.
  - apply Z.ltb_ge in Hneg.
    rewrite <- show_nat_digits_app. cbn [app].
    destruct (show_nat_digits_head 9 z junk Hneg) as (d & s' & Hd & Hshow).
    destruct (digit_char_facts d Hd) as (_ & Hspace & Hminus & Hplus & _).
    pose proof (read_digits_show 9 z junk ltac:(lia)) as Hread.
    rewrite Hshow in *.
    cbn [Nmea.skip_spaces]. rewrite Hspace.
    cbn [Nmea.split_sign]. rewrite Hminus, Hplus.
    rewrite read_magnitude_decimal, Hread.
    rewrite read_digits_end by exact Hjunk. reflexivity.
Qed.

Lemma stoi_no_number (c : ascii) (rest : list ascii) :
  starts_no_number c -> Nmea.stoi (c :: rest) 10 = Throw std_invalid_argument.
Proof.
  intros (Hspace & Hsign & Hdigit). unfold Nmea.stoi.
  cbn [Nmea.skip_spaces]. rewrite Hspace.
  unfold is_sign in Hsign. apply orb_false_elim in Hsign. destruct Hsign as [Hminus Hplus].
  cbn [Nmea.split_sign]. rewrite Hminus, Hplus.
  rewrite read_magnitude_decimal. cbn [Nmea.read_digits]. rewrite Hdigit. reflexivity.
Qed.

Lemma number_or_zero_decimal (blanks junk : list ascii) (z : Z) :
  Forall (fun c => Nmea.isspace c = true) blanks -> ends_number junk ->
  (- 10 ^ 10 < z < 10 ^ 10)%Z ->
  Nmea.number_or_zero (blanks ++ show_int z ++ junk)
  = if ((z <? - 2 ^ 31) || (2 ^ 31 - 1 <? z))%Z then Throw std_out_of_range else Ok z.
Proof.
  intros Hblanks Hjunk Hz. unfold Nmea.number_or_zero.
  destruct (blanks ++ show_int z ++ junk) as [| c token] eqn:Htoken.
  - exfalso. apply app_eq_nil in Htoken. destruct Htoken as [_ Htoken].
    apply app_eq_nil in Htoken. destruct Htoken as [Htoken _].
    exact (show_int_not_nil z Htoken).
  - rewrite <- Htoken. apply stoi_decimal; assumption.
Qed.

(** X16 -- a number that cannot be read.  In a sentence with a correct
    checksum and six separable fields or more, an authentication result (or,
    that one read, a warning) that begins with a character that is no blank,
    sign or decimal digit makes [std::stoi] throw [std::invalid_argument],
    and one written in decimal that an [int] cannot hold makes it throw
    [std::out_of_range]; nothing catches either, so the exception leaves
    [process_nmea_line]. *)
Theorem numeric_field_errors (sep : ascii)
    (date time system service auth warning : list ascii) (more : list (list ascii))
    (g : Nmea.GnssStatus) :
  sep <> "*"%char ->
  separable (date :: time :: system :: service :: auth :: warning :: more) ->
  let line :=
    sentence_with sep (date :: time :: system :: service :: auth :: warning :: more) in
  let too_big z := (2 ^ 31 <= z < 10 ^ 10 \/ - 10 ^ 10 < z < - 2 ^ 31)%Z in
  (forall c rest, auth = c :: rest -> starts_no_number c ->
     Nmea.process_nmea_line line g = Throw std_invalid_argument) /\
  (forall z, auth = show_int z -> too_big z ->
     Nmea.process_nmea_line line g = Throw std_out_of_range) /\
  (forall a, Nmea.number_or_zero auth = Ok a ->
     (forall c rest, warning = c :: rest -> starts_no_number c ->
        Nmea.process_nmea_line line g = Throw std_invalid_argument) /\
     (forall z, warning = show_int z -> too_big z ->
        Nmea.process_nmea_line line g = Throw std_out_of_range)).
Proof.
  intros Hsep Hfields line too_big. subst line.
  assert (Hbig : forall z, too_big z ->
            Nmea.number_or_zero (show_int z) = Throw std_out_of_range).
  { intros z Hz. unfold too_big in Hz.
    pose proof (number_or_zero_decimal [] [] z ltac:(constructor) I ltac:(lia)) as Hread.
    cbn [app] in Hread. rewrite app_nil_r in Hread. rewrite Hread.
    destruct (Z.ltb_spec z (- 2 ^ 31)); [reflexivity |].
    destruct (Z.ltb_spec (2 ^ 31 - 1) z); [reflexivity | lia]. }
  rewrite process_six_fields by assumption.
  split; [| split].
  - intros c rest -> Hc. cbn [Nmea.number_or_zero].
    rewrite stoi_no_number by exact Hc. reflexivity.
  - intros z -> Hz. rewrite Hbig by exact Hz. reflexivity.
  - intros a ->. cbn [bind]. split.
    + intros c rest -> Hc. cbn [Nmea.number_or_zero].
      rewrite stoi_no_number by exact Hc. reflexivity.
    + intros z -> Hz. rewrite Hbig by exact Hz. reflexivity.
Qed.

Lemma starts_no_number_sample (c : ascii) :
  negb (Nmea.isspace c) && negb (is_sign c)
  && match Nmea.digit_in 10 c with None => true | Some _ => false end = true ->
  starts_no_number c.
Proof.
  intros Hc. apply andb_prop in Hc. destruct Hc as [Hc Hdigit].
  apply andb_prop in Hc. destruct Hc as [Hspace Hsign].
  apply negb_true_iff in Hspace. apply negb_true_iff in Hsign.
  repeat split; [exact Hspace | exact Hsign |].
  destruct (Nmea.digit_in 10 c); [discriminate | reflexivity].
Qed.

Lemma numeric_field_errors_witness :
  Nmea.process_nmea_line (Nmea.str "$PHTG,a,b,c,d,x,3*44")
    {| Nmea.gnss_auth_status := 0; Nmea.gnss_warning := 0 |}
  = Throw std_invalid_argument /\
  Nmea.process_nmea_line (Nmea.str "$PHTG,a,b,c,d,4294967296,3*32")
    {| Nmea.gnss_auth_status := 0; Nmea.gnss_warning := 0 |}
  = Throw std_out_of_range.
Proof.
  split.
  - exact (proj1 (numeric_field_errors ","
                    (Nmea.str "a") (Nmea.str "b") (Nmea.str "c") (Nmea.str "d")
                    (Nmea.str "x") (Nmea.str "3") []
                    {| Nmea.gnss_auth_status := 0; Nmea.gnss_warning := 0 |}
                    ltac:(discriminate)
                    (sample_separable ["a"; "b"; "c"; "d"; "x"; "3"]%string
                       eq_refl ltac:(discriminate)))
             "x"%char [] eq_refl (starts_no_number_sample "x" eq_refl)).
  - exact (proj1 (proj2 (numeric_field_errors ","
                    (Nmea.str "a") (Nmea.str "b") (Nmea.str "c") (Nmea.str "d")
                    (Nmea.str "4294967296") (Nmea.str "3") []
                    {| Nmea.gnss_auth_status := 0; Nmea.gnss_warning := 0 |}
                    ltac:(discriminate)
                    (sample_separable ["a"; "b"; "c"; "d"; "4294967296"; "3"]%string
                       eq_refl ltac:(discriminate))))
             4294967296%Z eq_refl ltac:(left; lia)).
Defined.

(** X17 -- numbers are read leniently.  In such a sentence a numeric field
    may have blanks before its decimal number and anything that does not
    begin with a digit after it: [std::stoi] skips the blanks, reads the
    number and ignores the rest, so [12x] stores 12 and [3e2] stores 3. *)
Theorem numbers_are_read_leniently (sep : ascii)
    (date time system service auth warning : list ascii) (more : list (list ascii))
    (a w : Z) (blanks_a junk_a blanks_w junk_w : list ascii) :
  sep <> "*"%char ->
  separable (date :: time :: system :: service :: auth :: warning :: more) ->
  auth = blanks_a ++ show_int a ++ junk_a ->
  warning = blanks_w ++ show_int w ++ junk_w ->
  Forall (fun c => Nmea.isspace c = true) blanks_a ->
  Forall (fun c => Nmea.isspace c = true) blanks_w ->
  ends_number junk_a -> ends_number junk_w ->
  in_int32 a -> in_int32 w ->
  let line :=
    sentence_with sep (date :: time :: system :: service :: auth :: warning :: more) in
  (forall data,
     Nmea.parse_phtg line data
     = Ok (true, {| Nmea.date := date; Nmea.time := time; Nmea.system := system;
                    Nmea.service := service; Nmea.auth_result := a;
                    Nmea.warning := w |})) /\
  (forall g,
     Nmea.process_nmea_line line g
     = Ok {| Nmea.gnss_auth_status := a; Nmea.gnss_warning := w |}).
Proof.
  intros Hsep Hfields -> -> Hba Hbw Hja Hjw Ha Hw line. subst line.
  unfold in_int32 in Ha, Hw.
  assert (Hread : forall blanks junk z,
            Forall (fun c => Nmea.isspace c = true) blanks -> ends_number junk ->
            (- 2 ^ 31 <= z < 2 ^ 31)%Z ->
            Nmea.number_or_zero (blanks ++ show_int z ++ junk) = Ok z).
  { intros blanks junk z Hb Hj Hz.
    rewrite number_or_zero_decimal by (assumption || lia).
    destruct (Z.ltb_spec z (- 2 ^ 31)); [lia |].
    destruct (Z.ltb_spec (2 ^ 31 - 1) z); [lia | reflexivity]. }
  split.
  - intros data. rewrite parse_six_fields by assumption.
    rewrite !Hread by assumption. reflexivity.
  - intros g. rewrite process_six_fields by assumption.
    rewrite !Hread by assumption. reflexivity.
Qed.

Lemma numbers_are_read_leniently_witness :
  Nmea.process_nmea_line (Nmea.str "$PHTG,a,b,c,d, 12x,3e2*30")
    {| Nmea.gnss_auth_status := 0; Nmea.gnss_warning := 0 |}
  = Ok {| Nmea.gnss_auth_status := 12; Nmea.gnss_warning := 3 |}.
Proof.
  exact (proj2 (numbers_are_read_leniently ","
                  (Nmea.str "a") (Nmea.str "b") (Nmea.str "c") (Nmea.str "d")
                  (Nmea.str " 12x") (Nmea.str "3e2") [] 12 3
                  (Nmea.str " ") (Nmea.str "x") [] (Nmea.str "e2")
                  ltac:(discriminate)
                  (sample_separable ["a"; "b"; "c"; "d"; " 12x"; "3e2"]%string
                     eq_refl ltac:(discriminate))
                  eq_refl eq_refl
                  ltac:(repeat constructor) ltac:(constructor) eq_refl eq_refl
                  ltac:(unfold in_int32; lia) ltac:(unfold in_int32; lia))
           {| Nmea.gnss_auth_status := 0; Nmea.gnss_warning := 0 |}).
Defined.

(** ** A star right after the tag *)

Lemma parse_star_after_tag (rest : list ascii) (data : Nmea.PHTGData) :
  Nmea.parse_phtg (Nmea.str "$PHTG*0B" ++ rest) data
  = (r <- Nmea.store_fields (Nmea.getline_tokens "," (Nmea.str "0B" ++ rest)) 0 data ;;
     Ok (6 <=? fst r, snd r)).
Proof.
  set (sentence := Nmea.str "$PHTG*0B" ++ rest).
  assert (Hshape : sentence = ["$"; "P"; "H"; "T"; "G"]%char ++ "*"%char :: "0"%char
                              :: "B"%char :: rest) by reflexivity.
  assert (Hvalid : Nmea.validate_checksum sentence = Ok true).
  { rewrite Hshape. rewrite validate_checksum_split.
    - reflexivity.
    - intros Hin. repeat (destruct Hin as [Hin | Hin]; [discriminate Hin |]).
      destruct Hin. }
  assert (Hbody : Nmea.body_of sentence 5 = Ok (Nmea.str "0B" ++ rest)).
  { unfold Nmea.body_of, Nmea.substr. change (6 <=? 5) with false. cbv iota.
    rewrite Hshape. cbn [app length Nat.ltb Nat.leb drop].
    rewrite take_ge by (cbn [length]; lia). reflexivity. }
  unfold Nmea.parse_phtg.
  replace (length sentence <? 5) with false by reflexivity.
  replace (Nmea.string_eqb (take 5 sentence) (Nmea.str "$PHTG")) with true by reflexivity.
  rewrite Hvalid. cbn [negb bind].
  replace (Nmea.find "*" sentence) with (Some 5) by reflexivity.
  rewrite Hbody. reflexivity.
Qed.

(** X18 -- a star right after the tag.  In a line that begins [$PHTG*0B] the
    checksum covers the tag alone (its exclusive or is 0B), so it is
    correct whatever follows; the star stands at index 5, the length
    [star_pos - 6] of the body wraps around, and the fields are read from
    index 6 to the end of the line, the two checksum characters being the
    first of them.  Any two 32-bit numbers can be stored that way. *)
Theorem star_after_tag_skips_the_checksum :
  (forall rest data,
     Nmea.parse_phtg (Nmea.str "$PHTG*0B" ++ rest) data
     = (r <- Nmea.store_fields
               (Nmea.getline_tokens "," (Nmea.str "0B" ++ rest)) 0 data ;;
        Ok (6 <=? fst r, snd r))) /\
  (forall a w g,
     in_int32 a -> in_int32 w ->
     Nmea.process_nmea_line
       (Nmea.str "$PHTG*0B,,,," ++ show_int a ++ ","%char :: show_int w) g
     = Ok {| Nmea.gnss_auth_status := a; Nmea.gnss_warning := w |}).
Proof.
  split; [exact parse_star_after_tag |].
  intros a w g Ha Hw.
  destruct (show_int_plain a) as [Hac _]. destruct (show_int_plain w) as [Hwc _].
  unfold Nmea.process_nmea_line.
  replace ((5 <=? length (Nmea.str "$PHTG*0B,,,," ++ show_int a ++ ","%char :: show_int w))
           && Nmea.string_eqb
                (take 5 (Nmea.str "$PHTG*0B,,,," ++ show_int a ++ ","%char :: show_int w))
                (Nmea.str "$PHTG"))
    with true by reflexivity.
  change (Nmea.str "$PHTG*0B,,,," ++ show_int a ++ ","%char :: show_int w)
    with (Nmea.str "$PHTG*0B"
          ++ ","%char :: ","%char :: ","%char :: ","%char
             :: show_int a ++ ","%char :: show_int w).
  rewrite parse_star_after_tag.
  change (Nmea.str "0B" ++ ","%char :: ","%char :: ","%char :: ","%char
                          :: show_int a ++ ","%char :: show_int w)
    with (Nmea.str "0B" ++ ","%char :: [] ++ ","%char :: [] ++ ","%char :: []
          ++ ","%char :: show_int a ++ ","%char :: show_int w).
  rewrite getline_tokens_field
    by (intros Hin; repeat (destruct Hin as [Hin | Hin]; [discriminate Hin |]);
        destruct Hin).
  rewrite !(getline_tokens_field []) by (intros []).
  rewrite getline_tokens_field by exact Hac.
  rewrite getline_tokens_last by (exact Hwc || apply show_int_not_nil).
  cbn [Nmea.store_fields Nmea.store_field bind].
  rewrite !number_or_zero_show_int by assumption.
  reflexivity.
Qed.

(** ** Lines that change nothing *)

Lemma string_eqb_eq (a b : list ascii) : Nmea.string_eqb a b = true <-> a = b.
Proof.
  revert b. induction a as [| x a IH]; intros [| y b]; cbn [Nmea.string_eqb];
    try (split; [discriminate | discriminate]); [split; reflexivity |].
  rewrite andb_true_iff, IH. split.
  - intros [Hxy ->]. apply Ascii.eqb_eq in Hxy. subst y. reflexivity.
  - intros [= -> ->]. split; [apply Ascii.eqb_refl | reflexivity].
Qed.

(** X19 -- lines that change nothing.  [process_nmea_line] returns with the
    stored authentication result and warning as they were for a line
    shorter than the tag, a line that does not begin with [$PHTG], a line
    without a star or with fewer than two characters after its first star,
    and a line whose two checksum characters are a number other than the
    exclusive or of the bytes before the star.  Whenever it returns, it has
    either left both values alone or replaced both by those of one sentence
    that parsed in full: it never stores one without the other. *)
Theorem rejected_lines_keep_status (line : list ascii) (g : Nmea.GnssStatus) :
  (length line < 5 -> Nmea.process_nmea_line line g = Ok g) /\
  (take 5 line <> Nmea.str "$PHTG" -> Nmea.process_nmea_line line g = Ok g) /\
  (~ In "*"%char line -> Nmea.process_nmea_line line g = Ok g) /\
  (forall pre after,
     line = pre ++ "*"%char :: after -> ~ In "*"%char pre -> length after < 2 ->
     Nmea.process_nmea_line line g = Ok g) /\
  (forall pre c1 c2 rest recv_cs,
     line = pre ++ "*"%char :: c1 :: c2 :: rest -> ~ In "*"%char pre ->
     Nmea.stoi [c1; c2] 16 = Ok recv_cs -> recv_cs <> checksum (drop 1 pre) ->
     Nmea.process_nmea_line line g = Ok g) /\
  (forall g',
     Nmea.process_nmea_line line g = Ok g' ->
     g' = g \/
     exists data,
       Nmea.parse_phtg line Nmea.empty_PHTGData = Ok (true, data) /\
       g' = {| Nmea.gnss_auth_status := Nmea.auth_result data;
               Nmea.gnss_warning := Nmea.warning data |}).
Proof.
  assert (Hinvalid : Nmea.validate_checksum line = Ok false ->
                     Nmea.process_nmea_line line g = Ok g).
  { intros Hbad. unfold Nmea.process_nmea_line.
    destruct ((5 <=? length line) && Nmea.string_eqb (take 5 line) (Nmea.str "$PHTG"))
      eqn:Htag; [| reflexivity].
    apply andb_prop in Htag. destruct Htag as [Hlen Htag].
    unfold Nmea.parse_phtg.
    destruct (Nat.ltb_spec (length line) 5) as [Hlt | _].
    { apply Nat.leb_le in Hlen. lia. }
    rewrite Htag, Hbad. reflexivity. }
  split; [| split; [| split; [| split; [| split]]]].
  - intros Hshort. unfold Nmea.process_nmea_line.
    destruct (Nat.leb_spec 5 (length line)); [lia | reflexivity].
  - intros Hother. unfold Nmea.process_nmea_line.
    destruct (Nmea.string_eqb (take 5 line) (Nmea.str "$PHTG")) eqn:Htag.
    + apply string_eqb_eq in Htag. contradiction.
    + rewrite andb_false_r. reflexivity.
  - intros Hnot. apply Hinvalid. unfold Nmea.validate_checksum.
    rewrite find_not_in by exact Hnot. reflexivity.
  - intros pre after -> Hnot Hshort.
    apply Hinvalid, validate_checksum_short; assumption.
  - intros pre c1 c2 rest recv_cs -> Hnot Hstoi Hne.
    apply Hinvalid. rewrite validate_checksum_split by exact Hnot.
    rewrite Hstoi. cbn [bind].
    destruct (Z.eqb_spec (checksum (drop 1 pre)) recv_cs) as [Heq | _];
      [exfalso; apply Hne; symmetry; exact Heq | reflexivity].
  - intros g'. unfold Nmea.process_nmea_line.
    destruct ((5 <=? length line) && Nmea.string_eqb (take 5 line) (Nmea.str "$PHTG"));
      [| intros [= <-]; left; reflexivity].
    destruct (Nmea.parse_phtg line Nmea.empty_PHTGData) as [[ok data] | |];
      cbn [bind fst snd]; try discriminate.
    destruct ok; intros [= <-]; [right; exists data; split; reflexivity | left; reflexivity].
Qed.

(** ** The last sentence that parsed *)

(** What a line does to the stored status does not depend on the status. *)
Lemma process_nmea_line_uniform (line : list ascii) :
  (forall g, Nmea.process_nmea_line line g = Ok g) /\ ~ accepted line \/
  (exists data,
     Nmea.parse_phtg line Nmea.empty_PHTGData = Ok (true, data) /\
     forall g, Nmea.process_nmea_line line g
               = Ok {| Nmea.gnss_auth_status := Nmea.auth_result data;
                       Nmea.gnss_warning := Nmea.warning data |}) \/
  (forall g g', Nmea.process_nmea_line line g <> Ok g') /\ ~ accepted line.
Proof.
  unfold Nmea.process_nmea_line, accepted.
  destruct ((5 <=? length line) && Nmea.string_eqb (take 5 line) (Nmea.str "$PHTG"))
    eqn:Htag.
  - destruct (Nmea.parse_phtg line Nmea.empty_PHTGData) as [[[|] data] | e |] eqn:Hparse.
    + right. left. exists data. split; reflexivity.
    + left. split; [reflexivity |]. intros [data' Hdata]. discriminate Hdata.
    + right. right. split; [intros g g' Hrun; discriminate Hrun |].
      intros [data' Hdata]. discriminate Hdata.
    + right. right. split; [intros g g' Hrun; discriminate Hrun |].
      intros [data' Hdata]. discriminate Hdata.
  - left. split; [reflexivity |].
    intros [data Hdata]. unfold Nmea.parse_phtg in Hdata.
    apply andb_false_iff in Htag. destruct Htag as [Hshort | Hother].
    + apply Nat.leb_gt in Hshort.
      destruct (Nat.ltb_spec (length line) 5); [discriminate Hdata | lia].
    + rewrite Hother in Hdata.
      destruct (length line <? 5); discriminate Hdata.
Qed.

Lemma process_lines_rejected (lines : list (list ascii)) :
  forall g g',
    Forall (fun line => ~ accepted line) lines ->
    process_lines lines g = Ok g' -> g' = g.
Proof.
  induction lines as [| line lines IH]; intros g g' Hnone Hrun.
  - injection Hrun as <-. reflexivity.
  - apply Forall_cons_1 in Hnone. destruct Hnone as [Hline Hnone].
    cbn [process_lines] in Hrun.
    destruct (process_nmea_line_uniform line)
      as [[Hkeep _] | [(data & Hdata & _) | [Hfail _]]].
    + rewrite Hkeep in Hrun. cbn [bind] in Hrun. exact (IH g g' Hnone Hrun).
    + exfalso. apply Hline. exists data. exact Hdata.
    + destruct (Nmea.process_nmea_line line g) as [g1 | e |] eqn:Hstep;
        try discriminate Hrun.
      exfalso. exact (Hfail g g1 Hstep).
Qed.

(** X20 -- the last sentence that parsed.  When a run of lines goes through
    [process_nmea_line] without an exception, the stored authentication
    result and warning are at its end those of the last line that parsed in
    full, whatever lines were rejected after it and whatever was stored or
    received before it; a run without such a line leaves them as they were. *)
Theorem last_parsed_sentence_is_stored (lines : list (list ascii))
    (g g' : Nmea.GnssStatus) :
  process_lines lines g = Ok g' ->
  (Forall (fun line => ~ accepted line) lines -> g' = g) /\
  (forall before line after data,
     lines = before ++ line :: after ->
     Nmea.parse_phtg line Nmea.empty_PHTGData = Ok (true, data) ->
     Forall (fun later => ~ accepted later) after ->
     g' = {| Nmea.gnss_auth_status := Nmea.auth_result data;
             Nmea.gnss_warning := Nmea.warning data |}).
Proof.
  intros Hrun. split; [intros Hnone; exact (process_lines_rejected lines g g' Hnone Hrun) |].
  intros before line after data -> Hdata Hafter.
  revert g Hrun. induction before as [| first before IH]; intros g Hrun.
  - cbn [app process_lines] in Hrun.
    destruct (process_nmea_line_uniform line)
      as [[_ Hnot] | [(data' & Hdata' & Hstore) | [_ Hnot]]];
      try (exfalso; apply Hnot; exists data; exact Hdata).
    rewrite Hstore in Hrun. cbn [bind] in Hrun.
    rewrite Hdata in Hdata'. injection Hdata' as <-.
    exact (process_lines_rejected after _ g' Hafter Hrun).
  - cbn [app process_lines] in Hrun.
    destruct (Nmea.process_nmea_line first g) as [g1 | e |]; try discriminate Hrun.
    cbn [bind] in Hrun. exact (IH g1 Hrun).
Qed.

Lemma last_parsed_sentence_is_stored_witness :
  exists g',
    process_lines [Nmea.str "$PHTG,230101,120000,GAL,RTK,1,0*0F";
                   Nmea.str "$GPGGA,1*00";
                   Nmea.str "$PHTG,230101,120000,GAL,RTK,7*15"]
      {| Nmea.gnss_auth_status := 4; Nmea.gnss_warning := 5 |} = Ok g' /\
    g' = {| Nmea.gnss_auth_status := 1; Nmea.gnss_warning := 0 |}.
Proof.
  eexists. split; [vm_compute; reflexivity |].
  exact (proj2 (last_parsed_sentence_is_stored
                  [Nmea.str "$PHTG,230101,120000,GAL,RTK,1,0*0F";
                   Nmea.str "$GPGGA,1*00";
                   Nmea.str "$PHTG,230101,120000,GAL,RTK,7*15"]
                  {| Nmea.gnss_auth_status := 4; Nmea.gnss_warning := 5 |}
                  {| Nmea.gnss_auth_status := 1; Nmea.gnss_warning := 0 |}
                  ltac:(vm_compute; reflexivity))
           [] (Nmea.str "$PHTG,230101,120000,GAL,RTK,1,0*0F")
           [Nmea.str "$GPGGA,1*00"; Nmea.str "$PHTG,230101,120000,GAL,RTK,7*15"]
           {| Nmea.date := Nmea.str "230101"; Nmea.time := Nmea.str "120000";
              Nmea.system := Nmea.str "GAL"; Nmea.service := Nmea.str "RTK";
              Nmea.auth_result := 1; Nmea.warning := 0 |}
           eq_refl ltac:(vm_compute; reflexivity)
           ltac:(repeat constructor; intros [data Hdata]; vm_compute in Hdata;
                 discriminate Hdata)).
Defined.

(* ================================================================== *)
(** * Further properties of the sensor clients *)

(** ** From the serial line to the task controller *)

(** X21 -- an accepted sentence reaches the task controller.  After
    [process_nmea_line] has taken a sentence built from six fields (text
    fields without comma or star, numbers in decimal), the request callback
    of either sensor client answers the proprietary index 65432 with the
    authentication result of that sentence; the next round of the polling
    loop calls the change trigger exactly when that result differs from the
    value it observed last; and the warning, stored as well, is reported by
    no request: whatever the element and the index, the second client
    answers with the authentication result or with 0. *)
Theorem accepted_sentence_reaches_the_task_controller (f : Fields) (w : Z) :
  plain (f_date f) -> plain (f_time f) -> plain (f_system f) -> plain (f_service f) ->
  (forall a, f_auth_result f = Some a -> in_int32 a) ->
  f_warning f = Some w -> in_int32 w ->
  let auth := default 0%Z (f_auth_result f) in
  forall g,
  exists g',
    Nmea.process_nmea_line (build_sentence f) g = Ok g' /\
    (forall value,
       Tag2.request_value_command_callback g' Tag2.ELEMENT_NUMBER Tag2.DDI_AUTH_RESULT value
       = (auth, true)) /\
    (forall (T : DDITable) globals elementNumber value,
       distinct_labels T -> Tag.gnss globals = g' ->
       Tag.request_value_command_callback (T := T) globals elementNumber
         Tag.DDI_AUTH_RESULT value
       = (auth, true)) /\
    (forall lastAuth,
       Tag2.main_loop_round lastAuth (Nmea.gnss_auth_status g')
       = (auth, if (auth =? lastAuth)%Z then []
                else [(Tag2.ELEMENT_NUMBER, Tag2.DDI_AUTH_RESULT)])) /\
    (forall elementNumber DDI value,
       Tag2.request_value_command_callback g' elementNumber DDI value = (auth, true) \/
       Tag2.request_value_command_callback g' elementNumber DDI value = (0%Z, true)).
Proof.
  intros Hd Ht Hs Hv Hauth Hwarn Hw auth g.
  exists {| Nmea.gnss_auth_status := auth; Nmea.gnss_warning := w |}.
  split; [| split; [| split; [| split]]].
  - unfold Nmea.process_nmea_line. rewrite build_sentence_tag.
    rewrite (parse_built_sentence f w Nmea.empty_PHTGData) by assumption.
    reflexivity.
  - intros value. reflexivity.
  - intros T globals elementNumber value HT Hg.
    unfold Tag.request_value_command_callback, Tag.DDI_AUTH_RESULT.
    destruct HT as [_ Hc].
    destruct (Z.eqb_spec 65432 (code RequestDefaultProcessData)) as [Heq | _];
      [exfalso; exact (Hc _ (eq_sym Heq)) |].
    rewrite Hg. reflexivity.
  - intros lastAuth. apply tag2_round_observes.
  - intros elementNumber DDI value. unfold Tag2.request_value_command_callback.
    destruct (negb (elementNumber =? Tag2.ELEMENT_NUMBER)%Z); [right; reflexivity |].
    destruct (DDI =? Tag2.DDI_AUTH_RESULT)%Z; [left | right]; reflexivity.
Qed.

Lemma accepted_sentence_reaches_the_task_controller_witness :
  exists g',
    Nmea.process_nmea_line (Nmea.str "$PHTG,230101,120000,GAL,RTK,1,0*0F")
      {| Nmea.gnss_auth_status := 0; Nmea.gnss_warning := 5 |} = Ok g' /\
    Tag2.request_value_command_callback g' 1 65432 0 = (1%Z, true) /\
    Tag2.main_loop_round 0 (Nmea.gnss_auth_status g') = (1%Z, [(1%Z, 65432%Z)]).
Proof.
  destruct (accepted_sentence_reaches_the_task_controller
              (sample_fields (Some 1%Z) (Some 0%Z) "RTK") 0
              (sample_plain "230101" eq_refl) (sample_plain "120000" eq_refl)
              (sample_plain "GAL" eq_refl) (sample_plain "RTK" eq_refl)
              ltac:(intros a [= <-]; unfold in_int32; lia)
              eq_refl ltac:(unfold in_int32; lia)
              {| Nmea.gnss_auth_status := 0; Nmea.gnss_warning := 5 |})
    as (g' & Hrun & Hread & _ & Hround & _).
  exists g'. split; [exact Hrun |]. split; [exact (Hread 0%Z) | exact (Hround 0%Z)].
Defined.

(** ** The work-state toggle of the first sensor client *)

Lemma tag_round_toggles (current_work_state lastAuth : Z) (toggle_due : bool) (a : Z) :
  current_work_state = 0%Z \/ current_work_state = 1%Z ->
  Tag.main_loop_round current_work_state lastAuth toggle_due a
  = (if toggle_due then (1 - current_work_state)%Z else current_work_state, a,
     if (a =? lastAuth)%Z then [] else [(Tag.MAIN_DEVICE_ELEMENT, Tag.DDI_AUTH_RESULT)]).
Proof.
  intros Hstate. unfold Tag.main_loop_round.
  assert (Hflip : to_int32 (1 - current_work_state) = (1 - current_work_state)%Z)
    by (apply to_int32_small; unfold in_int32; lia).
  rewrite Hflip.
  destruct (Z.eqb_spec a lastAuth) as [-> | _]; reflexivity.
Qed.

Lemma last_cons_default (l : list Z) :
  forall a d : Z, default d (last (a :: l)) = default a (last l).
Proof.
  induction l as [| b l IH]; intros a d; [reflexivity |].
  change (last (a :: b :: l)) with (last (b :: l)).
  rewrite (IH b d), (IH b a). reflexivity.
Qed.

Lemma tag_loop_end_state (polls : list (bool * Z)) :
  forall current_work_state lastAuth : Z,
    current_work_state = 0%Z \/ current_work_state = 1%Z ->
    tag_loop_end polls current_work_state lastAuth
    = (((current_work_state + Z.of_nat (toggles polls)) mod 2)%Z,
       default lastAuth (last (map snd polls))).
Proof.
  induction polls as [| [toggle_due a] polls IH]; intros current_work_state lastAuth Hstate.
  - cbn [tag_loop_end toggles List.filter length map last default].
    rewrite Z.add_0_r, Z.mod_small by lia. reflexivity.
  - cbn [tag_loop_end]. rewrite tag_round_toggles by exact Hstate.
    rewrite IH by (destruct toggle_due; lia).
    f_equal.
    + unfold toggles. cbn [List.filter fst].
      destruct toggle_due; cbn [length]; [| reflexivity].
      rewrite Nat2Z.inj_succ.
      destruct Hstate as [-> | ->]; Z.to_euclidean_division_equations; lia.
    + cbn [map snd]. symmetry. apply last_cons_default.
Qed.

(** X22 -- the work-state toggle.  The loop of the first sensor client
    flips its work state between 0 and 1 in every round in which the toggle
    is due: after a run of rounds the state is the start state plus the
    number of due toggles, modulo 2, and the Actual Work State request
    reports exactly that state; the loop ends with the last polled value as
    the value it observed last.  The toggle itself is never notified: each
    round calls the change trigger at most once, for the proprietary index,
    and a run in which the polled value stays what it was calls no trigger,
    however often the work state flipped. *)
Theorem work_state_toggles {T : DDITable} (HT : distinct_labels T)
    (polls : list (bool * Z)) (current_work_state lastAuth : Z) :
  current_work_state = 0%Z \/ current_work_state = 1%Z ->
  let state := ((current_work_state + Z.of_nat (toggles polls)) mod 2)%Z in
  tag_loop_end polls current_work_state lastAuth
  = (state, default lastAuth (last (map snd polls))) /\
  (forall globals elementNumber value,
     Tag.current_work_state globals = state ->
     Tag.request_value_command_callback globals elementNumber (code ActualWorkState) value
     = (state, true)) /\
  Forall (fun triggers => triggers = [] \/
                          triggers = [(Tag.MAIN_DEVICE_ELEMENT, Tag.DDI_AUTH_RESULT)])
    (Tag.main_loop polls current_work_state lastAuth) /\
  (Forall (fun poll => snd poll = lastAuth) polls ->
   notifications (Tag.main_loop polls current_work_state lastAuth) = 0).
Proof.
  intros Hstate state. subst state.
  split; [apply tag_loop_end_state, Hstate |].
  split.
  { intros globals elementNumber value Hglobals.
    unfold Tag.request_value_command_callback, Tag.DDI_AUTH_RESULT.
    switch_on HT. rewrite Hglobals. reflexivity. }
  rewrite tag_main_loop_as_tag2.
  clear Hstate. split.
  - generalize lastAuth. induction polls as [| [toggle_due a] polls IH]; intros la;
      [constructor |].
    cbn [map snd Tag2.main_loop]. rewrite tag2_round_observes.
    constructor; [| apply IH].
    destruct (a =? la)%Z; [left | right]; reflexivity.
  - intros Hsame. destruct (tag2_main_loop_count (map snd polls) lastAuth) as [_ ->].
    induction Hsame as [| [toggle_due a] polls Ha _ IH]; [reflexivity |].
    cbn [snd] in Ha. subst a. cbn [map snd transitions].
    rewrite Z.eqb_refl. exact IH.
Qed.

Lemma work_state_toggles_witness :
  distinct_labels iso11783 /\
  tag_loop_end [(false, 0); (true, 0); (false, 0); (true, 0); (true, 0)]%Z 0 0
  = (1%Z, 0%Z) /\
  notifications (Tag.main_loop [(false, 0); (true, 0); (false, 0); (true, 0); (true, 0)]%Z
                   0 0) = 0.
Proof.
  split; [exact iso11783_distinct |].
  destruct (work_state_toggles iso11783_distinct
              [(false, 0); (true, 0); (false, 0); (true, 0); (true, 0)]%Z 0 0
              (or_introl eq_refl)) as (Hend & _ & _ & Hquiet).
  split; [exact Hend |].
  apply Hquiet. repeat constructor.
Defined.

(** ** The builders of the sensor clients, add by add *)

Section Runs.
Context {Pool Handle : Type} {OP : ObjectPool Pool Handle}.

Lemma EndsAt_final (final : bool -> Build Pool bool) (ok : bool) :
  EndsAt (final ok) ok [] final.
Proof.
  intros pool. cbn [answers_of pool_after forallb combine app].
  rewrite andb_true_r. split; reflexivity.
Qed.

Lemma EndsAt_and_add (k : bool -> Build Pool bool) (ok : bool) (call : AddCall)
    (steps : list AddCall) (final : bool -> Build Pool bool) :
  (forall ok', EndsAt (k ok') ok' steps final) ->
  EndsAt (ok' <~ and_add ok call ;; k ok') ok (call :: steps) final.
Proof.
  intros Hk pool.
  destruct (Hk (ok && fst (pool_add call pool)) (snd (pool_add call pool)))
    as [Hadds Hout].
  cbn [answers_of pool_after forallb combine]. cbv zeta.
  assert (Hflag : ok && (id (fst (pool_add call pool))
                         && forallb id (answers_of steps (snd (pool_add call pool))))
                  = ok && fst (pool_add call pool)
                    && forallb id (answers_of steps (snd (pool_add call pool))))
    by apply andb_assoc.
  rewrite Hflag, adds_bind, outcome_bind.
  unfold and_add at 1 2 3. cbn [outcome adds].
  split; [rewrite Hadds; reflexivity | exact Hout].
Qed.

Lemma EndsAt_clear (m : Build Pool bool) (ok : bool) (steps : list AddCall)
    (final : bool -> Build Pool bool) (pool : Pool) :
  EndsAt m ok steps final ->
  adds ((_ <~ clear ;; m) pool)
  = combine steps (answers_of steps (pool_clear pool))
    ++ adds (final (ok && forallb id (answers_of steps (pool_clear pool)))
               (pool_after steps (pool_clear pool))) /\
  outcome ((_ <~ clear ;; m) pool)
  = outcome (final (ok && forallb id (answers_of steps (pool_clear pool)))
               (pool_after steps (pool_clear pool))).
Proof.
  intros Hm. rewrite adds_bind, outcome_bind.
  exact (Hm (pool_clear pool)).
Qed.

End Runs.

Section SensorBuilders.
Context {T : DDITable} {C : PoolConstants}.
Context {Pool Handle : Type} {OP : ObjectPool Pool Handle}.

Lemma tag_populate_ends_at (clientName : Z) (pool : Pool) :
  adds (Tag.populate clientName pool)
  = combine (tag_add_steps clientName)
      (answers_of (tag_add_steps clientName) (pool_clear pool))
    ++ adds (tag_final
               (true && forallb id (answers_of (tag_add_steps clientName) (pool_clear pool)))
               (pool_after (tag_add_steps clientName) (pool_clear pool))) /\
  outcome (Tag.populate clientName pool)
  = outcome (tag_final
               (true && forallb id (answers_of (tag_add_steps clientName) (pool_clear pool)))
               (pool_after (tag_add_steps clientName) (pool_clear pool))).
Proof.
  unfold Tag.populate. cbv zeta.
  apply EndsAt_clear.
  repeat (apply EndsAt_and_add; intros ?).
  apply (EndsAt_final tag_final).
Qed.

Lemma tag2_populate_ends_at (clientName : Z) (pool : Pool) :
  adds (Tag2.populate clientName pool)
  = combine (tag2_add_steps clientName)
      (answers_of (tag2_add_steps clientName) (pool_clear pool))
    ++ adds (tag2_final
               (true && forallb id (answers_of (tag2_add_steps clientName) (pool_clear pool)))
               (pool_after (tag2_add_steps clientName) (pool_clear pool))) /\
  outcome (Tag2.populate clientName pool)
  = outcome (tag2_final
               (true && forallb id (answers_of (tag2_add_steps clientName) (pool_clear pool)))
               (pool_after (tag2_add_steps clientName) (pool_clear pool))).
Proof.
  unfold Tag2.populate. cbv zeta.
  apply EndsAt_clear.
  repeat (apply EndsAt_and_add; intros ?).
  apply (EndsAt_final tag2_final).
Qed.

(** X23 -- the builder of the first sensor client, in full.  Through a pool
    pointer that is not null it clears the pool and makes its nine adds;
    when one of them failed it returns false with the pool as the adds left
    it, without a lookup; when all succeeded it returns true, having added
    to the main element, if the lookup found it, the references to the
    default process data, the work state, the authentication result and the
    total time, in this order, and having added nothing if the lookup found
    no main element: a missing element is passed over silently, never
    dereferenced. *)
Theorem first_sensor_wiring_is_tolerant (pool : Pool) (clientName : Z) :
  let steps := tag_add_steps clientName in
  let answers := answers_of steps (pool_clear pool) in
  let built := pool_after steps (pool_clear pool) in
  let r := Tag.create_ddop (Some pool) clientName in
  map kind_of steps
  = [KDevice; KElement; KPresentation; KPresentation; KPresentation;
     KProcessData; KProcessData; KProcessData; KProcessData] /\
  map object_id steps = [0; 1; 51; 52; 50; 5; 10; 21; 20]%Z /\
  adds r = combine steps answers /\
  outcome r
  = Ok (if forallb id answers
        then (true,
              Some match pool_get_object_by_id
                           Tag.HashtagDDOPObjectIDs.MainDeviceElement built with
                   | Some mainElement =>
                       with_references mainElement
                         [Tag.HashtagDDOPObjectIDs.RequestDefaultProcessData;
                          Tag.HashtagDDOPObjectIDs.ActualWorkState;
                          Tag.HashtagDDOPObjectIDs.AuthResultPD;
                          Tag.HashtagDDOPObjectIDs.DeviceTotalTime] built
                   | None => built
                   end)
        else (false, Some built)).
Proof.
  intros steps answers built r. subst r.
  split; [apply tag_add_steps_kinds |]. split; [apply tag_add_steps_kinds |].
  unfold Tag.create_ddop, on_pool. cbn [adds outcome].
  destruct (tag_populate_ends_at clientName pool) as [Hadds Hout].
  fold steps in Hadds, Hout. fold answers in Hadds, Hout. fold built in Hadds, Hout.
  cbn [andb] in Hadds, Hout.
  rewrite Hadds, Hout. destruct tag_final_run as (Hquiet & _ & _).
  rewrite Hquiet, app_nil_r. split; [reflexivity |].
  destruct (forallb id answers); [| reflexivity].
  unfold tag_final. cbn [negb]. rewrite outcome_get_object_by_id.
  destruct (pool_get_object_by_id Tag.HashtagDDOPObjectIDs.MainDeviceElement built);
    repeat (rewrite outcome_add_reference); reflexivity.
Qed.

(** X24 -- the builder of the second sensor client, in full.  Through a
    pool pointer that is not null it clears the pool and makes its eight
    adds, none of which makes the sensor element it looks up afterwards;
    when an add failed it returns false without a lookup.  When all
    succeeded and the lookup finds no sensor element, it returns true with
    the pool as the adds left it: the whole wiring is skipped, the main
    element's references too.  With a sensor element found it adds two
    references to the main element and two to the sensor element, and a
    main element that is missing then is dereferenced. *)
Theorem second_sensor_wiring (pool : Pool) (clientName : Z) :
  let steps := tag2_add_steps clientName in
  let answers := answers_of steps (pool_clear pool) in
  let built := pool_after steps (pool_clear pool) in
  let r := Tag2.create_ddop (Some pool) clientName in
  map kind_of steps
  = [KDevice; KElement; KPresentation; KPresentation; KPresentation;
     KProcessData; KProcessData; KProcessData] /\
  map object_id steps = [0; 1; 51; 52; 50; 10; 21; 20]%Z /\
  ~ In Tag2.HashtagDDOPObjectIDs.SensorElement (map object_id steps) /\
  adds r = combine steps answers /\
  outcome r
  = (if forallb id answers
     then match pool_get_object_by_id Tag2.HashtagDDOPObjectIDs.SensorElement built,
                pool_get_object_by_id Tag2.HashtagDDOPObjectIDs.MainDeviceElement built with
          | None, _ => Ok (true, Some built)
          | Some sensorElement, Some mainElement =>
              Ok (true,
                  Some (with_references sensorElement
                          [Tag2.HashtagDDOPObjectIDs.AuthResultPD;
                           Tag2.HashtagDDOPObjectIDs.DeviceTotalTime]
                          (with_references mainElement
                             [Tag2.HashtagDDOPObjectIDs.SensorElement;
                              Tag2.HashtagDDOPObjectIDs.ActualWorkState] built)))
          | Some _, None => Crash
          end
     else Ok (false, Some built)).
Proof.
  intros steps answers built r. subst r.
  split; [apply tag2_add_steps_kinds |]. split; [apply tag2_add_steps_kinds |].
  split.
  { subst steps. rewrite (proj2 (tag2_add_steps_kinds clientName)).
    intros Hin. repeat (destruct Hin as [Hin | Hin]; [discriminate Hin |]).
    destruct Hin. }
  unfold Tag2.create_ddop, on_pool. cbn [adds outcome].
  destruct (tag2_populate_ends_at clientName pool) as [Hadds Hout].
  fold steps in Hadds, Hout. fold answers in Hadds, Hout. fold built in Hadds, Hout.
  cbn [andb] in Hadds, Hout.
  rewrite Hadds, Hout. destruct tag2_final_run as (Hquiet & _ & _).
  rewrite Hquiet, app_nil_r. split; [reflexivity |].
  destruct (forallb id answers); [| reflexivity].
  unfold tag2_final. cbn [negb]. rewrite !outcome_get_object_by_id.
  destruct (pool_get_object_by_id Tag2.HashtagDDOPObjectIDs.SensorElement built);
    destruct (pool_get_object_by_id Tag2.HashtagDDOPObjectIDs.MainDeviceElement built);
    repeat (rewrite outcome_add_reference); reflexivity.
Qed.

Lemma sprayer_populate_ends_at (ActualRate clientName : Z) (pool : Pool) :
  adds (Sprayer.populate ActualRate clientName pool)
  = combine (sprayer_add_steps clientName)
      (answers_of (sprayer_add_steps clientName) (pool_clear pool))
    ++ adds (sprayer_final ActualRate
               (true && forallb id (answers_of (sprayer_add_steps clientName)
                                      (pool_clear pool)))
               (pool_after (sprayer_add_steps clientName) (pool_clear pool))) /\
  outcome (Sprayer.populate ActualRate clientName pool)
  = outcome (sprayer_final ActualRate
               (true && forallb id (answers_of (sprayer_add_steps clientName)
                                      (pool_clear pool)))
               (pool_after (sprayer_add_steps clientName) (pool_clear pool))).
Proof.
  unfold Sprayer.populate. cbv zeta.
  apply EndsAt_clear.
  repeat (apply EndsAt_and_add; intros ?).
  apply (EndsAt_final (sprayer_final ActualRate)).
Qed.

(** X25 -- the builder of the sprayer client, in full.  With a simulator
    that has a section and through a pool pointer that is not null, it
    clears the pool and makes its twelve adds, none of which makes a spray
    boom or a liquid product; when an add failed it returns false without a
    lookup.  When all succeeded it looks up the main element, the connector,
    the spray boom and the liquid product: with all four found it adds their
    references, in the order of the source, and returns true; with any of
    them missing it dereferences a null pointer. *)
Theorem sprayer_builder_in_full (ActualRate : Z) (sim : Sprayer.Sim) (pool : Pool)
    (clientName : Z) :
  Sprayer.get_number_of_sections sim <> 0 ->
  let steps := sprayer_add_steps clientName in
  let answers := answers_of steps (pool_clear pool) in
  let built := pool_after steps (pool_clear pool) in
  let r := Sprayer.create_ddop ActualRate sim (Some pool) clientName in
  map kind_of steps
  = [KDevice; KElement; KProcessData; KProcessData; KProcessData; KProcessData;
     KElement; KProcessData; KProcessData; KProperty; KPresentation; KPresentation] /\
  map object_id steps = [0; 1; 2; 1053; 3; 4; 5; 6; 7; 8; 1052; 1051]%Z /\
  ~ In Sprayer.ImplementDDOPObjectIDs.SprayBoom (map object_id steps) /\
  ~ In Sprayer.ImplementDDOPObjectIDs.LiquidProduct (map object_id steps) /\
  adds r = combine steps answers /\
  outcome r
  = (if forallb id answers
     then match pool_get_object_by_id Sprayer.ImplementDDOPObjectIDs.MainDeviceElement built,
                pool_get_object_by_id Sprayer.ImplementDDOPObjectIDs.Connector built,
                pool_get_object_by_id Sprayer.ImplementDDOPObjectIDs.SprayBoom built,
                pool_get_object_by_id Sprayer.ImplementDDOPObjectIDs.LiquidProduct built with
          | Some sprayer, Some connector, Some boom, Some product =>
              Ok (true,
                  Some (with_references product
                          [Sprayer.ImplementDDOPObjectIDs.TankCapacity;
                           Sprayer.ImplementDDOPObjectIDs.TankVolume;
                           Sprayer.ImplementDDOPObjectIDs.LifetimeApplicationVolumeTotal;
                           Sprayer.ImplementDDOPObjectIDs.PrescriptionControlState;
                           Sprayer.ImplementDDOPObjectIDs.ActualCulturalPractice;
                           Sprayer.ImplementDDOPObjectIDs.TargetRate;
                           ActualRate]
                       (with_references boom
                          [Sprayer.ImplementDDOPObjectIDs.BoomXOffset;
                           Sprayer.ImplementDDOPObjectIDs.BoomYOffset;
                           Sprayer.ImplementDDOPObjectIDs.BoomZOffset;
                           Sprayer.ImplementDDOPObjectIDs.ActualWorkingWidth;
                           Sprayer.ImplementDDOPObjectIDs.SectionControlState;
                           Sprayer.ImplementDDOPObjectIDs.AreaTotal;
                           Sprayer.ImplementDDOPObjectIDs.ActualCondensedWorkingState1To16;
                           Sprayer.ImplementDDOPObjectIDs.SetpointCondensedWorkingState1To16]
                       (with_references connector
                          [Sprayer.ImplementDDOPObjectIDs.ConnectorXOffset;
                           Sprayer.ImplementDDOPObjectIDs.ConnectorYOffset;
                           Sprayer.ImplementDDOPObjectIDs.ConnectorType]
                       (with_references sprayer
                          [Sprayer.ImplementDDOPObjectIDs.DeviceActualWorkState;
                           Sprayer.ImplementDDOPObjectIDs.SetpointWorkState;
                           Sprayer.ImplementDDOPObjectIDs.DeviceTotalTime;
                           Sprayer.ImplementDDOPObjectIDs.RequestDefaultProcessData;
                           Sprayer.ImplementDDOPObjectIDs.HashtagParameter]
                          built)))))
          | _, _, _, _ => Crash
          end
     else Ok (false, Some built)).
Proof.
  intros Hsections steps answers built r. subst r.
  split; [apply sprayer_add_steps_kinds |].
  assert (Hids : map object_id steps = [0; 1; 2; 1053; 3; 4; 5; 6; 7; 8; 1052; 1051]%Z)
    by apply sprayer_add_steps_kinds.
  split; [exact Hids |].
  split.
  { rewrite Hids. intros Hin.
    repeat (destruct Hin as [Hin | Hin]; [discriminate Hin |]). destruct Hin. }
  split.
  { rewrite Hids. intros Hin.
    repeat (destruct Hin as [Hin | Hin]; [discriminate Hin |]). destruct Hin. }
  unfold Sprayer.create_ddop.
  destruct (Nat.eqb_spec (Sprayer.get_number_of_sections sim) 0) as [H0 | _];
    [contradiction |].
  unfold on_pool. cbn [adds outcome].
  destruct (sprayer_populate_ends_at ActualRate clientName pool) as [Hadds Hout].
  fold steps in Hadds, Hout. fold answers in Hadds, Hout. fold built in Hadds, Hout.
  cbn [andb] in Hadds, Hout.
  rewrite Hadds, Hout. destruct (sprayer_final_run ActualRate) as (Hquiet & _ & _).
  rewrite Hquiet, app_nil_r. split; [reflexivity |].
  destruct (forallb id answers); [| reflexivity].
  unfold sprayer_final. rewrite outcome_bind.
  unfold Sprayer.wire_children. rewrite !outcome_get_object_by_id.
  destruct (pool_get_object_by_id Sprayer.ImplementDDOPObjectIDs.MainDeviceElement built);
    destruct (pool_get_object_by_id Sprayer.ImplementDDOPObjectIDs.Connector built);
    destruct (pool_get_object_by_id Sprayer.ImplementDDOPObjectIDs.SprayBoom built);
    destruct (pool_get_object_by_id Sprayer.ImplementDDOPObjectIDs.LiquidProduct built);
    repeat (rewrite outcome_add_reference); reflexivity.
Qed.

End SensorBuilders.

Lemma sprayer_builder_in_full_witness :
  Sprayer.get_number_of_sections six_sections <> 0 /\
  outcome (Sprayer.create_ddop (T := iso11783) (C := iso_pool_constants)
             (OP := constant_pool true false) 1054 six_sections (Some tt) 42)
  = Crash /\
  outcome (Sprayer.create_ddop (T := iso11783) (C := iso_pool_constants)
             (OP := constant_pool false true) 1054 six_sections (Some tt) 42)
  = Ok (false, Some tt).
Proof.
  assert (Hsections : Sprayer.get_number_of_sections six_sections <> 0)
    by (vm_compute; discriminate).
  split; [exact Hsections |].
  split.
  - destruct (sprayer_builder_in_full (T := iso11783) (C := iso_pool_constants)
                (OP := constant_pool true false) 1054 six_sections tt 42 Hsections)
      as (_ & _ & _ & _ & _ & Hout).
    rewrite Hout. reflexivity.
  - destruct (sprayer_builder_in_full (T := iso11783) (C := iso_pool_constants)
                (OP := constant_pool false true) 1054 six_sections tt 42 Hsections)
      as (_ & _ & _ & _ & _ & Hout).
    rewrite Hout. reflexivity.
Defined.

(* ================================================================== *)
(** * The command line *)

Lemma read_arguments_rest (program : list ascii) (args : list (list ascii)) :
  forall (i : nat) (serial_device : list ascii) (serial_baud : Z),
    3 <= i ->
    Forall (fun arg => Startup.is_help arg = false) args ->
    Startup.read_arguments program args i serial_device serial_baud
    = Some (Startup.Serial serial_device serial_baud).
Proof.
  induction args as [| arg args IH]; intros i serial_device serial_baud Hi Hargs;
    [reflexivity |].
  apply Forall_cons_1 in Hargs. destruct Hargs as [Harg Hargs].
  cbn [Startup.read_arguments]. rewrite Harg.
  destruct (Nat.eqb_spec i 1); [lia |]. destruct (Nat.eqb_spec i 2); [lia |].
  apply IH; [lia | exact Hargs].
Qed.

Lemma read_arguments_help (program : list ascii) (before : list (list ascii))
    (flag : list ascii) (after : list (list ascii)) :
  forall (i : nat) (serial_device : list ascii) (serial_baud : Z),
    3 <= i ->
    Forall (fun arg => Startup.is_help arg = false) before ->
    Startup.is_help flag = true ->
    Startup.read_arguments program (before ++ flag :: after) i serial_device serial_baud
    = Some (Startup.Usage (Startup.usage_line program)).
Proof.
  induction before as [| arg before IH]; intros i serial_device serial_baud Hi Hbefore Hflag.
  - cbn [app Startup.read_arguments]. rewrite Hflag. reflexivity.
  - apply Forall_cons_1 in Hbefore. destruct Hbefore as [Harg Hbefore].
    cbn [app Startup.read_arguments]. rewrite Harg.
    destruct (Nat.eqb_spec i 1); [lia |]. destruct (Nat.eqb_spec i 2); [lia |].
    apply IH; [lia | exact Hbefore | exact Hflag].
Qed.

(** [std::atoi] reads what [std::stoi] reads. *)
Lemma atoi_stoi (s : list ascii) (z : Z) :
  Nmea.stoi s 10 = Ok z -> Startup.atoi s = Some z.
Proof.
  unfold Nmea.stoi, Startup.atoi.
  destruct (Nmea.split_sign (Nmea.skip_spaces s)) as [negative digits].
  destruct (Nmea.read_magnitude 10 digits) as [m |]; [| discriminate].
  destruct (((if negative then - m else m) <? - 2 ^ 31)
            || (2 ^ 31 - 1 <? (if negative then - m else m)))%Z; [discriminate |].
  intros [= <-]. reflexivity.
Qed.

Lemma atoi_no_number (c : ascii) (rest : list ascii) :
  starts_no_number c -> Startup.atoi (c :: rest) = Some 0%Z.
Proof.
  intros (Hspace & Hsign & Hdigit). unfold Startup.atoi.
  cbn [Nmea.skip_spaces]. rewrite Hspace.
  unfold is_sign in Hsign. apply orb_false_elim in Hsign. destruct Hsign as [Hminus Hplus].
  cbn [Nmea.split_sign]. rewrite Hminus, Hplus.
  rewrite read_magnitude_decimal. cbn [Nmea.read_digits]. rewrite Hdigit. reflexivity.
Qed.

(** X26 -- the command line of the sensor clients.  A help flag ([--help]
    or [-h]) makes [main] print the usage line and return, wherever it
    stands among the arguments, as long as a baud argument before it is
    one [std::atoi] has a result for.  Without a help flag the first
    argument is the serial device and the second the baud rate, the defaults
    being [/tmp/ttyV0] and 115200; further arguments are ignored.  The baud
    rate is what [std::atoi] makes of its argument: the decimal number it
    starts with, and 0, without any report, when it starts with none. *)
Theorem command_line (program : list ascii) (args : list (list ascii)) :
  (forall before flag after,
     args = before ++ flag :: after ->
     Startup.is_help flag = true ->
     Forall (fun arg => Startup.is_help arg = false) before ->
     (forall baud, before !! 1 = Some baud -> Startup.atoi baud <> None) ->
     Startup.arguments (program :: args)
     = Some (Startup.Usage (Startup.usage_line program))) /\
  (forall serial_baud,
     Forall (fun arg => Startup.is_help arg = false) args ->
     (forall baud, args !! 1 = Some baud -> Startup.atoi baud = Some serial_baud) ->
     Startup.arguments (program :: args)
     = Some (Startup.Serial (default (Nmea.str "/tmp/ttyV0") (args !! 0))
               (match args !! 1 with
                | Some _ => serial_baud
                | None => 115200%Z
                end))) /\
  (forall c rest, starts_no_number c -> Startup.atoi (c :: rest) = Some 0%Z) /\
  (forall z junk,
     in_int32 z -> ends_number junk -> Startup.atoi (show_int z ++ junk) = Some z).
Proof.
  split; [| split; [| split]].
  - intros before flag after -> Hflag Hbefore Hbaud.
    unfold Startup.arguments. cbv zeta.
    destruct before as [| device [| baud before]].
    + cbn [app Startup.read_arguments]. rewrite Hflag. reflexivity.
    + apply Forall_cons_1 in Hbefore. destruct Hbefore as [Hdevice _].
      cbn [app Startup.read_arguments Nat.eqb]. rewrite Hdevice, Hflag. reflexivity.
    + apply Forall_cons_1 in Hbefore. destruct Hbefore as [Hdevice Hbefore].
      apply Forall_cons_1 in Hbefore. destruct Hbefore as [Hnohelp Hbefore].
      specialize (Hbaud baud eq_refl).
      cbn [app Startup.read_arguments Nat.eqb]. rewrite Hdevice, Hnohelp.
      destruct (Startup.atoi baud) as [value |]; [| contradiction].
      apply read_arguments_help; [lia | exact Hbefore | exact Hflag].
  - intros serial_baud Hargs Hbaud.
    unfold Startup.arguments. cbv zeta.
    destruct args as [| device [| baud args]].
    + reflexivity.
    + apply Forall_cons_1 in Hargs. destruct Hargs as [Hdevice _].
      cbn [Startup.read_arguments Nat.eqb]. rewrite Hdevice. reflexivity.
    + apply Forall_cons_1 in Hargs. destruct Hargs as [Hdevice Hargs].
      apply Forall_cons_1 in Hargs. destruct Hargs as [Hnohelp Hargs].
      cbn [Startup.read_arguments Nat.eqb]. rewrite Hdevice, Hnohelp.
      rewrite (Hbaud baud eq_refl).
      rewrite read_arguments_rest by (lia || exact Hargs). reflexivity.
  - exact atoi_no_number.
  - intros z junk Hz Hjunk. apply atoi_stoi.
    pose proof (stoi_decimal [] junk z ltac:(constructor) Hjunk) as Hread.
    unfold in_int32 in Hz. cbn [app] in Hread. rewrite Hread by lia.
    destruct (Z.ltb_spec z (- 2 ^ 31)); [lia |].
    destruct (Z.ltb_spec (2 ^ 31 - 1) z); [lia | reflexivity].
Qed.
